(** * Interest Calculator: the daily accrual engine and its two lookups

    A shallow embedding of the accrual engine that the Streamlit and
    command-line scripts of the repository carry in several copies:

    - [HOHOHOHOH.calculate_interest_with_steps]  (HOHOHOHOH.py)
    - [App234.calculate_interest_with_steps]     (app234.py)
    - [Backup.calculate_interest_with_steps]     (backup.py, testapp.py,
      streamlittest.py)
    - [Cli.calculate_interest_with_steps]        (interest_calculator_cli.py)
    - [OffRelease.calculate_daily_interest]      (OffRelease.py)
    - [AHHHAHAHA.calculate_daily_interest]       (.devcontainer/AHHHAHAHA.py)

    Modelling choices.
    - Numbers.  The Python code computes on binary floating point numbers.
      The scripts are embedded twice.  In the modules named after the
      files every amount, balance and rate is a rational in canonical form
      ([Qc]): this is the code run on an arithmetic without rounding
      error, and what is stated of it are properties that do not turn on
      the arithmetic, such as the days of the log, the comparisons of the
      lookups and the agreement of two runs.  In [Generic] the loops are
      written over an arithmetic that is left open; [Float.arithmetic] is
      that of Python on IEEE 754 doubles, in which the examples that turn
      on rounding are evaluated.
    - Dates.  A pandas [Timestamp] at midnight is its proleptic Gregorian
      day number ([Z]), as [datetime.date.toordinal] gives it.
    - Data frames.  A frame is the list of its rows, in row order.  The
      dictionary (or Series) of netted transactions is a [gmap].
    - Errors.  A raised exception is the [inl] of a sum type. *)

From Stdlib Require Import ZArith QArith Qcanon String.
From Stdlib Require Import PrimFloat.
From Stdlib Require FloatOps SpecFloat Uint63.
From stdpp Require Import base numbers list gmap sorting.

Local Open Scope Z_scope.
Local Open Scope Qc_scope.

Set Warnings "-inexact-float".

(** ** Numbers *)

(** A decimal literal of the source, as an exact rational. *)
Definition dec (q : Q) : Qc := Q2Qc q.

(** Nearest integer, ties to the even neighbour. *)
Definition round_half_even (q : Q) : Z :=
  let n := Qnum q in
  let d := Zpos (Qden q) in
  let f := (n / d)%Z in
  let r := (n mod d)%Z in
  match (2 * r ?= d)%Z with
  | Lt => f
  | Gt => (f + 1)%Z
  | Eq => if Z.even f then f else (f + 1)%Z
  end.

(** Python's [round(x, ndigits)] on a rational [x]: the multiple of
    [10^-ndigits] nearest to [x], ties to even.  ([Float.round] is [round]
    on a double.) *)
Definition round (x : Qc) (ndigits : nat) : Qc :=
  let scale := inject_Z (10 ^ Z.of_nat ndigits) in
  Q2Qc (inject_Z (round_half_even (Qred (x * scale)%Q)) / scale)%Q.

(** ** Dates *)

Definition is_leap (y : Z) : bool :=
  ((y mod 4 =? 0) && negb (y mod 100 =? 0) || (y mod 400 =? 0))%Z.

Definition days_before_year (y : Z) : Z :=
  let p := (y - 1)%Z in (p * 365 + p / 4 - p / 100 + p / 400)%Z.

Definition days_in_month (y m : Z) : Z :=
  if (m =? 2)%Z then (if is_leap y then 29 else 28)%Z
  else if ((m =? 4) || (m =? 6) || (m =? 9) || (m =? 11))%Z then 30%Z
  else 31%Z.

Definition days_before_month (y m : Z) : Z :=
  foldr Z.add 0%Z (days_in_month y <$> seqZ 1 (m - 1)).

(** [datetime.date(y, m, d).toordinal()]. *)
Definition toordinal (y m d : Z) : Z :=
  (days_before_year y + days_before_month y m + d)%Z.

(** [pd.date_range(start=start, end=end_date)]: every day from [start] to
    [end_date], both included; empty when [end_date] is before [start]. *)
Definition date_range (start end_date : Z) : list Z :=
  seqZ start (end_date - start + 1).

(** ** Data model *)

(** A row of bands.csv after [load_data] has split its range. *)
Record BandRange := mkBand { band : string; Minimum : Qc; Maximum : Qc }.

(** A row of rates.csv. *)
Record RateEntry := mkRate { Start_Date : Z; rate_band : string; rate : Qc }.

(** A row of the transactions frame: columns "Date" and "Change". *)
Abbreviation Transaction := (Z * Qc)%type.

(** A row of the calculation log.  The column names differ between the
    copies ("Band" / "Interest Band", "Daily Rate (%)" / "Annual Rate (%)",
    "Total Interest So Far" / "Cumulative Interest"); the positions do not.
    [Date] is the day itself; the source stores its [strftime] text. *)
Record LogRow := mkRow {
  Date : Z;
  Balance : Qc;
  Band : string;
  Rate : Qc;
  Daily_Interest : Qc;
  Total_Interest_So_Far : Qc
}.

Inductive error := ValueError.

Global Instance BandRange_eq_dec : EqDecision BandRange.
Proof. solve_decision. Defined.
Global Instance RateEntry_eq_dec : EqDecision RateEntry.
Proof. solve_decision. Defined.
Global Instance LogRow_eq_dec : EqDecision LogRow.
Proof. solve_decision. Defined.
Global Instance error_eq_dec : EqDecision error.
Proof. solve_decision. Defined.

(** Python truthiness of an optional band name: [None] and the empty
    string are false. *)
Definition truthy (b : option string) : bool :=
  match b with
  | Some s => negb (String.eqb s EmptyString)
  | None => false
  end.

(** [b if b else dflt] (also [b or dflt]). *)
Definition or_else (b : option string) (dflt : string) : string :=
  match b with
  | Some s => if String.eqb s EmptyString then dflt else s
  | None => dflt
  end.

(** ** Grouping the transactions *)

(** [transactions_df["Date"].min()]; [None] stands for the [NaT] of an
    empty column. *)
Definition Date_min (transactions_df : list Transaction) : option Z :=
  match transactions_df with
  | [] => None
  | t :: ts => Some (foldl Z.min t.1 ts.*1)
  end.

(** [transactions_df.groupby("Date")["Change"].sum()]: one key per date,
    holding the sum of that date's changes, added in row order.  (On
    rationals the order is of no account; on doubles it is, see
    [Generic.groupby_sum].) *)
Definition groupby_sum (transactions_df : list Transaction) : gmap Z Qc :=
  foldl (λ m t, <[t.1 := default 0 (m !! t.1) + t.2]> m) ∅ transactions_df.

(** The state of the daily loop: the two accumulators and the log. *)
Record loop_state := mkState {
  st_balance : Qc;
  st_total_interest : Qc;
  st_log_rows : list LogRow
}.

Definition initial_state : loop_state := mkState 0 0 [].

(** ** HOHOHOHOH.py *)

Module HOHOHOHOH.
Section Globals.
(** The module-level frames that [load_data] returns. *)
Variable rates : list RateEntry.
Variable bands : list BandRange.

Definition get_band_name (balance : Qc) : option string :=
  let row := filter (λ r, Minimum r ≤ balance ∧ balance ≤ Maximum r) bands in
  match row with
  | r :: _ => Some (band r)
  | [] => None
  end.

(** [band_name] is whatever [get_band_name] returned; comparing the band
    column with [None] selects no row. *)
Definition get_rate_for_date_and_band (date : Z) (band_name : option string) : Qc :=
  let applicable :=
    filter (λ e, (Start_Date e ≤ date)%Z ∧ Some (rate_band e) = band_name) rates in
  match last applicable with
  | Some e => rate e
  | None => 0
  end.

(** One turn of [for current_date in date_range]. *)
Definition step (trans_by_date : gmap Z Qc) (st : loop_state) (current_date : Z)
    : loop_state :=
  let balance :=
    match trans_by_date !! current_date with
    | Some change => st_balance st + change
    | None => st_balance st
    end in
  let band := get_band_name balance in
  let '(rate, daily_interest, total_interest) :=
    if negb (truthy band) then (0, 0, st_total_interest st)
    else
      let rate := get_rate_for_date_and_band current_date band / dec 100 / dec 365 in
      let daily_interest := balance * rate in
      (rate, daily_interest, st_total_interest st + daily_interest) in
  mkState balance total_interest
    (st_log_rows st ++
     [mkRow current_date
            (round balance 2)
            (or_else band "N/A")
            (round (rate * dec 365 * dec 100) 4)
            (round daily_interest 6)
            (round total_interest 6)]).

Definition calculate_interest_with_steps
    (transactions_df : list Transaction) (end_date : Z)
    : error + (list LogRow * Qc) :=
  match Date_min transactions_df with
  | None => inl ValueError
  | Some start =>
      let date_range := date_range start end_date in
      let trans_by_date := groupby_sum transactions_df in
      let st := foldl (step trans_by_date) initial_state date_range in
      inr (st_log_rows st, round (st_total_interest st) 2)
  end.
End Globals.
End HOHOHOHOH.

(** ** app234.py

    The two lookups are the text of HOHOHOHOH.py's; the loop differs in one
    place: the log keeps the balance as it is, without [round].  (The first
    script of AHHHAHAHA.py, lines 36-67, and the last of OffRelease.py,
    lines 549-580, are this text too.) *)

Module App234.
Section Globals.
Variable rates : list RateEntry.
Variable bands : list BandRange.

Definition get_band_name : Qc → option string :=
  HOHOHOHOH.get_band_name bands.

Definition get_rate_for_date_and_band : Z → option string → Qc :=
  HOHOHOHOH.get_rate_for_date_and_band rates.

Definition step (trans_by_date : gmap Z Qc) (st : loop_state) (current_date : Z)
    : loop_state :=
  let balance :=
    match trans_by_date !! current_date with
    | Some change => st_balance st + change
    | None => st_balance st
    end in
  let band := get_band_name balance in
  let '(rate, daily_interest, total_interest) :=
    if negb (truthy band) then (0, 0, st_total_interest st)
    else
      let rate := get_rate_for_date_and_band current_date band / dec 100 / dec 365 in
      let daily_interest := balance * rate in
      (rate, daily_interest, st_total_interest st + daily_interest) in
  mkState balance total_interest
    (st_log_rows st ++
     [mkRow current_date
            balance
            (or_else band "N/A")
            (round (rate * dec 365 * dec 100) 4)
            (round daily_interest 6)
            (round total_interest 6)]).

Definition calculate_interest_with_steps
    (transactions_df : list Transaction) (end_date : Z)
    : error + (list LogRow * Qc) :=
  match Date_min transactions_df with
  | None => inl ValueError
  | Some start =>
      let date_range := date_range start end_date in
      let trans_by_date := groupby_sum transactions_df in
      let st := foldl (step trans_by_date) initial_state date_range in
      inr (st_log_rows st, round (st_total_interest st) 2)
  end.
End Globals.
End App234.

(** ** OffRelease.py *)

(** [df.sort_values("Start Date")], as a stable insertion sort: rows with
    the same date keep their order.  (pandas sorts with numpy's quicksort,
    which is an insertion sort on short arrays and promises no order among
    equal keys on long ones.  What is proved of the rate lookup uses only
    that the rows come back in ascending order of date; see
    [get_interest_rate_with].) *)
Fixpoint insert_by_date (e : RateEntry) (l : list RateEntry) : list RateEntry :=
  match l with
  | [] => [e]
  | x :: l' =>
      if decide (Start_Date e ≤ Start_Date x)%Z then e :: l
      else x :: insert_by_date e l'
  end.

Definition sort_values (l : list RateEntry) : list RateEntry :=
  foldr insert_by_date [] l.

Module OffRelease.

(** A frame argument is [None] when the reference file failed to load. *)
Definition get_band_for_balance (balance : Qc) (bands_df : option (list BandRange))
    : option string :=
  match bands_df with
  | None => None
  | Some bands =>
      if bool_decide (balance < 0) then None
      else
        let matching_bands :=
          filter (λ r, Minimum r ≤ balance ∧ balance ≤ Maximum r) bands in
        match matching_bands with
        | r :: _ => Some (band r)
        | [] => None
        end
  end.

Definition get_interest_rate (target_date : Z) (band_name : option string)
    (rates_df : option (list RateEntry)) : Qc :=
  match rates_df with
  | None => 0
  | Some rates =>
      if negb (truthy band_name) then 0
      else
        let applicable_rates :=
          sort_values
            (filter (λ e, (Start_Date e ≤ target_date)%Z ∧ Some (rate_band e) = band_name)
                    rates) in
        match last applicable_rates with
        | None => 0
        | Some e => rate e
        end
  end.

Definition step (rates_df : option (list RateEntry))
    (bands_df : option (list BandRange)) (daily_transactions : gmap Z Qc)
    (st : loop_state) (current_date : Z) : loop_state :=
  let running_balance :=
    match daily_transactions !! current_date with
    | Some change => st_balance st + change
    | None => st_balance st
    end in
  let current_band := get_band_for_balance running_balance bands_df in
  let '(annual_rate, daily_interest) :=
    if truthy current_band && bool_decide (0 < running_balance) then
      let annual_rate := get_interest_rate current_date current_band rates_df in
      let daily_rate := annual_rate / dec 100 / dec 365 in
      (annual_rate, running_balance * daily_rate)
    else (0, 0) in
  let total_interest := st_total_interest st + daily_interest in
  mkState running_balance total_interest
    (st_log_rows st ++
     [mkRow current_date
            (round running_balance 2)
            (or_else current_band "None")
            (round annual_rate 4)
            (round daily_interest 6)
            (round total_interest 6)]).

Definition calculate_daily_interest (transactions_df : list Transaction)
    (end_date : Z) (rates_df : option (list RateEntry))
    (bands_df : option (list BandRange)) : error + (list LogRow * Qc) :=
  match Date_min transactions_df with
  | None => inl ValueError
  | Some start_date =>
      let date_range := date_range start_date end_date in
      let daily_transactions := groupby_sum transactions_df in
      let st := foldl (step rates_df bands_df daily_transactions)
                      initial_state date_range in
      inr (st_log_rows st, round (st_total_interest st) 2)
  end.

End OffRelease.

(** ** .devcontainer/AHHHAHAHA.py

    The two lookups are the text of OffRelease.py's; the loop also gathers
    statistics of the balances. *)

Record Stats := mkStats {
  max_balance : Qc;
  min_balance : Qc;
  avg_balance : Qc;
  days_earning_interest : nat;
  total_days : nat
}.

Global Instance Stats_eq_dec : EqDecision Stats.
Proof. solve_decision. Defined.

Definition Qc_max (x y : Qc) : Qc := if bool_decide (x ≤ y) then y else x.
Definition Qc_min (x y : Qc) : Qc := if bool_decide (y < x) then y else x.

(** [sum(l)]. *)
Definition sum_Qc (l : list Qc) : Qc := foldr Qcplus 0 l.

Module AHHHAHAHA.

Definition get_band_for_balance : Qc → option (list BandRange) → option string :=
  OffRelease.get_band_for_balance.

Definition get_interest_rate : Z → option string → option (list RateEntry) → Qc :=
  OffRelease.get_interest_rate.

(** The loop state: the accumulators and the log, the list [balances]
    and the counter [stats['days_earning_interest']]. *)
Record stats_state := mkStatsState {
  st_core : loop_state;
  st_balances : list Qc;
  st_days_earning : nat
}.

Definition step (rates_df : option (list RateEntry))
    (bands_df : option (list BandRange)) (daily_transactions : gmap Z Qc)
    (st : stats_state) (current_date : Z) : stats_state :=
  let running_balance :=
    match daily_transactions !! current_date with
    | Some change => st_balance (st_core st) + change
    | None => st_balance (st_core st)
    end in
  let balances := st_balances st ++ [running_balance] in
  let current_band := get_band_for_balance running_balance bands_df in
  let '(annual_rate, daily_interest, days) :=
    if truthy current_band && bool_decide (0 < running_balance) then
      let annual_rate := get_interest_rate current_date current_band rates_df in
      let daily_rate := annual_rate / dec 100 / dec 365 in
      (annual_rate, running_balance * daily_rate, S (st_days_earning st))
    else (0, 0, st_days_earning st) in
  let total_interest := st_total_interest (st_core st) + daily_interest in
  mkStatsState
    (mkState running_balance total_interest
       (st_log_rows (st_core st) ++
        [mkRow current_date
               (round running_balance 2)
               (or_else current_band "None")
               (round annual_rate 4)
               (round daily_interest 6)
               (round total_interest 6)]))
    balances days.

Definition calculate_daily_interest (transactions_df : list Transaction)
    (end_date : Z) (rates_df : option (list RateEntry))
    (bands_df : option (list BandRange)) : error + (list LogRow * Qc * Stats) :=
  match Date_min transactions_df with
  | None => inl ValueError
  | Some start_date =>
      let date_range := date_range start_date end_date in
      let daily_transactions := groupby_sum transactions_df in
      let st := foldl (step rates_df bands_df daily_transactions)
                      (mkStatsState initial_state [] 0) date_range in
      let balances := st_balances st in
      let stats :=
        match balances with
        | [] => mkStats 0 0 0 (st_days_earning st) (length date_range)
        | b :: bs =>
            mkStats (foldl Qc_max b bs) (foldl Qc_min b bs)
                    (sum_Qc balances / Qc_of_Z (Z.of_nat (length balances)))
                    (st_days_earning st) (length date_range)
        end in
      inr (st_log_rows (st_core st), round (st_total_interest (st_core st)) 2, stats)
  end.

End AHHHAHAHA.

(** ** The shape the loops share, and closed forms of what they compute *)

Section Skeleton.
(** [net]: the netted transactions; [interest d b]: the interest of day
    [d] on balance [b], not rounded; [row d b t]: the log row of day [d]
    for balance [b] and accumulated interest [t]. *)
Variable net : gmap Z Qc.
Variable interest : Z → Qc → Qc.
Variable row : Z → Qc → Qc → LogRow.

Definition accrue_step (st : loop_state) (d : Z) : loop_state :=
  let b := st_balance st + default 0 (net !! d) in
  let t := st_total_interest st + interest d b in
  mkState b t (st_log_rows st ++ [row d b t]).

(** The balance of day [d]: everything netted from [start] to [d]. *)
Definition netted (start d : Z) : Qc :=
  sum_Qc ((λ k, default 0 (net !! k)) <$> date_range start d).

(** The interest accrued from [start] to [d], on unrounded balances. *)
Definition accrued (start d : Z) : Qc :=
  sum_Qc ((λ k, interest k (netted start k)) <$> date_range start d).
End Skeleton.

(** The changes of one date, in row order. *)
Definition day_changes (transactions_df : list Transaction) (d : Z) : list Qc :=
  (filter (λ t, t.1 = d) transactions_df).*2.

(** The unrounded interest of one day and its log row, per copy. *)
Module Closed.
Definition interest_H (rates : list RateEntry) (bands : list BandRange)
    (d : Z) (b : Qc) : Qc :=
  let band := HOHOHOHOH.get_band_name bands b in
  if truthy band
  then b * (HOHOHOHOH.get_rate_for_date_and_band rates d band / dec 100 / dec 365)
  else 0.

Definition rate_H (rates : list RateEntry) (bands : list BandRange)
    (d : Z) (b : Qc) : Qc :=
  let band := HOHOHOHOH.get_band_name bands b in
  if truthy band
  then HOHOHOHOH.get_rate_for_date_and_band rates d band / dec 100 / dec 365
  else 0.

Definition row_H (rates : list RateEntry) (bands : list BandRange)
    (d : Z) (b t : Qc) : LogRow :=
  mkRow d (round b 2) (or_else (HOHOHOHOH.get_band_name bands b) "N/A")
        (round (rate_H rates bands d b * dec 365 * dec 100) 4)
        (round (interest_H rates bands d b) 6) (round t 6).

Definition row_A (rates : list RateEntry) (bands : list BandRange)
    (d : Z) (b t : Qc) : LogRow :=
  mkRow d b (or_else (HOHOHOHOH.get_band_name bands b) "N/A")
        (round (rate_H rates bands d b * dec 365 * dec 100) 4)
        (round (interest_H rates bands d b) 6) (round t 6).

Definition annual_O (rates_df : option (list RateEntry))
    (bands_df : option (list BandRange)) (d : Z) (b : Qc) : Qc :=
  let band := OffRelease.get_band_for_balance b bands_df in
  if truthy band && bool_decide (0 < b)
  then OffRelease.get_interest_rate d band rates_df
  else 0.

Definition interest_O (rates_df : option (list RateEntry))
    (bands_df : option (list BandRange)) (d : Z) (b : Qc) : Qc :=
  let band := OffRelease.get_band_for_balance b bands_df in
  if truthy band && bool_decide (0 < b)
  then b * (OffRelease.get_interest_rate d band rates_df / dec 100 / dec 365)
  else 0.

Definition row_O (rates_df : option (list RateEntry))
    (bands_df : option (list BandRange)) (d : Z) (b t : Qc) : LogRow :=
  mkRow d (round b 2) (or_else (OffRelease.get_band_for_balance b bands_df) "None")
        (round (annual_O rates_df bands_df d b) 4)
        (round (interest_O rates_df bands_df d b) 6) (round t 6).
End Closed.

(** What every copy returns, over the closed forms: the error of an empty
    transactions frame, or one row per day and the rounded total. *)
Definition engine (interest : Z → Qc → Qc) (row : Z → Qc → Qc → LogRow)
    (transactions_df : list Transaction) (end_date : Z)
    : error + (list LogRow * Qc) :=
  match Date_min transactions_df with
  | None => inl ValueError
  | Some start =>
      let net := groupby_sum transactions_df in
      inr ((λ k, row k (netted net start k) (accrued net interest start k))
             <$> date_range start end_date,
           round (accrued net interest start end_date) 2)
  end.

(** The balance of day [d] as the ledger gives it: the sum of every change
    dated on or before [d]. *)
Definition balance_on (transactions_df : list Transaction) (d : Z) : Qc :=
  sum_Qc (filter (λ t, (t.1 ≤ d)%Z) transactions_df).*2.

(** The interest accrued from [start] to [d] as the ledger gives it: the
    sum of the unrounded interest of every day, each on that day's
    unrounded balance. *)
Definition interest_to (transactions_df : list Transaction)
    (interest : Z → Qc → Qc) (start d : Z) : Qc :=
  sum_Qc ((λ k, interest k (balance_on transactions_df k)) <$> date_range start d).

(** [start] is the earliest date of the ledger. *)
Definition first_date (transactions_df : list Transaction) (start : Z) : Prop :=
  start ∈ transactions_df.*1 ∧ ∀ d, d ∈ transactions_df.*1 → (start ≤ d)%Z.

(** The log has one row for each day from [start] to [e] and no other:
    row [i] is the row of day [start + i]. *)
Definition daily_cover (start e : Z) (log : list LogRow) : Prop :=
  (∀ (i : nat) (d : Z),
     (Date <$> log) !! i = Some d ↔ d = (start + Z.of_nat i)%Z ∧ (d ≤ e)%Z) ∧
  (∀ d, d ∈ Date <$> log ↔ (start ≤ d ≤ e)%Z) ∧
  NoDup (Date <$> log) ∧
  ((e < start)%Z → log = []).

(** A log row holds the roundings of the exact figures of its day. *)
Definition exact_row (annual interest : Z → Qc → Qc)
    (transactions_df : list Transaction) (start : Z) (r : LogRow) : Prop :=
  let d := Date r in
  let b := balance_on transactions_df d in
  Balance r = round b 2 ∧
  Rate r = round (annual d b) 4 ∧
  Daily_Interest r = round (interest d b) 6 ∧
  Total_Interest_So_Far r = round (interest_to transactions_df interest start d) 6.

(** Rate rows in ascending order of effective date. *)
Definition date_le (e1 e2 : RateEntry) : Prop :=
  (Start_Date e1 ≤ Start_Date e2)%Z.

(** The rows that a lookup for band [b] on day [d] may use. *)
Definition applicable (d : Z) (b : string) (e : RateEntry) : Prop :=
  (Start_Date e ≤ d)%Z ∧ rate_band e = b.

(** [e] is a row of the table that the lookup may use, and no usable row
    is effective later. *)
Definition latest_effective (d : Z) (b : string) (rates : list RateEntry)
    (e : RateEntry) : Prop :=
  e ∈ rates ∧ applicable d b e ∧
  ∀ e', e' ∈ rates → applicable d b e' → (Start_Date e' ≤ Start_Date e)%Z.


(** ** Example data *)

Module Ex.
Definition jan1 : Z := toordinal 2023 1 1.
Definition jan2 : Z := toordinal 2023 1 2.
Definition jan3 : Z := toordinal 2023 1 3.
Definition jun1 : Z := toordinal 2023 6 1.
Definition jul1 : Z := toordinal 2023 7 1.

Definition bands_low : list BandRange := [mkBand "Low" 0 (dec 2000)].
Definition rates_low : list RateEntry := [mkRate jan1 "Low" (dec 3.65)].
Definition bands_AB : list BandRange :=
  [mkBand "A" 0 (dec 1000); mkBand "B" (dec 500) (dec 1500)].

Definition rates_A : list RateEntry :=
  [mkRate jan1 "A" (dec 1.0); mkRate jun1 "A" (dec 2.0)].
Definition rates_A_rev : list RateEntry :=
  [mkRate jun1 "A" (dec 2.0); mkRate jan1 "A" (dec 1.0)].
Definition rates_tie : list RateEntry :=
  [mkRate jan1 "A" (dec 1.0); mkRate jan1 "A" (dec 2.0)].
Definition rates_tie_rev : list RateEntry :=
  [mkRate jan1 "A" (dec 2.0); mkRate jan1 "A" (dec 1.0)].
Definition rates_low_rev : list RateEntry :=
  [mkRate jun1 "Low" (dec 7.3); mkRate jan1 "Low" (dec 3.65)].

(** The log of the end-to-end example of the specification. *)
Definition example_log : list LogRow :=
  [mkRow jan1 (dec 1000) "Low" (dec 3.65) (dec 0.1) (dec 0.1);
   mkRow jan2 (dec 1000) "Low" (dec 3.65) (dec 0.1) (dec 0.2);
   mkRow jan3 (dec 1000) "Low" (dec 3.65) (dec 0.1) (dec 0.3)].
End Ex.

(** ** More of the scripts

    The second script of HOHOHOHOH.py, the first script of OffRelease.py,
    the figures that the [main] functions show beside the log, and the
    preparation of the uploaded ledger. *)

(** *** HOHOHOHOH.py, second script (lines 177-229)

    Its loop tests [band is None] where the first script tests [not band],
    and logs [band or "N/A"]. *)

Module HOHOHOHOH2.
Section Globals.
Variable rates : list RateEntry.
Variable bands : list BandRange.

Definition get_band_name (balance : Qc) : option string :=
  let match_ := filter (λ r, Minimum r ≤ balance ∧ balance ≤ Maximum r) bands in
  match match_ with
  | r :: _ => Some (band r)
  | [] => None
  end.

Definition get_rate_for_date_and_band (date : Z) (band_name : option string) : Qc :=
  let applicable_rates :=
    filter (λ e, (Start_Date e ≤ date)%Z ∧ Some (rate_band e) = band_name) rates in
  match last applicable_rates with
  | Some e => rate e
  | None => 0
  end.

Definition step (trans_by_date : gmap Z Qc) (st : loop_state) (current_date : Z)
    : loop_state :=
  let balance :=
    match trans_by_date !! current_date with
    | Some change => st_balance st + change
    | None => st_balance st
    end in
  let band := get_band_name balance in
  let '(rate, daily_interest, total_interest) :=
    match band with
    | None => (0, 0, st_total_interest st)
    | Some _ =>
        let rate := get_rate_for_date_and_band current_date band / dec 100 / dec 365 in
        let daily_interest := balance * rate in
        (rate, daily_interest, st_total_interest st + daily_interest)
    end in
  mkState balance total_interest
    (st_log_rows st ++
     [mkRow current_date
            (round balance 2)
            (or_else band "N/A")
            (round (rate * dec 365 * dec 100) 4)
            (round daily_interest 6)
            (round total_interest 6)]).

Definition calculate_interest_with_steps
    (transactions_df : list Transaction) (end_date : Z)
    : error + (list LogRow * Qc) :=
  match Date_min transactions_df with
  | None => inl ValueError
  | Some start =>
      let date_range := date_range start end_date in
      let trans_by_date := groupby_sum transactions_df in
      let st := foldl (step trans_by_date) initial_state date_range in
      inr (st_log_rows st, round (st_total_interest st) 2)
  end.
End Globals.
End HOHOHOHOH2.

(** *** OffRelease.py, first script (lines 32-74)

    Its loop tests [if band:] and adds the interest of the day to the total
    after the test, on both branches. *)

Module OffRelease1.
Section Globals.
Variable rates : list RateEntry.
Variable bands : list BandRange.

Definition get_band_name (balance : Qc) : option string :=
  let match_ := filter (λ r, Minimum r ≤ balance ∧ balance ≤ Maximum r) bands in
  match match_ with
  | r :: _ => Some (band r)
  | [] => None
  end.

Definition get_rate_for_date_and_band (date : Z) (band_name : option string) : Qc :=
  let applicable_rates :=
    filter (λ e, (Start_Date e ≤ date)%Z ∧ Some (rate_band e) = band_name) rates in
  match last applicable_rates with
  | Some e => rate e
  | None => 0
  end.

Definition step (trans_by_date : gmap Z Qc) (st : loop_state) (current_date : Z)
    : loop_state :=
  let balance :=
    match trans_by_date !! current_date with
    | Some change => st_balance st + change
    | None => st_balance st
    end in
  let band := get_band_name balance in
  let '(rate, daily_interest) :=
    if truthy band then
      let rate := get_rate_for_date_and_band current_date band / dec 100 / dec 365 in
      (rate, balance * rate)
    else (0, 0) in
  let total_interest := st_total_interest st + daily_interest in
  mkState balance total_interest
    (st_log_rows st ++
     [mkRow current_date
            (round balance 2)
            (or_else band "N/A")
            (round (rate * dec 365 * dec 100) 4)
            (round daily_interest 6)
            (round total_interest 6)]).

Definition calculate_interest_with_steps
    (transactions_df : list Transaction) (end_date : Z)
    : error + (list LogRow * Qc) :=
  match Date_min transactions_df with
  | None => inl ValueError
  | Some start =>
      let date_range := date_range start end_date in
      let trans_by_date := groupby_sum transactions_df in
      let st := foldl (step trans_by_date) initial_state date_range in
      inr (st_log_rows st, round (st_total_interest st) 2)
  end.
End Globals.
End OffRelease1.

(** *** Figures of [main] (OffRelease.py lines 453-461, AHHHAHAHA.py
        lines 616 and 631) *)

(** [calculation_df["Balance"].iloc[-1] if not calculation_df.empty else 0]. *)
Definition final_balance (calculation_df : list LogRow) : Qc :=
  match last calculation_df with
  | Some r => Balance r
  | None => 0
  end.

(** [len(calculation_df)]. *)
Definition days_calculated (calculation_df : list LogRow) : nat :=
  length calculation_df.

(** [(days_earning_interest / total_days * 100) if total_days > 0 else 0]. *)
Definition efficiency (stats : Stats) : Qc :=
  if decide (0 < total_days stats)%nat
  then Qc_of_Z (Z.of_nat (days_earning_interest stats))
       / Qc_of_Z (Z.of_nat (total_days stats)) * dec 100
  else 0.

(** *** Cleaning the amount texts

    A text is the list of its Unicode code points. *)

Abbreviation text := (list N).

Definition POUND : N := 163.
Definition EURO : N := 8364.
Definition DOLLAR : N := 36.
Definition COMMA : N := 44.
Definition LPAREN : N := 40.
Definition RPAREN : N := 41.
Definition MINUS : N := 45.

(** What [\s] matches in a pattern on [str]: the characters for which
    [str.isspace] holds. *)
Definition is_space (c : N) : bool :=
  ((9 <=? c) && (c <=? 13) || (28 <=? c) && (c <=? 32) || (c =? 133) || (c =? 160)
   || (c =? 5760) || (8192 <=? c) && (c <=? 8202) || (c =? 8232) || (c =? 8233)
   || (c =? 8239) || (c =? 8287) || (c =? 12288))%N.

(** [re.sub(cls, '', s)] for a character class. *)
Definition remove_class (cls : N → bool) (s : text) : text :=
  List.filter (λ c, negb (cls c)) s.

(** [re.sub(cls, repl, s)] for a character class and a one-character
    replacement. *)
Definition replace_class (cls : N → bool) (repl : N) (s : text) : text :=
  (λ c, if cls c then repl else c) <$> s.

(** The class [[£,]]. *)
Definition pound_comma (c : N) : bool := ((c =? POUND) || (c =? COMMA))%N.

(** The class [[£,$,€,\s]]. *)
Definition money_noise (c : N) : bool :=
  ((c =? POUND) || (c =? COMMA) || (c =? DOLLAR) || (c =? EURO))%N || is_space c.

(** The class [[()]]. *)
Definition paren (c : N) : bool := ((c =? LPAREN) || (c =? RPAREN))%N.

(** The class [[,]]. *)
Definition comma (c : N) : bool := (c =? COMMA)%N.

(** HOHOHOHOH.py line 115 (also OffRelease.py line 105, AHHHAHAHA.py line
    112): [.str.replace('[£,]', '', regex=True)]. *)
Definition clean_pound_comma (s : text) : text := remove_class pound_comma s.

(** OffRelease.py lines 300-305, in [process_ledger_data]. *)
Definition clean_money (s : text) : text :=
  replace_class paren MINUS (remove_class money_noise s).

(** AHHHAHAHA.py lines 335-341, in [process_ledger_data]: a third
    replacement follows the two of OffRelease.py. *)
Definition clean_money_enhanced (s : text) : text :=
  remove_class comma (replace_class paren MINUS (remove_class money_noise s)).

(** *** [process_ledger_data], from the cleaned frame on

    (OffRelease.py lines 308-320.)  The argument is the frame after
    [pd.to_datetime] and [pd.to_numeric] with [errors="coerce"]: a date or
    a change that did not parse is [None]. *)

Fixpoint insert_by_Date (t : Transaction) (l : list Transaction) : list Transaction :=
  match l with
  | [] => [t]
  | x :: l' =>
      if decide (t.1 ≤ x.1)%Z then t :: l else x :: insert_by_Date t l'
  end.

(** [ledger_df.sort_values("Date")], as a sort by insertion.  pandas
    promises the rows in ascending order of date and nothing on the order
    of rows of one date; what is proved below uses only the former. *)
Definition sort_by_Date (l : list Transaction) : list Transaction :=
  foldr insert_by_Date [] l.

(** [ledger_df.dropna(subset=["Date", "Change"])]. *)
Definition dropna (ledger_df : list (option Z * option Qc)) : list Transaction :=
  omap (λ r, match r with
             | (Some d, Some c) => Some (d, c)
             | _ => None
             end) ledger_df.

Inductive ledger_message :=
  | NoValidTransactions
  | Processed (final_count : nat) (removed : option nat).

(** The message text of a [ledger_message] is fixed by its fields:
    "No valid transactions found after data cleaning", or "Successfully
    processed N transactions" followed, when rows were removed, by
    " (M invalid rows removed)". *)
Definition process_ledger_rows (ledger_df : list (option Z * option Qc))
    : option (list Transaction) * ledger_message :=
  let initial_count := length ledger_df in
  let ledger_df := dropna ledger_df in
  let final_count := length ledger_df in
  if decide (final_count = 0)%nat then (None, NoValidTransactions)
  else
    let info_msg :=
      Processed final_count
        (if decide (final_count < initial_count)%nat
         then Some (initial_count - final_count)%nat else None) in
    (Some (sort_by_Date ledger_df), info_msg).

(** What [main] of OffRelease.py shows for an uploaded ledger: the
    processing error, or the log with the three figures beside it. *)
Definition main_results (ledger_rows : list (option Z * option Qc)) (end_date : Z)
    (rates_df : option (list RateEntry)) (bands_df : option (list BandRange))
    : ledger_message + (error + (list LogRow * Qc * Qc * nat)) :=
  match process_ledger_rows ledger_rows with
  | (None, process_msg) => inl process_msg
  | (Some ledger_df, _) =>
      inr (match OffRelease.calculate_daily_interest ledger_df end_date rates_df bands_df with
           | inl err => inl err
           | inr (calculation_df, total_interest) =>
               inr (calculation_df, total_interest,
                    final_balance calculation_df, days_calculated calculation_df)
           end)
  end.

(** A day counts as earning when its balance has a band and is above
    zero; this is the test that guards the accrual in AHHHAHAHA.py. *)
Definition earning_day (bands_df : option (list BandRange)) (b : Qc) : Prop :=
  truthy (OffRelease.get_band_for_balance b bands_df) && bool_decide (0 < b) = true.

Global Instance earning_day_dec bands_df b : Decision (earning_day bands_df b).
Proof. unfold earning_day. apply _. Defined.

(** *** The period filter of the log (AHHHAHAHA.py lines 677-680)

    The "Date" column of the log holds the text that [strftime("%d/%m/%Y")]
    gives, and the cutoff is such a text too; the filter keeps the rows
    whose text is [>=] the text of the cutoff. *)

Definition SLASH : N := 47.

Definition digit (n : Z) : N := (48 + Z.to_N n)%N.

Definition two_digits (n : Z) : text := [digit (n / 10); digit (n mod 10)].

Definition four_digits (n : Z) : text :=
  [digit (n / 1000); digit (n / 100 mod 10); digit (n / 10 mod 10); digit (n mod 10)].

(** [strftime("%d/%m/%Y")] of the day [d] of month [m] of year [y], for
    years of four digits. *)
Definition strftime_dmY (y m d : Z) : text :=
  two_digits d ++ [SLASH] ++ two_digits m ++ [SLASH] ++ four_digits y.

(** The order of Python on [str]: code point by code point, a proper
    prefix first. *)
Fixpoint text_compare (s t : text) : comparison :=
  match s, t with
  | [], [] => Eq
  | [], _ :: _ => Lt
  | _ :: _, [] => Gt
  | a :: s', b :: t' =>
      match (a ?= b)%N with
      | Eq => text_compare s' t'
      | c => c
      end
  end.

(** [s >= t]. *)
Definition text_ge (s t : text) : bool :=
  match text_compare s t with
  | Lt => false
  | _ => true
  end.

(** [filtered_df[filtered_df['Date'] >= cutoff_date]], on the "Date"
    column. *)
Definition period_filter (cutoff_date : text) (dates : list text) : list text :=
  List.filter (λ t, text_ge t cutoff_date) dates.

(** *** [get_interest_rate] for any sort

    pandas sorts with numpy's quicksort, which promises nothing about the
    order of rows with equal keys.  Here [get_interest_rate] of
    OffRelease.py is written with the sort as a parameter;
    [OffRelease.get_interest_rate] is the case of [sort_values]. *)

Definition get_interest_rate_with (sort : list RateEntry → list RateEntry)
    (target_date : Z) (band_name : option string)
    (rates_df : option (list RateEntry)) : Qc :=
  match rates_df with
  | None => 0
  | Some rates =>
      if negb (truthy band_name) then 0
      else
        let applicable_rates :=
          sort
            (filter (λ e, (Start_Date e ≤ target_date)%Z ∧ Some (rate_band e) = band_name)
                    rates) in
        match last applicable_rates with
        | None => 0
        | Some e => rate e
        end
  end.

(** What a sort has to do: return the rows it was given, in ascending
    order of effective date. *)
Definition sorts_by_date (sort : list RateEntry → list RateEntry) : Prop :=
  ∀ l, sort l ≡ₚ l ∧ StronglySorted date_le (sort l).

(** *** backup.py, testapp.py, streamlittest.py

    The loop is the text of app234.py's.  After it the function converts
    the "Date" column of the log, [log_df["Date"].astype(str)]; a log
    without rows is a frame without columns, and the access raises
    [KeyError]. *)

Module Backup.
Inductive error := ValueError | KeyError.

Section Globals.
Variable rates : list RateEntry.
Variable bands : list BandRange.

Definition get_band_name : Qc → option string :=
  HOHOHOHOH.get_band_name bands.

Definition get_rate_for_date_and_band : Z → option string → Qc :=
  HOHOHOHOH.get_rate_for_date_and_band rates.

Definition step (trans_by_date : gmap Z Qc) (st : loop_state) (current_date : Z)
    : loop_state :=
  let balance :=
    match trans_by_date !! current_date with
    | Some change => st_balance st + change
    | None => st_balance st
    end in
  let band := get_band_name balance in
  let '(rate, daily_interest, total_interest) :=
    if negb (truthy band) then (0, 0, st_total_interest st)
    else
      let rate := get_rate_for_date_and_band current_date band / dec 100 / dec 365 in
      let daily_interest := balance * rate in
      (rate, daily_interest, st_total_interest st + daily_interest) in
  mkState balance total_interest
    (st_log_rows st ++
     [mkRow current_date
            balance
            (or_else band "N/A")
            (round (rate * dec 365 * dec 100) 4)
            (round daily_interest 6)
            (round total_interest 6)]).

Definition calculate_interest_with_steps
    (transactions_df : list Transaction) (end_date : Z)
    : error + (list LogRow * Qc) :=
  match Date_min transactions_df with
  | None => inl ValueError
  | Some start =>
      let date_range := date_range start end_date in
      let trans_by_date := groupby_sum transactions_df in
      let st := foldl (step trans_by_date) initial_state date_range in
      match st_log_rows st with
      | [] => inl KeyError
      | log_df => inr (log_df, round (st_total_interest st) 2)
      end
  end.
End Globals.
End Backup.

(** *** interest_calculator_cli.py

    The loop is the text of app234.py's.  The end date is optional and
    stands for [datetime.today()] when it is not given; the log is written
    to a file and the function returns the total alone.  The band lookup
    first answers [None] for a balance that is not a number, of which this
    model has none. *)

Module Cli.
Section Globals.
Variable rates : list RateEntry.
Variable bands : list BandRange.
(** [datetime.today()]. *)
Variable today : Z.

Definition get_band_name : Qc → option string :=
  HOHOHOHOH.get_band_name bands.

Definition get_rate_for_date_and_band : Z → option string → Qc :=
  HOHOHOHOH.get_rate_for_date_and_band rates.

Definition step (trans_by_date : gmap Z Qc) (st : loop_state) (current_date : Z)
    : loop_state :=
  let balance :=
    match trans_by_date !! current_date with
    | Some change => st_balance st + change
    | None => st_balance st
    end in
  let band := get_band_name balance in
  let '(rate, daily_interest, total_interest) :=
    if negb (truthy band) then (0, 0, st_total_interest st)
    else
      let rate := get_rate_for_date_and_band current_date band / dec 100 / dec 365 in
      let daily_interest := balance * rate in
      (rate, daily_interest, st_total_interest st + daily_interest) in
  mkState balance total_interest
    (st_log_rows st ++
     [mkRow current_date
            balance
            (or_else band "N/A")
            (round (rate * dec 365 * dec 100) 4)
            (round daily_interest 6)
            (round total_interest 6)]).

(** The result is the pair of the rows written to [output_filename] and
    the value returned. *)
Definition calculate_interest_with_steps
    (transactions_df : list Transaction) (end_date : option Z)
    : error + (list LogRow * Qc) :=
  let end_date := default today end_date in
  match Date_min transactions_df with
  | None => inl ValueError
  | Some start =>
      let date_range_iter := date_range start end_date in
      let trans_by_date := groupby_sum transactions_df in
      let st := foldl (step trans_by_date) initial_state date_range_iter in
      inr (st_log_rows st, round (st_total_interest st) 2)
  end.
End Globals.
End Cli.

(** ** The loops over the arithmetic of the machine

    The code computes on binary floating point numbers.  Their sums and
    products are rounded, so that a sum depends on the order of its terms,
    and [round] rounds the double it is given, which need not be the
    decimal that was written.  In this part the loops of HOHOHOHOH.py and
    OffRelease.py are written once more with the arithmetic left open: the
    numbers are of a type [F], and zero, the conversion of an [int], the
    operations, the comparisons and [round] are the fields of an
    [arithmetic].  The sort of the rate lookup is left open in the same
    way.  What is proved of these definitions holds for every arithmetic
    and every sort: [Float.arithmetic] is that of Python on IEEE 754
    doubles, [Exact.arithmetic] that of the rationals used above. *)

Module Generic.

Record arithmetic (F : Type) := mkArithmetic {
  zero : F;
  of_int : Z → F;
  add : F → F → F;
  mul : F → F → F;
  div : F → F → F;
  leb : F → F → bool;
  ltb : F → F → bool;
  round : F → nat → F
}.
Arguments mkArithmetic {F}.
Arguments zero {F}.
Arguments of_int {F}.
Arguments add {F}.
Arguments mul {F}.
Arguments div {F}.
Arguments leb {F}.
Arguments ltb {F}.
Arguments round {F}.

Record BandRange (F : Type) := mkBand { band : string; Minimum : F; Maximum : F }.
Arguments mkBand {F}.
Arguments band {F}.
Arguments Minimum {F}.
Arguments Maximum {F}.

Record RateEntry (F : Type) := mkRate { Start_Date : Z; rate_band : string; rate : F }.
Arguments mkRate {F}.
Arguments Start_Date {F}.
Arguments rate_band {F}.
Arguments rate {F}.

Record LogRow (F : Type) := mkRow {
  Date : Z;
  Balance : F;
  Band : string;
  Rate : F;
  Daily_Interest : F;
  Total_Interest_So_Far : F
}.
Arguments mkRow {F}.
Arguments Date {F}.
Arguments Balance {F}.
Arguments Band {F}.
Arguments Rate {F}.
Arguments Daily_Interest {F}.
Arguments Total_Interest_So_Far {F}.

Record loop_state (F : Type) := mkState {
  st_balance : F;
  st_total_interest : F;
  st_log_rows : list (LogRow F)
}.
Arguments mkState {F}.
Arguments st_balance {F}.
Arguments st_total_interest {F}.
Arguments st_log_rows {F}.

Section Loops.
Context {F : Type} (A : arithmetic F).

(** [transactions_df["Date"].min()]. *)
Definition Date_min (transactions_df : list (Z * F)) : option Z :=
  match transactions_df with
  | [] => None
  | t :: ts => Some (foldl Z.min t.1 ts.*1)
  end.

(** [transactions_df.groupby("Date")["Change"].sum()]: the changes of a
    date are added in row order, starting from zero. *)
Definition groupby_sum (transactions_df : list (Z * F)) : gmap Z F :=
  foldl (λ m t, <[t.1 := add A (default (zero A) (m !! t.1)) t.2]> m) ∅ transactions_df.

(** The changes of one date, in row order. *)
Definition day_changes (transactions_df : list (Z * F)) (d : Z) : list F :=
  (List.filter (λ t, bool_decide (t.1 = d)) transactions_df).*2.

Definition initial_state : loop_state F := mkState (zero A) (zero A) [].

(** *** HOHOHOHOH.py, lines 29-69 *)

(** [bands["Maximum"] >= balance] is written [balance <= Maximum]. *)
Definition get_band_name (bands : list (BandRange F)) (balance : F) : option string :=
  let row :=
    List.filter (λ r, leb A (Minimum r) balance && leb A balance (Maximum r)) bands in
  match row with
  | r :: _ => Some (band r)
  | [] => None
  end.

Definition get_rate_for_date_and_band (rates : list (RateEntry F)) (date : Z)
    (band_name : option string) : F :=
  let applicable :=
    List.filter (λ e, bool_decide (Start_Date e ≤ date)%Z
                      && bool_decide (Some (rate_band e) = band_name)) rates in
  match last applicable with
  | Some e => rate e
  | None => zero A
  end.

(** One turn of the loop of [calculate_interest_with_steps]. *)
Definition step_with_steps (rates : list (RateEntry F)) (bands : list (BandRange F))
    (trans_by_date : gmap Z F) (st : loop_state F) (current_date : Z) : loop_state F :=
  let balance :=
    match trans_by_date !! current_date with
    | Some change => add A (st_balance st) change
    | None => st_balance st
    end in
  let band := get_band_name bands balance in
  let '(rate, daily_interest, total_interest) :=
    if negb (truthy band) then (zero A, zero A, st_total_interest st)
    else
      let rate :=
        div A (div A (get_rate_for_date_and_band rates current_date band)
                     (of_int A 100)) (of_int A 365) in
      let daily_interest := mul A balance rate in
      (rate, daily_interest, add A (st_total_interest st) daily_interest) in
  mkState balance total_interest
    (st_log_rows st ++
     [mkRow current_date
            (round A balance 2)
            (or_else band "N/A")
            (round A (mul A (mul A rate (of_int A 365)) (of_int A 100)) 4)
            (round A daily_interest 6)
            (round A total_interest 6)]).

Definition calculate_interest_with_steps (rates : list (RateEntry F))
    (bands : list (BandRange F)) (transactions_df : list (Z * F)) (end_date : Z)
    : error + (list (LogRow F) * F) :=
  match Date_min transactions_df with
  | None => inl ValueError
  | Some start =>
      let date_range := date_range start end_date in
      let trans_by_date := groupby_sum transactions_df in
      let st := foldl (step_with_steps rates bands trans_by_date) initial_state date_range in
      inr (st_log_rows st, round A (st_total_interest st) 2)
  end.

(** *** OffRelease.py, lines 231-370 *)

Definition get_band_for_balance (balance : F) (bands_df : option (list (BandRange F)))
    : option string :=
  match bands_df with
  | None => None
  | Some bands =>
      if ltb A balance (zero A) then None
      else
        let matching_bands :=
          List.filter (λ r, leb A (Minimum r) balance && leb A balance (Maximum r)) bands in
        match matching_bands with
        | r :: _ => Some (band r)
        | [] => None
        end
  end.

Definition get_interest_rate (sort_values : list (RateEntry F) → list (RateEntry F))
    (target_date : Z) (band_name : option string)
    (rates_df : option (list (RateEntry F))) : F :=
  match rates_df with
  | None => zero A
  | Some rates =>
      if negb (truthy band_name) then zero A
      else
        let applicable_rates :=
          sort_values
            (List.filter (λ e, bool_decide (Start_Date e ≤ target_date)%Z
                               && bool_decide (Some (rate_band e) = band_name)) rates) in
        match last applicable_rates with
        | None => zero A
        | Some e => rate e
        end
  end.

(** One turn of the loop of [calculate_daily_interest]. *)
Definition step_daily (sort_values : list (RateEntry F) → list (RateEntry F))
    (rates_df : option (list (RateEntry F))) (bands_df : option (list (BandRange F)))
    (daily_transactions : gmap Z F) (st : loop_state F) (current_date : Z)
    : loop_state F :=
  let running_balance :=
    match daily_transactions !! current_date with
    | Some change => add A (st_balance st) change
    | None => st_balance st
    end in
  let current_band := get_band_for_balance running_balance bands_df in
  let '(annual_rate, daily_interest) :=
    if truthy current_band && ltb A (zero A) running_balance then
      let annual_rate := get_interest_rate sort_values current_date current_band rates_df in
      let daily_rate := div A (div A annual_rate (of_int A 100)) (of_int A 365) in
      (annual_rate, mul A running_balance daily_rate)
    else (zero A, zero A) in
  let total_interest := add A (st_total_interest st) daily_interest in
  mkState running_balance total_interest
    (st_log_rows st ++
     [mkRow current_date
            (round A running_balance 2)
            (or_else current_band "None")
            (round A annual_rate 4)
            (round A daily_interest 6)
            (round A total_interest 6)]).

Definition calculate_daily_interest (sort_values : list (RateEntry F) → list (RateEntry F))
    (transactions_df : list (Z * F)) (end_date : Z)
    (rates_df : option (list (RateEntry F))) (bands_df : option (list (BandRange F)))
    : error + (list (LogRow F) * F) :=
  match Date_min transactions_df with
  | None => inl ValueError
  | Some start_date =>
      let date_range := date_range start_date end_date in
      let daily_transactions := groupby_sum transactions_df in
      let st := foldl (step_daily sort_values rates_df bands_df daily_transactions)
                      initial_state date_range in
      inr (st_log_rows st, round A (st_total_interest st) 2)
  end.

(** *** The accumulators alone

    What the two loops carry from one day to the next, the balance and the
    accumulated interest, written without the log: no [round] occurs in
    these definitions. *)

Definition carry_with_steps (rates : list (RateEntry F)) (bands : list (BandRange F))
    (trans_by_date : gmap Z F) (acc : F * F) (current_date : Z) : F * F :=
  let balance :=
    match trans_by_date !! current_date with
    | Some change => add A acc.1 change
    | None => acc.1
    end in
  let band := get_band_name bands balance in
  if negb (truthy band) then (balance, acc.2)
  else
    let rate :=
      div A (div A (get_rate_for_date_and_band rates current_date band)
                   (of_int A 100)) (of_int A 365) in
    (balance, add A acc.2 (mul A balance rate)).

Definition carry_daily (sort_values : list (RateEntry F) → list (RateEntry F))
    (rates_df : option (list (RateEntry F))) (bands_df : option (list (BandRange F)))
    (daily_transactions : gmap Z F) (acc : F * F) (current_date : Z) : F * F :=
  let running_balance :=
    match daily_transactions !! current_date with
    | Some change => add A acc.1 change
    | None => acc.1
    end in
  let current_band := get_band_for_balance running_balance bands_df in
  let daily_interest :=
    if truthy current_band && ltb A (zero A) running_balance then
      let annual_rate := get_interest_rate sort_values current_date current_band rates_df in
      mul A running_balance (div A (div A annual_rate (of_int A 100)) (of_int A 365))
    else zero A in
  (running_balance, add A acc.2 daily_interest).

(** The accumulators after each day of [days], in order. *)
Fixpoint trace (carry : F * F → Z → F * F) (acc : F * F) (days : list Z)
    : list (F * F) :=
  match days with
  | [] => []
  | d :: days' => carry acc d :: trace carry (carry acc d) days'
  end.

(** The log row of a day, from the accumulators of that day: the only
    place where [round] is applied. *)
Definition row_with_steps (rates : list (RateEntry F)) (bands : list (BandRange F))
    (current_date : Z) (acc : F * F) : LogRow F :=
  let balance := acc.1 in
  let band := get_band_name bands balance in
  let '(rate, daily_interest) :=
    if negb (truthy band) then (zero A, zero A)
    else
      let rate :=
        div A (div A (get_rate_for_date_and_band rates current_date band)
                     (of_int A 100)) (of_int A 365) in
      (rate, mul A balance rate) in
  mkRow current_date
        (round A balance 2)
        (or_else band "N/A")
        (round A (mul A (mul A rate (of_int A 365)) (of_int A 100)) 4)
        (round A daily_interest 6)
        (round A acc.2 6).

Definition row_daily (sort_values : list (RateEntry F) → list (RateEntry F))
    (rates_df : option (list (RateEntry F))) (bands_df : option (list (BandRange F)))
    (current_date : Z) (acc : F * F) : LogRow F :=
  let running_balance := acc.1 in
  let current_band := get_band_for_balance running_balance bands_df in
  let '(annual_rate, daily_interest) :=
    if truthy current_band && ltb A (zero A) running_balance then
      let annual_rate := get_interest_rate sort_values current_date current_band rates_df in
      (annual_rate,
       mul A running_balance (div A (div A annual_rate (of_int A 100)) (of_int A 365)))
    else (zero A, zero A) in
  mkRow current_date
        (round A running_balance 2)
        (or_else current_band "None")
        (round A annual_rate 4)
        (round A daily_interest 6)
        (round A acc.2 6).

(** One of the sorts that [sort_values("Start Date")] may be: by
    insertion, rows of the same date keeping their order. *)
Fixpoint insert_by_date (e : RateEntry F) (l : list (RateEntry F)) : list (RateEntry F) :=
  match l with
  | [] => [e]
  | x :: l' =>
      if decide (Start_Date e ≤ Start_Date x)%Z then e :: l
      else x :: insert_by_date e l'
  end.

Definition sort_values (l : list (RateEntry F)) : list (RateEntry F) :=
  foldr insert_by_date [] l.

(** A turn of either loop, from its accumulators and its row. *)
Definition turn (carry : F * F → Z → F * F) (row : Z → F * F → LogRow F)
    (st : loop_state F) (current_date : Z) : loop_state F :=
  let acc := carry (st_balance st, st_total_interest st) current_date in
  mkState acc.1 acc.2 (st_log_rows st ++ [row current_date acc]).

(** The log that a run over [days] from zero leaves: the rows of the
    accumulators of each day. *)
Definition rows_of (carry : F * F → Z → F * F) (row : Z → F * F → LogRow F)
    (days : list Z) : list (LogRow F) :=
  zip_with row days (trace carry (zero A, zero A) days).
End Loops.


End Generic.

(** *** The arithmetic of the rationals *)

Module Exact.
Definition arithmetic : Generic.arithmetic Qc :=
  Generic.mkArithmetic 0 Qc_of_Z Qcplus Qcmult Qcdiv
    (λ x y, bool_decide (x ≤ y)) (λ x y, bool_decide (x < y)) round.

(** The rows of the frames above, as rows over this arithmetic. *)
Definition band_range (r : BandRange) : Generic.BandRange Qc :=
  Generic.mkBand (band r) (Minimum r) (Maximum r).

Definition rate_entry (e : RateEntry) : Generic.RateEntry Qc :=
  Generic.mkRate (Start_Date e) (rate_band e) (rate e).

Definition log_row (r : LogRow) : Generic.LogRow Qc :=
  Generic.mkRow (Date r) (Balance r) (Band r) (Rate r) (Daily_Interest r)
                (Total_Interest_So_Far r).

Definition state (st : loop_state) : Generic.loop_state Qc :=
  Generic.mkState (st_balance st) (st_total_interest st) (log_row <$> st_log_rows st).
End Exact.

(** *** The arithmetic of Python on doubles

    A Python [float] is an IEEE 754 binary64 number, and [+], [*], [/] and
    the comparisons are the operations of the standard, rounding to
    nearest, ties to even.  [round(x, ndigits)] gives the double nearest to
    the decimal with [ndigits] digits after the point that is nearest to
    the exact value of [x], ties to even.

    (The changes that OffRelease.py reads from a pandas Series are numpy
    doubles, and so are its balance and its interest: the same numbers
    and operations, while [round] on them scales by the power of ten,
    rounds to an integer and scales back.  The rate is a Python [float].
    The examples evaluated below in that loop are such that their
    balances and interests round alike in both ways.) *)

Module Float.

(** The exact value of a finite double, sign apart. *)
Definition magnitude (x : PrimFloat.float) : option Q :=
  match FloatOps.Prim2SF x with
  | SpecFloat.S754_zero _ => Some (0 # 1)
  | SpecFloat.S754_finite _ m e => Some (inject_Z (Zpos m) * Qpower (2 # 1) e)%Q
  | _ => None
  end.

(** The double of a natural number below [2^53], which is exact. *)
Definition of_nat_Z (n : Z) : PrimFloat.float := PrimFloat.of_uint63 (Uint63.of_Z n).

(** [float(n)] for an [int] of magnitude below [2^53]. *)
Definition of_int (n : Z) : PrimFloat.float :=
  if (n <? 0)%Z then PrimFloat.opp (of_nat_Z (- n)) else of_nat_Z n.

(** Is the sign bit set ([-0.0] included)? *)
Definition signbit (x : PrimFloat.float) : bool :=
  PrimFloat.ltb x PrimFloat.zero
  || PrimFloat.eqb (PrimFloat.div PrimFloat.one x) PrimFloat.neg_infinity.

(** [round(x, ndigits)].  The decimal nearest to [x] is [m / 10^ndigits]
    for the integer [m] nearest to [x * 10^ndigits]; while [m] is below
    [2^53] both [m] and the power of ten are doubles, and their quotient
    in doubles is the double nearest to the decimal.  From [2^53] on the
    doubles lie further apart than the decimals, and [x] is its own
    rounding.  Infinities and NaN are returned as they are. *)
Definition round (x : PrimFloat.float) (ndigits : nat) : PrimFloat.float :=
  match magnitude x with
  | None => x
  | Some q =>
      let scale := (10 ^ Z.of_nat ndigits)%Z in
      let m := round_half_even (Qred (q * inject_Z scale)) in
      if (m <? 2 ^ 53)%Z then
        let r := PrimFloat.div (of_nat_Z m) (of_nat_Z scale) in
        if signbit x then PrimFloat.opp r else r
      else x
  end.

Definition arithmetic : Generic.arithmetic PrimFloat.float :=
  Generic.mkArithmetic PrimFloat.zero of_int PrimFloat.add PrimFloat.mul PrimFloat.div
    PrimFloat.leb PrimFloat.ltb round.

(** The sum of a list of doubles with the compensation term of Kahan, as
    recent versions of pandas compute the sum of a group. *)
Definition kahan_sum (l : list PrimFloat.float) : PrimFloat.float :=
  fst (foldl (λ '(sumx, compensation) val,
                let y := PrimFloat.sub val compensation in
                let t := PrimFloat.add sumx y in
                (t, PrimFloat.sub (PrimFloat.sub t sumx) y))
             (PrimFloat.zero, PrimFloat.zero) l).

(** The first of January 2023, a band from 0 to 2000 and its rate of
    3.65 per cent. *)
Definition jan1 : Z := toordinal 2023 1 1.
Definition bands_low : list (Generic.BandRange PrimFloat.float) :=
  [Generic.mkBand "Low" 0%float 2000%float].
Definition rates_low : list (Generic.RateEntry PrimFloat.float) :=
  [Generic.mkRate jan1 "Low" 3.65%float].
End Float.

(** * Proofs *)

(** Closed goals on concrete data are decided by evaluation. *)
Ltac by_compute :=
  match goal with
  | |- ?P => apply (bool_decide_eq_true_1 P); vm_compute; reflexivity
  end.

(** ** Sums *)

Lemma sum_Qc_cons (x : Qc) (l : list Qc) : sum_Qc (x :: l) = x + sum_Qc l.
Proof. done. Qed.

Lemma sum_Qc_app (l k : list Qc) : sum_Qc (l ++ k) = sum_Qc l + sum_Qc k.
Proof.
  induction l as [|x l IH]; simpl.
  - by rewrite Qcplus_0_l.
  - rewrite IH. ring.
Qed.

(** ** Dates *)

Lemma date_range_before (start e : Z) : (e < start)%Z → date_range start e = [].
Proof. intros. unfold date_range. apply seqZ_nil. lia. Qed.

Lemma date_range_snoc (start e : Z) :
  (start ≤ e)%Z → date_range start e = date_range start (e - 1) ++ [e].
Proof.
  intros H. unfold date_range.
  replace (e - start + 1)%Z with (Z.of_nat (S (Z.to_nat (e - start)))) by lia.
  rewrite seqZ_S. f_equal; f_equal; lia.
Qed.

Lemma elem_of_date_range (start e d : Z) :
  d ∈ date_range start e ↔ (start ≤ d ≤ e)%Z.
Proof. unfold date_range. rewrite elem_of_seqZ. lia. Qed.

Lemma length_date_range (start e : Z) :
  length (date_range start e) = Z.to_nat (e - start + 1).
Proof. apply length_seqZ. Qed.

Lemma lookup_date_range (start e : Z) (i : nat) (d : Z) :
  date_range start e !! i = Some d ↔ d = (start + Z.of_nat i)%Z ∧ (d ≤ e)%Z.
Proof. unfold date_range. rewrite lookup_seqZ. lia. Qed.

(** Induction on the last day of a range. *)
Lemma date_range_ind (start : Z) (P : Z → Prop) :
  (∀ e, (e < start)%Z → P e) →
  (∀ e, (start ≤ e)%Z → P (e - 1)%Z → P e) →
  ∀ e, P e.
Proof.
  intros Hbase Hstep e.
  destruct (decide (e < start)%Z) as [|Hge]; [by apply Hbase|].
  replace e with (start + Z.of_nat (Z.to_nat (e - start)))%Z by lia.
  induction (Z.to_nat (e - start)) as [|n IH].
  - apply Hstep; [lia|]. apply Hbase. lia.
  - apply Hstep; [lia|].
    replace (start + Z.of_nat (S n) - 1)%Z with (start + Z.of_nat n)%Z by lia.
    exact IH.
Qed.

(** ** The loop, in closed form *)

Section SkeletonFacts.
Context (net : gmap Z Qc) (interest : Z → Qc → Qc) (row : Z → Qc → Qc → LogRow).

Lemma netted_before start e : (e < start)%Z → netted net start e = 0.
Proof. intros. unfold netted. by rewrite date_range_before. Qed.

Lemma netted_snoc start e :
  (start ≤ e)%Z →
  netted net start e = netted net start (e - 1) + default 0 (net !! e).
Proof.
  intros. unfold netted. rewrite (date_range_snoc start e) by done.
  rewrite fmap_app, sum_Qc_app. simpl. ring.
Qed.

Lemma accrued_before start e : (e < start)%Z → accrued net interest start e = 0.
Proof. intros. unfold accrued. by rewrite date_range_before. Qed.

Lemma accrued_snoc start e :
  (start ≤ e)%Z →
  accrued net interest start e =
  accrued net interest start (e - 1) + interest e (netted net start e).
Proof.
  intros. unfold accrued. rewrite (date_range_snoc start e) by done.
  rewrite fmap_app, sum_Qc_app. simpl. ring.
Qed.

(** After the loop the accumulators hold the closed forms, and the log
    holds one row per day, built from the closed forms of that day. *)
Lemma run_closed start e :
  foldl (accrue_step net interest row) initial_state (date_range start e) =
  mkState (netted net start e) (accrued net interest start e)
          ((λ k, row k (netted net start k) (accrued net interest start k))
             <$> date_range start e).
Proof.
  revert e. apply (date_range_ind start).
  - intros e He. rewrite netted_before, accrued_before by done.
    by rewrite date_range_before.
  - intros e He IH.
    rewrite (date_range_snoc start e) by done.
    rewrite foldl_snoc, IH. unfold accrue_step; simpl.
    rewrite <- netted_snoc, <- accrued_snoc by done.
    by rewrite fmap_app.
Qed.
End SkeletonFacts.

(** Netting is the same whether the day has an entry or not. *)
Lemma add_change (net : gmap Z Qc) (b : Qc) (d : Z) :
  match net !! d with Some change => b + change | None => b end
  = b + default 0 (net !! d).
Proof. destruct (net !! d); simpl; [done|ring]. Qed.

(** ** Each copy's loop is the shared shape *)

Lemma step_H rates bands net st d :
  HOHOHOHOH.step rates bands net st d =
  accrue_step net (Closed.interest_H rates bands) (Closed.row_H rates bands) st d.
Proof.
  unfold HOHOHOHOH.step, accrue_step, Closed.row_H, Closed.interest_H, Closed.rate_H.
  rewrite add_change.
  destruct (truthy _); simpl; [done|].
  rewrite Qcplus_0_r. done.
Qed.

Lemma step_A rates bands net st d :
  App234.step rates bands net st d =
  accrue_step net (Closed.interest_H rates bands) (Closed.row_A rates bands) st d.
Proof.
  unfold App234.step, accrue_step, Closed.row_A, Closed.interest_H, Closed.rate_H.
  unfold App234.get_band_name, App234.get_rate_for_date_and_band.
  rewrite add_change.
  destruct (truthy _); simpl; [done|].
  rewrite Qcplus_0_r. done.
Qed.

Lemma step_O rates_df bands_df net st d :
  OffRelease.step rates_df bands_df net st d =
  accrue_step net (Closed.interest_O rates_df bands_df)
              (Closed.row_O rates_df bands_df) st d.
Proof.
  unfold OffRelease.step, accrue_step, Closed.row_O, Closed.interest_O, Closed.annual_O.
  rewrite add_change.
  by destruct (truthy _ && _).
Qed.

Lemma foldl_ext_step {A B} (f g : A → B → A) (a : A) (l : list B) :
  (∀ a b, f a b = g a b) → foldl f a l = foldl g a l.
Proof. intros E. revert a. induction l as [|x l IH]; intros a; simpl; [done|]. by rewrite E, IH. Qed.

(** ** Grouping *)

Lemma day_changes_cons (d : Z) (x : Qc) (ts : list Transaction) (k : Z) :
  day_changes ((d, x) :: ts) k =
  if decide (d = k) then x :: day_changes ts k else day_changes ts k.
Proof.
  unfold day_changes. rewrite filter_cons. cbn [fst].
  by destruct (decide (d = k)).
Qed.

Lemma day_changes_absent (txs : list Transaction) (k : Z) :
  k ∉ txs.*1 → day_changes txs k = [].
Proof.
  induction txs as [|[d x] ts IH]; [done|].
  rewrite fmap_cons, not_elem_of_cons, day_changes_cons. cbn [fst].
  intros [Hne Hk]. rewrite decide_False by done. by apply IH.
Qed.

Lemma groupby_fold_lookup (txs : list Transaction) (m : gmap Z Qc) (k : Z) :
  foldl (λ m t, <[t.1 := default 0 (m !! t.1) + t.2]> m) m txs !! k =
  if decide (k ∈ txs.*1)
  then Some (default 0 (m !! k) + sum_Qc (day_changes txs k))
  else m !! k.
Proof.
  revert m. induction txs as [|[d x] ts IH]; intros m; [done|].
  cbn [foldl]. rewrite IH, fmap_cons, day_changes_cons. cbn [fst snd].
  destruct (decide (d = k)) as [->|Hne].
  - rewrite lookup_insert_eq, sum_Qc_cons.
    change (default 0 (Some ?a)) with a.
    rewrite (decide_True (P := k ∈ k :: ts.*1)) by left.
    destruct (decide (k ∈ ts.*1)) as [Hin|Hin].
    + f_equal. ring.
    + rewrite (day_changes_absent ts k Hin). f_equal.
      change (sum_Qc []) with (Q2Qc 0). ring.
  - rewrite lookup_insert_ne by done.
    destruct (decide (k ∈ ts.*1)) as [Hin|Hin].
    + rewrite decide_True; [done|]. by right.
    + rewrite decide_False; [done|]. rewrite elem_of_cons.
      intros [Heq|Hk]; [by subst|done].
Qed.

Lemma groupby_sum_lookup (txs : list Transaction) (k : Z) :
  groupby_sum txs !! k =
  if decide (k ∈ txs.*1) then Some (sum_Qc (day_changes txs k)) else None.
Proof.
  unfold groupby_sum. rewrite groupby_fold_lookup, lookup_empty. simpl.
  destruct (decide _); [f_equal; ring|done].
Qed.

(** The amount netted for a day is the sum of that day's changes. *)
Lemma groupby_sum_default (txs : list Transaction) (k : Z) :
  default 0 (groupby_sum txs !! k) = sum_Qc (day_changes txs k).
Proof.
  rewrite groupby_sum_lookup. destruct (decide _) as [|Hk]; simpl; [done|].
  by rewrite day_changes_absent.
Qed.

(** ** The first date *)

Lemma foldl_min_spec (a : Z) (l : list Z) :
  (foldl Z.min a l = a ∨ foldl Z.min a l ∈ l) ∧
  (foldl Z.min a l ≤ a)%Z ∧ ∀ d, d ∈ l → (foldl Z.min a l ≤ d)%Z.
Proof.
  revert a. induction l as [|x l IH]; intros a; simpl.
  - split; [by left|]. split; [lia|]. intros d Hd. by apply not_elem_of_nil in Hd.
  - destruct (IH (Z.min a x)) as (Hm & Hle & Hall).
    split; [|split].
    + destruct Hm as [Hm|Hm]; [|right; by right].
      rewrite Hm. destruct (Z.min_spec a x) as [[_ ->]|[_ ->]]; [by left|right; left].
    + lia.
    + intros d Hd. apply elem_of_cons in Hd as [->|Hd]; [lia|by apply Hall].
Qed.

Lemma Date_min_spec (txs : list Transaction) (start : Z) :
  Date_min txs = Some start → start ∈ txs.*1 ∧ ∀ d, d ∈ txs.*1 → (start ≤ d)%Z.
Proof.
  destruct txs as [|[a x] ts]; simpl; [done|]. intros [= <-].
  destruct (foldl_min_spec a ts.*1) as (Hm & Hle & Hall).
  split.
  - destruct Hm as [->|Hm]; [left|by right].
  - intros d Hd. apply elem_of_cons in Hd as [->|Hd]; [done|by apply Hall].
Qed.

Lemma Date_min_is_Some (txs : list Transaction) :
  txs ≠ [] → is_Some (Date_min txs).
Proof. destruct txs; [done|]. simpl. eauto. Qed.

(** ** Every copy is the engine over its closed forms *)

Lemma calc_H rates bands txs e :
  HOHOHOHOH.calculate_interest_with_steps rates bands txs e =
  engine (Closed.interest_H rates bands) (Closed.row_H rates bands) txs e.
Proof.
  unfold HOHOHOHOH.calculate_interest_with_steps, engine.
  destruct (Date_min txs) as [start|]; [|done]. simpl.
  rewrite (foldl_ext_step _ _ _ _ (step_H rates bands (groupby_sum txs))).
  by rewrite run_closed.
Qed.

Lemma calc_A rates bands txs e :
  App234.calculate_interest_with_steps rates bands txs e =
  engine (Closed.interest_H rates bands) (Closed.row_A rates bands) txs e.
Proof.
  unfold App234.calculate_interest_with_steps, engine.
  destruct (Date_min txs) as [start|]; [|done]. simpl.
  rewrite (foldl_ext_step _ _ _ _ (step_A rates bands (groupby_sum txs))).
  by rewrite run_closed.
Qed.

Lemma calc_O rates_df bands_df txs e :
  OffRelease.calculate_daily_interest txs e rates_df bands_df =
  engine (Closed.interest_O rates_df bands_df) (Closed.row_O rates_df bands_df) txs e.
Proof.
  unfold OffRelease.calculate_daily_interest, engine.
  destruct (Date_min txs) as [start|]; [|done]. simpl.
  rewrite (foldl_ext_step _ _ _ _ (step_O rates_df bands_df (groupby_sum txs))).
  by rewrite run_closed.
Qed.

(** AHHHAHAHA.py's loop carries OffRelease.py's state inside its own. *)
Lemma step_AH_core rates_df bands_df net st d :
  AHHHAHAHA.st_core (AHHHAHAHA.step rates_df bands_df net st d) =
  OffRelease.step rates_df bands_df net (AHHHAHAHA.st_core st) d.
Proof.
  unfold AHHHAHAHA.step, OffRelease.step.
  unfold AHHHAHAHA.get_band_for_balance, AHHHAHAHA.get_interest_rate.
  by destruct (truthy _ && _).
Qed.

Lemma run_AH_core rates_df bands_df net st days :
  AHHHAHAHA.st_core (foldl (AHHHAHAHA.step rates_df bands_df net) st days) =
  foldl (OffRelease.step rates_df bands_df net) (AHHHAHAHA.st_core st) days.
Proof.
  revert st. induction days as [|d days IH]; intros st; simpl; [done|].
  by rewrite IH, step_AH_core.
Qed.

Lemma calc_AH rates_df bands_df txs e :
  sum_map id fst (AHHHAHAHA.calculate_daily_interest txs e rates_df bands_df) =
  OffRelease.calculate_daily_interest txs e rates_df bands_df.
Proof.
  unfold AHHHAHAHA.calculate_daily_interest, OffRelease.calculate_daily_interest.
  destruct (Date_min txs) as [start|]; [|done]. simpl.
  by rewrite run_AH_core.
Qed.

(** ** The closed forms against the ledger *)

Lemma balance_on_step (txs : list Transaction) (d : Z) :
  balance_on txs d = balance_on txs (d - 1) + sum_Qc (day_changes txs d).
Proof.
  unfold balance_on, day_changes.
  induction txs as [|[k x] ts IH]; [done|].
  rewrite !filter_cons. cbn [fst].
  destruct (decide (k ≤ d)%Z), (decide (k ≤ d - 1)%Z), (decide (k = d));
    try lia; rewrite ?fmap_cons, ?sum_Qc_cons, IH; cbn [snd]; ring.
Qed.

Lemma balance_on_before (txs : list Transaction) (start d : Z) :
  (∀ k, k ∈ txs.*1 → (start ≤ k)%Z) → (d < start)%Z → balance_on txs d = 0.
Proof.
  intros Hall Hd. unfold balance_on.
  induction txs as [|[k x] ts IH]; [done|].
  rewrite filter_cons. cbn [fst].
  assert (start ≤ k)%Z by (apply Hall; left).
  rewrite decide_False by lia. apply IH. intros k' Hk'. apply Hall. by right.
Qed.

Lemma netted_balance_on (txs : list Transaction) (start : Z) :
  (∀ k, k ∈ txs.*1 → (start ≤ k)%Z) →
  ∀ d, netted (groupby_sum txs) start d = balance_on txs d.
Proof.
  intros Hall. apply (date_range_ind start).
  - intros d Hd. rewrite netted_before by done. by rewrite (balance_on_before _ start).
  - intros d Hd IH.
    by rewrite netted_snoc, IH, groupby_sum_default, <- balance_on_step.
Qed.

Lemma accrued_interest_to (txs : list Transaction) interest (start : Z) :
  (∀ k, k ∈ txs.*1 → (start ≤ k)%Z) →
  ∀ d, accrued (groupby_sum txs) interest start d = interest_to txs interest start d.
Proof.
  intros Hall d. unfold accrued, interest_to. f_equal.
  apply list_fmap_ext. intros _ k _. by rewrite netted_balance_on.
Qed.

(** ** One row per day *)

Lemma date_range_cover (start e : Z) (log : list LogRow) :
  Date <$> log = date_range start e → daily_cover start e log.
Proof.
  intros E. unfold daily_cover. rewrite E. split; [|split; [|split]].
  - intros i d. apply lookup_date_range.
  - intros d. apply elem_of_date_range.
  - apply NoDup_seqZ.
  - intros Hlt. rewrite date_range_before in E by done.
    by apply fmap_nil_inv in E.
Qed.

Lemma engine_cover interest row (txs : list Transaction) (start e : Z) :
  (∀ k b t, Date (row k b t) = k) →
  Date_min txs = Some start →
  ∃ log total, engine interest row txs e = inr (log, total) ∧ daily_cover start e log.
Proof.
  intros Hrow Hmin. unfold engine. rewrite Hmin. eexists _, _. split; [done|].
  apply date_range_cover. rewrite <- list_fmap_compose.
  rewrite <- (list_fmap_id (date_range start e)) at 2.
  apply list_fmap_ext. intros _ k _. apply Hrow.
Qed.


Lemma engine_exact annual interest row (txs : list Transaction) (start e : Z) :
  (∀ k b t, Date (row k b t) = k ∧
            Balance (row k b t) = round b 2 ∧
            Rate (row k b t) = round (annual k b) 4 ∧
            Daily_Interest (row k b t) = round (interest k b) 6 ∧
            Total_Interest_So_Far (row k b t) = round t 6) →
  Date_min txs = Some start →
  ∃ log total,
    engine interest row txs e = inr (log, total) ∧
    Forall (exact_row annual interest txs start) log ∧
    total = round (interest_to txs interest start e) 2.
Proof.
  intros Hrow Hmin. unfold engine. rewrite Hmin.
  destruct (Date_min_spec _ _ Hmin) as [_ Hall].
  eexists _, _. split; [done|]. split.
  - apply Forall_fmap, Forall_forall. intros k _.
    unfold exact_row; simpl.
    destruct (Hrow k (netted (groupby_sum txs) start k)
                   (accrued (groupby_sum txs) interest start k))
      as (-> & -> & -> & -> & ->).
    by rewrite netted_balance_on, accrued_interest_to.
  - by rewrite accrued_interest_to.
Qed.

Lemma row_O_fields rates_df bands_df k b t :
  Date (Closed.row_O rates_df bands_df k b t) = k ∧
  Balance (Closed.row_O rates_df bands_df k b t) = round b 2 ∧
  Rate (Closed.row_O rates_df bands_df k b t)
    = round (Closed.annual_O rates_df bands_df k b) 4 ∧
  Daily_Interest (Closed.row_O rates_df bands_df k b t)
    = round (Closed.interest_O rates_df bands_df k b) 6 ∧
  Total_Interest_So_Far (Closed.row_O rates_df bands_df k b t) = round t 6.
Proof. done. Qed.

Lemma calc_AH_inr rates_df bands_df txs e log total :
  OffRelease.calculate_daily_interest txs e rates_df bands_df = inr (log, total) →
  ∃ stats,
    AHHHAHAHA.calculate_daily_interest txs e rates_df bands_df = inr (log, total, stats).
Proof.
  rewrite <- calc_AH.
  destruct (AHHHAHAHA.calculate_daily_interest _ _ _ _) as [|[[l t] s]]; simpl; [done|].
  intros [= <- <-]. by exists s.
Qed.

(** ** Lists *)

Lemma filter_none {A} (P : A → Prop) `{!∀ x, Decision (P x)} (l : list A) :
  Forall (λ x, ¬ P x) l → filter P l = [].
Proof.
  induction 1 as [|x l Hx _ IH]; [done|].
  by rewrite filter_cons_False.
Qed.

(** ** The loops over any arithmetic *)

Section GenericFacts.
Context {F : Type} (A : Generic.arithmetic F).

Lemma generic_day_changes_cons (d : Z) (x : F) (ts : list (Z * F)) (k : Z) :
  Generic.day_changes ((d, x) :: ts) k =
  if decide (d = k) then x :: Generic.day_changes ts k else Generic.day_changes ts k.
Proof.
  unfold Generic.day_changes. cbn [List.filter fst].
  destruct (decide (d = k)) as [->|Hne].
  - by rewrite bool_decide_eq_true_2.
  - by rewrite bool_decide_eq_false_2.
Qed.



(** The amount netted for a date: its changes, added in row order from
    zero. *)
Lemma generic_groupby_fold_lookup (txs : list (Z * F)) (m : gmap Z F) (k : Z) :
  foldl (λ m t, <[t.1 := Generic.add A (default (Generic.zero A) (m !! t.1)) t.2]> m)
        m txs !! k =
  match Generic.day_changes txs k with
  | [] => m !! k
  | c :: cs =>
      Some (foldl (Generic.add A)
                  (Generic.add A (default (Generic.zero A) (m !! k)) c) cs)
  end.
Proof.
  revert m. induction txs as [|[d x] ts IH]; intros m; [done|].
  cbn [foldl]. rewrite IH, generic_day_changes_cons. cbn [fst snd].
  destruct (decide (d = k)) as [->|Hne].
  - rewrite lookup_insert_eq. by destruct (Generic.day_changes ts k).
  - by rewrite lookup_insert_ne.
Qed.

Lemma generic_groupby_sum_lookup (txs : list (Z * F)) (k : Z) :
  Generic.groupby_sum A txs !! k =
  match Generic.day_changes txs k with
  | [] => None
  | c :: cs => Some (foldl (Generic.add A) (Generic.add A (Generic.zero A) c) cs)
  end.
Proof.
  unfold Generic.groupby_sum. rewrite generic_groupby_fold_lookup, lookup_empty. done.
Qed.

(** Two ledgers that list the same changes, in the same order, for every
    date are netted alike. *)
Lemma generic_groupby_sum_ext (txs txs' : list (Z * F)) :
  (∀ k, Generic.day_changes txs k = Generic.day_changes txs' k) →
  Generic.groupby_sum A txs = Generic.groupby_sum A txs'.
Proof.
  intros H. apply map_eq. intros k. by rewrite !generic_groupby_sum_lookup, H.
Qed.

Lemma generic_Date_min_spec (txs : list (Z * F)) (start : Z) :
  Generic.Date_min txs = Some start →
  start ∈ txs.*1 ∧ ∀ d, d ∈ txs.*1 → (start ≤ d)%Z.
Proof.
  destruct txs as [|[a x] ts]; simpl; [done|]. intros [= <-].
  destruct (foldl_min_spec a ts.*1) as (Hm & Hle & Hall).
  split.
  - destruct Hm as [->|Hm]; [left|by right].
  - intros d Hd. apply elem_of_cons in Hd as [->|Hd]; [done|by apply Hall].
Qed.

(** The first date depends on the dates that occur, not on their order or
    number. *)
Lemma generic_Date_min_ext (txs txs' : list (Z * F)) :
  (∀ k, k ∈ txs.*1 ↔ k ∈ txs'.*1) →
  Generic.Date_min txs = Generic.Date_min txs'.
Proof.
  intros H.
  destruct (Generic.Date_min txs) as [m|] eqn:E;
    destruct (Generic.Date_min txs') as [m'|] eqn:E'.
  - apply generic_Date_min_spec in E as [Hin Hle].
    apply generic_Date_min_spec in E' as [Hin' Hle'].
    f_equal. apply Z.le_antisymm.
    + apply Hle. by apply H.
    + apply Hle'. by apply H.
  - destruct txs' as [|t ts]; [|done].
    apply generic_Date_min_spec in E as [Hin _]. apply H in Hin.
    by apply not_elem_of_nil in Hin.
  - destruct txs as [|t ts]; [|done].
    apply generic_Date_min_spec in E' as [Hin _]. apply H in Hin.
    by apply not_elem_of_nil in Hin.
  - done.
Qed.

Lemma generic_step_with_steps rates bands net st d :
  Generic.step_with_steps A rates bands net st d =
  Generic.turn (Generic.carry_with_steps A rates bands net)
               (Generic.row_with_steps A rates bands) st d.
Proof.
  unfold Generic.step_with_steps, Generic.turn, Generic.carry_with_steps,
    Generic.row_with_steps.
  cbn [fst snd Generic.st_balance Generic.st_total_interest].
  generalize (match net !! d with
              | Some change => Generic.add A (Generic.st_balance st) change
              | None => Generic.st_balance st
              end).
  intros b.
  destruct (negb (truthy (Generic.get_band_name A bands b))) eqn:E;
    cbn [fst snd]; by rewrite E.
Qed.

Lemma generic_step_daily sort_values rates_df bands_df net st d :
  Generic.step_daily A sort_values rates_df bands_df net st d =
  Generic.turn (Generic.carry_daily A sort_values rates_df bands_df net)
               (Generic.row_daily A sort_values rates_df bands_df) st d.
Proof.
  unfold Generic.step_daily, Generic.turn, Generic.carry_daily, Generic.row_daily.
  cbn [fst snd Generic.st_balance Generic.st_total_interest].
  generalize (match net !! d with
              | Some change => Generic.add A (Generic.st_balance st) change
              | None => Generic.st_balance st
              end).
  intros b.
  by destruct (truthy (Generic.get_band_for_balance A b bands_df)
               && Generic.ltb A (Generic.zero A) b).
Qed.

(** A run of turns leaves the accumulators that the carry alone computes,
    and appends the row of each day's accumulators. *)
Lemma generic_run (carry : F * F → Z → F * F) (row : Z → F * F → Generic.LogRow F)
    (b t : F) (log : list (Generic.LogRow F)) (days : list Z) :
  foldl (Generic.turn carry row) (Generic.mkState b t log) days =
  Generic.mkState (foldl carry (b, t) days).1 (foldl carry (b, t) days).2
    (log ++ zip_with row days (Generic.trace carry (b, t) days)).
Proof.
  revert b t log. induction days as [|d days IH]; intros b t log.
  - by rewrite app_nil_r.
  - cbn [foldl Generic.trace zip_with]. unfold Generic.turn at 2.
    cbn [Generic.st_balance Generic.st_total_interest Generic.st_log_rows].
    rewrite IH. rewrite <- surjective_pairing, <- app_assoc. done.
Qed.

Lemma generic_calc_with_steps rates bands (txs : list (Z * F)) (start e : Z) :
  Generic.Date_min txs = Some start →
  Generic.calculate_interest_with_steps A rates bands txs e =
  let carry := Generic.carry_with_steps A rates bands (Generic.groupby_sum A txs) in
  inr (Generic.rows_of A carry (Generic.row_with_steps A rates bands) (date_range start e),
       Generic.round A
         (foldl carry (Generic.zero A, Generic.zero A) (date_range start e)).2 2).
Proof.
  intros Hmin. unfold Generic.calculate_interest_with_steps. rewrite Hmin. cbv zeta.
  rewrite (foldl_ext_step _ _ _ _ (generic_step_with_steps rates bands _)).
  unfold Generic.initial_state. by rewrite generic_run.
Qed.

Lemma generic_calc_daily sort_values rates_df bands_df (txs : list (Z * F)) (start e : Z) :
  Generic.Date_min txs = Some start →
  Generic.calculate_daily_interest A sort_values txs e rates_df bands_df =
  let carry :=
    Generic.carry_daily A sort_values rates_df bands_df (Generic.groupby_sum A txs) in
  inr (Generic.rows_of A carry (Generic.row_daily A sort_values rates_df bands_df)
         (date_range start e),
       Generic.round A
         (foldl carry (Generic.zero A, Generic.zero A) (date_range start e)).2 2).
Proof.
  intros Hmin. unfold Generic.calculate_daily_interest. rewrite Hmin. cbv zeta.
  rewrite (foldl_ext_step _ _ _ _ (generic_step_daily sort_values rates_df bands_df _)).
  unfold Generic.initial_state. by rewrite generic_run.
Qed.

Lemma generic_trace_length (carry : F * F → Z → F * F) (acc : F * F) (days : list Z) :
  length (Generic.trace carry acc days) = length days.
Proof.
  revert acc. induction days as [|d days IH]; intros acc; simpl; [done|].
  by rewrite IH.
Qed.

(** The accumulators of day [i] are those after the first [i] days, carried
    over day [i]. *)
Lemma generic_trace_lookup (carry : F * F → Z → F * F) (acc : F * F)
    (days : list Z) (i : nat) (d : Z) :
  days !! i = Some d →
  Generic.trace carry acc days !! i = Some (carry (foldl carry acc (take i days)) d).
Proof.
  revert acc i. induction days as [|d' days IH]; intros acc i; [done|].
  destruct i as [|i]; simpl.
  - by intros [= ->].
  - apply IH.
Qed.
End GenericFacts.

Section GenericRows.
Context {F : Type} (A : Generic.arithmetic F).







End GenericRows.


Section GenericLog.
Context {F : Type} (A : Generic.arithmetic F).

Lemma generic_rows_of_length (carry : F * F → Z → F * F)
    (row : Z → F * F → Generic.LogRow F) (days : list Z) :
  length (Generic.rows_of A carry row days) = length days.
Proof.
  unfold Generic.rows_of. rewrite length_zip_with, generic_trace_length. lia.
Qed.

Lemma generic_rows_of_lookup (carry : F * F → Z → F * F)
    (row : Z → F * F → Generic.LogRow F) (days : list Z) (i : nat) (d : Z) :
  days !! i = Some d →
  Generic.rows_of A carry row days !! i =
  Some (row d (foldl carry (Generic.zero A, Generic.zero A) (take (S i) days))).
Proof.
  intros Hd. unfold Generic.rows_of.
  rewrite lookup_zip_with, Hd. cbn [mbind option_bind].
  rewrite (generic_trace_lookup _ _ _ _ _ Hd). cbn [mbind option_bind].
  by rewrite (take_S_r _ _ _ Hd), foldl_snoc.
Qed.
End GenericLog.

(** ** The loops on rationals are the loops over the exact arithmetic *)

Lemma exact_filter_bands (bands : list BandRange) (b : Qc) :
  List.filter (λ r, Generic.leb Exact.arithmetic (Generic.Minimum r) b
                    && Generic.leb Exact.arithmetic b (Generic.Maximum r))
              (Exact.band_range <$> bands)
  = Exact.band_range <$> filter (λ r, Minimum r ≤ b ∧ b ≤ Maximum r) bands.
Proof.
  induction bands as [|r bands IH]; [done|].
  rewrite fmap_cons, filter_cons. cbn [List.filter]. rewrite IH.
  cbn [Exact.band_range Generic.Minimum Generic.Maximum Exact.arithmetic Generic.leb].
  destruct (decide (Minimum r ≤ b ∧ b ≤ Maximum r)) as [[H1 H2]|Hn].
  - by rewrite !bool_decide_eq_true_2.
  - destruct (bool_decide (Minimum r ≤ b)) eqn:E1; [|done].
    destruct (bool_decide (b ≤ Maximum r)) eqn:E2; [|done].
    apply bool_decide_eq_true_1 in E1, E2. by destruct Hn.
Qed.

Lemma exact_filter_rates (rates : list RateEntry) (d : Z) (band_name : option string) :
  List.filter (λ e, bool_decide (Generic.Start_Date e ≤ d)%Z
                    && bool_decide (Some (Generic.rate_band e) = band_name))
              (Exact.rate_entry <$> rates)
  = Exact.rate_entry
      <$> filter (λ e, (Start_Date e ≤ d)%Z ∧ Some (rate_band e) = band_name) rates.
Proof.
  induction rates as [|r rates IH]; [done|].
  rewrite fmap_cons, filter_cons. cbn [List.filter]. rewrite IH.
  cbn [Exact.rate_entry Generic.Start_Date Generic.rate_band].
  destruct (decide ((Start_Date r ≤ d)%Z ∧ Some (rate_band r) = band_name)) as [[H1 H2]|Hn].
  - by rewrite !bool_decide_eq_true_2.
  - destruct (bool_decide (Start_Date r ≤ d)%Z) eqn:E1; [|done].
    destruct (bool_decide (Some (rate_band r) = band_name)) eqn:E2; [|done].
    apply bool_decide_eq_true_1 in E1, E2. by destruct Hn.
Qed.

Lemma exact_get_band_name (bands : list BandRange) (b : Qc) :
  Generic.get_band_name Exact.arithmetic (Exact.band_range <$> bands) b
  = HOHOHOHOH.get_band_name bands b.
Proof.
  unfold Generic.get_band_name, HOHOHOHOH.get_band_name. rewrite exact_filter_bands.
  by destruct (filter _ bands).
Qed.

Lemma exact_get_rate_for_date_and_band (rates : list RateEntry) (d : Z)
    (band_name : option string) :
  Generic.get_rate_for_date_and_band Exact.arithmetic (Exact.rate_entry <$> rates)
    d band_name
  = HOHOHOHOH.get_rate_for_date_and_band rates d band_name.
Proof.
  unfold Generic.get_rate_for_date_and_band, HOHOHOHOH.get_rate_for_date_and_band.
  rewrite exact_filter_rates, fmap_last. by destruct (last _).
Qed.

Lemma exact_get_band_for_balance (bands_df : option (list BandRange)) (b : Qc) :
  Generic.get_band_for_balance Exact.arithmetic b (fmap (M := list) Exact.band_range <$> bands_df)
  = OffRelease.get_band_for_balance b bands_df.
Proof.
  destruct bands_df as [bands|]; [|done].
  unfold Generic.get_band_for_balance, OffRelease.get_band_for_balance.
  cbn [fmap option_fmap option_map Exact.arithmetic Generic.ltb Generic.zero].
  destruct (bool_decide (b < 0)); [done|].
  rewrite exact_filter_bands. by destruct (filter _ bands).
Qed.

Lemma exact_insert_by_date (e : RateEntry) (l : list RateEntry) :
  Generic.insert_by_date (Exact.rate_entry e) (Exact.rate_entry <$> l)
  = Exact.rate_entry <$> insert_by_date e l.
Proof.
  induction l as [|x l IH]; [done|].
  cbn [fmap list_fmap Generic.insert_by_date insert_by_date].
  cbn [Exact.rate_entry Generic.Start_Date].
  destruct (decide (Start_Date e ≤ Start_Date x)%Z); [done|].
  cbn [fmap list_fmap]. f_equal. apply IH.
Qed.

Lemma exact_sort_values (l : list RateEntry) :
  Generic.sort_values (Exact.rate_entry <$> l) = Exact.rate_entry <$> sort_values l.
Proof.
  induction l as [|x l IH]; [done|].
  cbn [fmap list_fmap Generic.sort_values sort_values foldr].
  change (foldr Generic.insert_by_date [] (Exact.rate_entry <$> l))
    with (Generic.sort_values (Exact.rate_entry <$> l)).
  rewrite IH. apply exact_insert_by_date.
Qed.

Lemma exact_get_interest_rate (rates_df : option (list RateEntry)) (d : Z)
    (band_name : option string) :
  Generic.get_interest_rate Exact.arithmetic Generic.sort_values d band_name
    (fmap (M := list) Exact.rate_entry <$> rates_df)
  = OffRelease.get_interest_rate d band_name rates_df.
Proof.
  destruct rates_df as [rates|]; [|done].
  unfold Generic.get_interest_rate, OffRelease.get_interest_rate.
  cbn [fmap option_fmap option_map].
  destruct (negb (truthy band_name)); [done|].
  rewrite exact_filter_rates, exact_sort_values, fmap_last. by destruct (last _).
Qed.

Lemma exact_constants :
  Generic.of_int Exact.arithmetic 100 = dec 100 ∧
  Generic.of_int Exact.arithmetic 365 = dec 365.
Proof. split; by_compute. Qed.

Lemma exact_step_with_steps rates bands net st d :
  Generic.step_with_steps Exact.arithmetic
    (Exact.rate_entry <$> rates) (Exact.band_range <$> bands) net (Exact.state st) d
  = Exact.state (HOHOHOHOH.step rates bands net st d).
Proof.
  unfold Generic.step_with_steps, HOHOHOHOH.step, Exact.state.
  cbn [Generic.st_balance Generic.st_total_interest Generic.st_log_rows
       st_balance st_total_interest st_log_rows].
  destruct exact_constants as [-> ->].
  rewrite exact_get_band_name.
  cbn [Generic.add Generic.mul Generic.div Generic.zero Generic.round Exact.arithmetic].
  generalize (match net !! d with
              | Some change => st_balance st + change
              | None => st_balance st
              end).
  intros b. rewrite exact_get_rate_for_date_and_band.
  destruct (negb (truthy (HOHOHOHOH.get_band_name bands b)));
    cbn [st_balance st_total_interest st_log_rows]; by rewrite fmap_app.
Qed.

Lemma exact_step_daily rates_df bands_df net st d :
  Generic.step_daily Exact.arithmetic Generic.sort_values
    (fmap (M := list) Exact.rate_entry <$> rates_df) (fmap (M := list) Exact.band_range <$> bands_df)
    net (Exact.state st) d
  = Exact.state (OffRelease.step rates_df bands_df net st d).
Proof.
  unfold Generic.step_daily, OffRelease.step, Exact.state.
  cbn [Generic.st_balance Generic.st_total_interest Generic.st_log_rows
       st_balance st_total_interest st_log_rows].
  destruct exact_constants as [-> ->].
  rewrite exact_get_band_for_balance.
  cbn [Generic.add Generic.mul Generic.div Generic.zero Generic.round Generic.ltb
       Exact.arithmetic].
  generalize (match net !! d with
              | Some change => st_balance st + change
              | None => st_balance st
              end).
  intros b. rewrite exact_get_interest_rate.
  destruct (truthy (OffRelease.get_band_for_balance b bands_df) && bool_decide (0 < b));
    cbn [st_balance st_total_interest st_log_rows]; by rewrite fmap_app.
Qed.

Lemma exact_run (f : Generic.loop_state Qc → Z → Generic.loop_state Qc)
    (g : loop_state → Z → loop_state) (st : loop_state) (days : list Z) :
  (∀ st d, f (Exact.state st) d = Exact.state (g st d)) →
  foldl f (Exact.state st) days = Exact.state (foldl g st days).
Proof.
  intros H. revert st. induction days as [|d days IH]; intros st; [done|].
  cbn [foldl]. by rewrite H, IH.
Qed.

(** The loop of HOHOHOHOH.py on rationals is
    [Generic.calculate_interest_with_steps] over the exact arithmetic. *)
Lemma exact_calculate_interest_with_steps rates bands (txs : list Transaction) (e : Z) :
  Generic.calculate_interest_with_steps Exact.arithmetic
    (Exact.rate_entry <$> rates) (Exact.band_range <$> bands) txs e
  = sum_map id (prod_map (fmap Exact.log_row) id)
            (HOHOHOHOH.calculate_interest_with_steps rates bands txs e).
Proof.
  unfold Generic.calculate_interest_with_steps, HOHOHOHOH.calculate_interest_with_steps.
  change (Generic.Date_min txs) with (Date_min txs).
  destruct (Date_min txs) as [start|]; [|done]. cbv zeta.
  change (Generic.groupby_sum Exact.arithmetic txs) with (groupby_sum txs).
  change (Generic.initial_state Exact.arithmetic) with (Exact.state initial_state).
  by rewrite (exact_run _ (HOHOHOHOH.step rates bands (groupby_sum txs)))
    by apply exact_step_with_steps.
Qed.

(** The loop of OffRelease.py on rationals is
    [Generic.calculate_daily_interest] over the exact arithmetic, with the
    sort by insertion. *)
Lemma exact_calculate_daily_interest rates_df bands_df (txs : list Transaction) (e : Z) :
  Generic.calculate_daily_interest Exact.arithmetic Generic.sort_values txs e
    (fmap (M := list) Exact.rate_entry <$> rates_df) (fmap (M := list) Exact.band_range <$> bands_df)
  = sum_map id (prod_map (fmap Exact.log_row) id)
            (OffRelease.calculate_daily_interest txs e rates_df bands_df).
Proof.
  unfold Generic.calculate_daily_interest, OffRelease.calculate_daily_interest.
  change (Generic.Date_min txs) with (Date_min txs).
  destruct (Date_min txs) as [start|]; [|done]. cbv zeta.
  change (Generic.groupby_sum Exact.arithmetic txs) with (groupby_sum txs).
  change (Generic.initial_state Exact.arithmetic) with (Exact.state initial_state).
  by rewrite (exact_run _ (OffRelease.step rates_df bands_df (groupby_sum txs)))
    by apply exact_step_daily.
Qed.

(** * The claims *)

(** ** C10: an empty ledger *)

(** C10.  With an empty transaction list every copy of the engine raises:
    [Date.min()] of the empty frame is [NaT] and [pd.date_range] refuses
    it with a [ValueError], before any row is logged.  The engine
    therefore never returns a log or a total for the empty ledger; and it
    raises for no other ledger. *)
Theorem empty_ledger_raises (e : Z) :
  (∀ rates bands,
     HOHOHOHOH.calculate_interest_with_steps rates bands [] e = inl ValueError) ∧
  (∀ rates bands,
     App234.calculate_interest_with_steps rates bands [] e = inl ValueError) ∧
  (∀ rates_df bands_df,
     OffRelease.calculate_daily_interest [] e rates_df bands_df = inl ValueError) ∧
  (∀ rates_df bands_df,
     AHHHAHAHA.calculate_daily_interest [] e rates_df bands_df = inl ValueError) ∧
  (∀ rates bands txs err,
     HOHOHOHOH.calculate_interest_with_steps rates bands txs e = inl err → txs = []) ∧
  (∀ rates_df bands_df txs err,
     OffRelease.calculate_daily_interest txs e rates_df bands_df = inl err → txs = []).
Proof.
  repeat split; try done.
  - intros rates bands [|t ts] err; [done|].
    unfold HOHOHOHOH.calculate_interest_with_steps. done.
  - intros rates_df bands_df [|t ts] err; [done|].
    unfold OffRelease.calculate_daily_interest. done.
Qed.

(** ** C5: one log row per day *)

(** C5.  For a non-empty ledger the log of every copy has exactly one row
    for each calendar day from the earliest transaction date to the end
    date, both included, in ascending order: row [i] is the row of day
    [start + i]; no day is missing or repeated; and the log is empty when
    the end date is before the first transaction. *)
Theorem log_covers_every_day (txs : list Transaction) (e : Z) :
  txs ≠ [] →
  ∃ start,
    first_date txs start ∧
    (∀ rates bands, ∃ log total,
       HOHOHOHOH.calculate_interest_with_steps rates bands txs e = inr (log, total) ∧
       daily_cover start e log) ∧
    (∀ rates bands, ∃ log total,
       App234.calculate_interest_with_steps rates bands txs e = inr (log, total) ∧
       daily_cover start e log) ∧
    (∀ rates_df bands_df, ∃ log total,
       OffRelease.calculate_daily_interest txs e rates_df bands_df = inr (log, total) ∧
       daily_cover start e log) ∧
    (∀ rates_df bands_df, ∃ log total stats,
       AHHHAHAHA.calculate_daily_interest txs e rates_df bands_df
         = inr (log, total, stats) ∧
       daily_cover start e log).
Proof.
  intros Hne. destruct (Date_min_is_Some txs Hne) as [start Hmin].
  exists start. split; [by apply Date_min_spec|].
  assert (∀ rates_df bands_df, ∃ log total,
    OffRelease.calculate_daily_interest txs e rates_df bands_df = inr (log, total) ∧
    daily_cover start e log) as HO.
  { intros. rewrite calc_O. by apply engine_cover. }
  repeat split.
  - intros. rewrite calc_H. by apply engine_cover.
  - intros. rewrite calc_A. by apply engine_cover.
  - exact HO.
  - intros rates_df bands_df.
    destruct (HO rates_df bands_df) as (log & total & Hcalc & Hcover).
    destruct (calc_AH_inr _ _ _ _ _ _ Hcalc) as [stats Hstats].
    by exists log, total, stats.
Qed.

Lemma log_covers_every_day_witness :
  ∃ start,
    first_date [(Ex.jan1, dec 1000); (Ex.jan2, dec (-250))] start ∧
    ∃ log total,
      OffRelease.calculate_daily_interest [(Ex.jan1, dec 1000); (Ex.jan2, dec (-250))]
        Ex.jan3 (Some Ex.rates_low) (Some Ex.bands_low) = inr (log, total) ∧
      daily_cover start Ex.jan3 log.
Proof.
  destruct (log_covers_every_day [(Ex.jan1, dec 1000); (Ex.jan2, dec (-250))] Ex.jan3)
    as (start & Hfirst & _ & _ & HO & _); [done|].
  exists start. split; [exact Hfirst|].
  exact (HO (Some Ex.rates_low) (Some Ex.bands_low)).
Defined.

(** ** C6: same-day netting *)


(** The sums of the two ledgers are the same with the compensated
    summation of pandas. *)
Example three_same_day_rows_compensated :
  Float.kahan_sum [1000.1%float; (-3000.3)%float; 2000.2%float]
    = (-2.2737367544323206e-13)%float ∧
  Float.kahan_sum [PrimFloat.add 1000.1 2000.2; (-3000.3)%float] = 0%float ∧
  PrimFloat.ltb (-2.2737367544323206e-13) 0 = true.
Proof. repeat split; vm_compute; reflexivity. Qed.



(** ** C8: full precision inside, rounding on the way out *)

(** C8.  The daily loop never rounds what it carries from day to day.
    Whatever the arithmetic, the balance and the accumulated interest
    after a day are those that [carry_with_steps] (HOHOHOHOH.py) and
    [carry_daily] (OffRelease.py) compute from the ledger without any
    call of [round]; the row of the day is [round] of these accumulators
    (the balance to 2 decimals, the rate to 4, the interest of the day,
    computed on the unrounded balance, to 6, the accumulated interest to
    6), and the returned total is the accumulated interest after the last
    day, rounded to 2 decimals. *)
Theorem two_tier_precision {F : Type} (A : Generic.arithmetic F)
    (txs : list (Z * F)) (start e : Z) :
  Generic.Date_min txs = Some start →
  let days := date_range start e in
  let net := Generic.groupby_sum A txs in
  let zeros := (Generic.zero A, Generic.zero A) in
  (∀ rates bands,
     let carry := Generic.carry_with_steps A rates bands net in
     ∃ log total,
       Generic.calculate_interest_with_steps A rates bands txs e = inr (log, total) ∧
       length log = length days ∧
       (∀ (i : nat) (d : Z), days !! i = Some d →
          let acc := foldl carry zeros (take (S i) days) in
          ∃ r, log !! i = Some r ∧
               r = Generic.row_with_steps A rates bands d acc ∧
               Generic.Balance r = Generic.round A acc.1 2 ∧
               Generic.Total_Interest_So_Far r = Generic.round A acc.2 6) ∧
       total = Generic.round A (foldl carry zeros days).2 2) ∧
  (∀ sort_values rates_df bands_df,
     let carry := Generic.carry_daily A sort_values rates_df bands_df net in
     ∃ log total,
       Generic.calculate_daily_interest A sort_values txs e rates_df bands_df
         = inr (log, total) ∧
       length log = length days ∧
       (∀ (i : nat) (d : Z), days !! i = Some d →
          let acc := foldl carry zeros (take (S i) days) in
          ∃ r, log !! i = Some r ∧
               r = Generic.row_daily A sort_values rates_df bands_df d acc ∧
               Generic.Balance r = Generic.round A acc.1 2 ∧
               Generic.Total_Interest_So_Far r = Generic.round A acc.2 6) ∧
       total = Generic.round A (foldl carry zeros days).2 2).
Proof.
  intros Hmin. cbv zeta. split.
  - intros rates bands. rewrite (generic_calc_with_steps A _ _ _ _ _ Hmin). cbv zeta.
    eexists _, _. split; [done|]. split; [apply generic_rows_of_length|].
    split; [|done]. intros i d Hd. eexists. split; [by apply generic_rows_of_lookup|].
    split; [done|]. unfold Generic.row_with_steps. by destruct (negb _).
  - intros sort_values rates_df bands_df.
    rewrite (generic_calc_daily A _ _ _ _ _ _ Hmin). cbv zeta.
    eexists _, _. split; [done|]. split; [apply generic_rows_of_length|].
    split; [|done]. intros i d Hd. eexists. split; [by apply generic_rows_of_lookup|].
    split; [done|]. unfold Generic.row_daily. by destruct (truthy _ && _).
Qed.

Lemma two_tier_precision_witness :
  ∃ log total,
    Generic.calculate_interest_with_steps Float.arithmetic Float.rates_low
      Float.bands_low [(Float.jan1, 150%float)] Float.jan1 = inr (log, total) ∧
    total =
      Float.round
        (foldl (Generic.carry_with_steps Float.arithmetic Float.rates_low
                  Float.bands_low
                  (Generic.groupby_sum Float.arithmetic [(Float.jan1, 150%float)]))
               (0%float, 0%float) (date_range Float.jan1 Float.jan1)).2 2.
Proof.
  destruct (proj1 (two_tier_precision Float.arithmetic [(Float.jan1, 150%float)]
                     Float.jan1 Float.jan1 eq_refl) Float.rates_low Float.bands_low)
    as (log & total & Hcalc & _ & _ & Htotal).
  by exists log, total.
Defined.

(** In the arithmetic of Python a deposit of 150 at 3.65 per cent earns
    0.015 on its day, and the total returned is 0.01: the double that
    0.015 is read as is below the decimal 0.015. *)
Example deposit_150_in_doubles :
  Generic.calculate_interest_with_steps Float.arithmetic Float.rates_low
    Float.bands_low [(Float.jan1, 150%float)] Float.jan1 =
  inr ([Generic.mkRow Float.jan1 150%float "Low" 3.65%float 0.015%float 0.015%float],
       0.01%float).
Proof. vm_compute. reflexivity. Qed.

(** The balance is carried unrounded from day to day: two changes that
    each vanish at 2 decimals still add up in the balance of the next day. *)
Example balance_not_rounded_between_days :
  Generic.calculate_daily_interest Float.arithmetic Generic.sort_values
    [(Float.jan1, 0.004%float); ((Float.jan1 + 1)%Z, 0.004%float)] (Float.jan1 + 1)
    (Some Float.rates_low) (Some Float.bands_low) =
  inr ([Generic.mkRow Float.jan1 0%float "Low" 3.65%float 0%float 0%float;
        Generic.mkRow (Float.jan1 + 1) 0.01%float "Low" 3.65%float 1e-6%float 1e-6%float],
       0%float).
Proof. vm_compute. reflexivity. Qed.

(** ** C2: the end-to-end example *)

(** C2.  For the ledger [(2023-01-01, +1000)], end date 2023-01-03, the
    band table [("Low", 0, 2000)] and the rate table
    [(2023-01-01, "Low", 3.65)], every copy returns a log of exactly three
    rows, each with balance 1000 and daily interest 0.1
    (= 1000 * 3.65 / 100 / 365), the cumulative interest of the third being
    0.3, and the total 0.3 after rounding to 2 decimals. *)
Theorem end_to_end_example :
  HOHOHOHOH.calculate_interest_with_steps Ex.rates_low Ex.bands_low
    [(Ex.jan1, dec 1000)] Ex.jan3 = inr (Ex.example_log, dec 0.3) ∧
  App234.calculate_interest_with_steps Ex.rates_low Ex.bands_low
    [(Ex.jan1, dec 1000)] Ex.jan3 = inr (Ex.example_log, dec 0.3) ∧
  OffRelease.calculate_daily_interest [(Ex.jan1, dec 1000)] Ex.jan3
    (Some Ex.rates_low) (Some Ex.bands_low) = inr (Ex.example_log, dec 0.3) ∧
  AHHHAHAHA.calculate_daily_interest [(Ex.jan1, dec 1000)] Ex.jan3
    (Some Ex.rates_low) (Some Ex.bands_low)
    = inr (Ex.example_log, dec 0.3, mkStats (dec 1000) (dec 1000) (dec 1000) 3 3) ∧
  length Ex.example_log = 3%nat ∧
  dec 1000 * dec 3.65 / dec 100 / dec 365 = dec 0.1 ∧
  Ex.jan1 = 738521%Z.
Proof. repeat split; by_compute. Qed.

(** ** C7: the first matching band *)

Lemma not_negative (balance : Qc) : 0 ≤ balance → bool_decide (balance < 0) = false.
Proof. intros H. apply bool_decide_eq_false_2. by apply Qcle_not_lt. Qed.

(** C7.  When a non-negative balance lies in the range of a band and in
    none of the ranges listed before it, the band lookup of every copy
    returns that band, whatever ranges follow it in the table: of all the
    ranges that contain the balance the first in table order decides. *)
Theorem first_matching_band (bands before after : list BandRange) (r : BandRange)
    (balance : Qc) :
  0 ≤ balance →
  bands = before ++ r :: after →
  Minimum r ≤ balance ≤ Maximum r →
  Forall (λ r', ¬ (Minimum r' ≤ balance ≤ Maximum r')) before →
  HOHOHOHOH.get_band_name bands balance = Some (band r) ∧
  App234.get_band_name bands balance = Some (band r) ∧
  OffRelease.get_band_for_balance balance (Some bands) = Some (band r) ∧
  AHHHAHAHA.get_band_for_balance balance (Some bands) = Some (band r).
Proof.
  intros Hpos -> Hr Hbefore.
  assert (filter (λ r', Minimum r' ≤ balance ≤ Maximum r') (before ++ r :: after)
          = r :: filter (λ r', Minimum r' ≤ balance ≤ Maximum r') after) as Hfilter.
  { by rewrite filter_app, filter_none, filter_cons_True. }
  unfold AHHHAHAHA.get_band_for_balance, App234.get_band_name.
  unfold OffRelease.get_band_for_balance, HOHOHOHOH.get_band_name.
  by rewrite not_negative, Hfilter.
Qed.

Lemma first_matching_band_witness :
  HOHOHOHOH.get_band_name Ex.bands_AB (dec 700) = Some "A"%string ∧
  App234.get_band_name Ex.bands_AB (dec 700) = Some "A"%string ∧
  OffRelease.get_band_for_balance (dec 700) (Some Ex.bands_AB) = Some "A"%string ∧
  AHHHAHAHA.get_band_for_balance (dec 700) (Some Ex.bands_AB) = Some "A"%string.
Proof.
  apply (first_matching_band Ex.bands_AB [] [mkBand "B" (dec 500) (dec 1500)]
           (mkBand "A" 0 (dec 1000)) (dec 700)).
  - by vm_compute.
  - reflexivity.
  - split; by vm_compute.
  - constructor.
Defined.

(** Both ranges of the example table contain 700. *)
Example overlap_700 :
  Forall (λ r, Minimum r ≤ dec 700 ≤ Maximum r) Ex.bands_AB.
Proof. repeat constructor; by vm_compute. Qed.

(** ** C4: negative balances *)

(** [get_band_name] has no test of the sign: what keeps a negative balance
    out of every band is the table.  Every loader of the repository splits
    the range text of bands.csv at each ["-"] and takes the first part as
    the minimum, so that no table it returns has a minimum below zero (a
    text such as "-1000-0" splits in three and is refused).  The table of
    this example is outside what can be loaded; it shows that the
    condition on the table in the theorem below is needed. *)
Example negative_balance_in_band :
  dec (-500) < 0 ∧
  HOHOHOHOH.get_band_name [mkBand "Overdrawn" (dec (-1000)) 0] (dec (-500))
    = Some "Overdrawn"%string.
Proof. split; [by vm_compute|by_compute]. Qed.

(** C4.  For a negative balance the band lookup returns no band.
    [get_band_for_balance] (OffRelease.py, AHHHAHAHA.py) tests the sign and
    does so whatever the table holds.  [get_band_name] (the other copies)
    does so on every table without a minimum below zero, which are the
    tables that [load_data] can produce: the range text is split at ["-"],
    so the minimum is read from a text without a minus sign. *)
Theorem negative_balance_no_band (balance : Qc) :
  balance < 0 →
  (∀ bands_df, OffRelease.get_band_for_balance balance bands_df = None) ∧
  (∀ bands_df, AHHHAHAHA.get_band_for_balance balance bands_df = None) ∧
  (∀ bands, Forall (λ r, 0 ≤ Minimum r) bands →
     HOHOHOHOH.get_band_name bands balance = None ∧
     App234.get_band_name bands balance = None).
Proof.
  intros Hneg.
  assert (∀ bands_df, OffRelease.get_band_for_balance balance bands_df = None) as HO.
  { intros [bands|]; [|done]. unfold OffRelease.get_band_for_balance.
    by rewrite bool_decide_eq_true_2. }
  split; [exact HO|]. split; [exact HO|].
  intros bands Hmin.
  unfold App234.get_band_name, HOHOHOHOH.get_band_name.
  rewrite filter_none; [done|].
  eapply Forall_impl; [exact Hmin|]. intros r Hr [Hle _]. simpl in Hr.
  apply (Qclt_not_le _ _ Hneg). by apply (Qcle_trans _ (Minimum r)).
Qed.

Lemma negative_balance_no_band_witness :
  OffRelease.get_band_for_balance (dec (-500))
    (Some [mkBand "Overdrawn" (dec (-1000)) 0]) = None ∧
  HOHOHOHOH.get_band_name Ex.bands_AB (dec (-500)) = None.
Proof.
  destruct (negative_balance_no_band (dec (-500))) as (HO & _ & HH); [by vm_compute|].
  split; [apply HO|].
  apply HH. repeat constructor; by vm_compute.
Defined.

(** ** C1: days with a balance of zero or less *)

Lemma round_0_4 : round 0 4 = 0.
Proof. by_compute. Qed.

Lemma round_0_6 : round 0 6 = 0.
Proof. by_compute. Qed.

(** OffRelease.py guards the accrual with [running_balance > 0]: a day
    that ends with a balance of zero or less logs rate 0 and interest 0 and
    leaves the accumulated interest as it was, whatever the band table. *)
Lemma OffRelease_step_nonpositive rates_df bands_df net st d :
  st_balance (OffRelease.step rates_df bands_df net st d) ≤ 0 →
  st_total_interest (OffRelease.step rates_df bands_df net st d)
    = st_total_interest st ∧
  ∃ r, st_log_rows (OffRelease.step rates_df bands_df net st d)
         = st_log_rows st ++ [r] ∧
       Date r = d ∧ Rate r = 0 ∧ Daily_Interest r = 0.
Proof.
  rewrite step_O. unfold accrue_step; simpl. intros Hle.
  assert (Closed.interest_O rates_df bands_df d
            (st_balance st + default 0 (net !! d)) = 0) as Hint.
  { unfold Closed.interest_O.
    rewrite (bool_decide_eq_false_2 (0 < _)), andb_false_r; [done|].
    by apply Qcle_not_lt. }
  rewrite Hint. split; [ring|].
  eexists; split; [done|]. simpl. rewrite Hint. unfold Closed.annual_O.
  rewrite (bool_decide_eq_false_2 (0 < _)), andb_false_r by (by apply Qcle_not_lt).
  by rewrite round_0_4, round_0_6.
Qed.

(** C1 holds for every day of OffRelease.py's log. *)
Lemma OffRelease_nonpositive_days rates_df bands_df txs e log total r :
  OffRelease.calculate_daily_interest txs e rates_df bands_df = inr (log, total) →
  r ∈ log → balance_on txs (Date r) ≤ 0 →
  Rate r = 0 ∧ Daily_Interest r = 0.
Proof.
  intros Hcalc Hr Hle. rewrite calc_O in Hcalc.
  destruct (Date_min txs) as [start|] eqn:Hstart;
    [|unfold engine in Hcalc; by rewrite Hstart in Hcalc].
  destruct (engine_exact _ _ _ txs start e (row_O_fields rates_df bands_df) Hstart)
    as (log' & total' & Hcalc' & Hrows & _).
  rewrite Hcalc in Hcalc'. injection Hcalc' as <- <-.
  rewrite Forall_forall in Hrows. destruct (Hrows r Hr) as (_ & -> & -> & _).
  unfold Closed.annual_O, Closed.interest_O.
  rewrite (bool_decide_eq_false_2 (0 < _)), andb_false_r by (by apply Qcle_not_lt).
  by rewrite round_0_4, round_0_6.
Qed.

(** C1 fails in HOHOHOHOH.py.  The ledger deposits 1000 on 2023-01-01 and
    withdraws it on 2023-01-02; the band "Low" spans 0 to 2000.  On the
    second day the balance is 0, and the log shows the rate 3.65 of the
    band; OffRelease.py shows 0 there. *)
Theorem zero_balance_day_keeps_rate :
  HOHOHOHOH.calculate_interest_with_steps Ex.rates_low Ex.bands_low
    [(Ex.jan1, dec 1000); (Ex.jan2, dec (-1000))] Ex.jan2 =
  inr ([mkRow Ex.jan1 (dec 1000) "Low" (dec 3.65) (dec 0.1) (dec 0.1);
        mkRow Ex.jan2 0 "Low" (dec 3.65) 0 (dec 0.1)], dec 0.1) ∧
  OffRelease.calculate_daily_interest
    [(Ex.jan1, dec 1000); (Ex.jan2, dec (-1000))] Ex.jan2
    (Some Ex.rates_low) (Some Ex.bands_low) =
  inr ([mkRow Ex.jan1 (dec 1000) "Low" (dec 3.65) (dec 0.1) (dec 0.1);
        mkRow Ex.jan2 0 "Low" 0 0 (dec 0.1)], dec 0.1).
Proof. split; by_compute. Qed.

(** With a range that reaches below zero the same loop accrues negative
    interest on a negative balance. *)
Example negative_balance_accrues :
  HOHOHOHOH.calculate_interest_with_steps
    [mkRate Ex.jan1 "Overdrawn" (dec 3.65)] [mkBand "Overdrawn" (dec (-1000)) 0]
    [(Ex.jan1, dec (-500))] Ex.jan2 =
  inr ([mkRow Ex.jan1 (dec (-500)) "Overdrawn" (dec 3.65) (dec (-0.05)) (dec (-0.05));
        mkRow Ex.jan2 (dec (-500)) "Overdrawn" (dec 3.65) (dec (-0.05)) (dec (-0.1))],
       dec (-0.1)).
Proof. by_compute. Qed.

(** ** C3: the rate lookup *)

Lemma insert_by_date_perm (e : RateEntry) (l : list RateEntry) :
  insert_by_date e l ≡ₚ e :: l.
Proof.
  induction l as [|x l IH]; simpl; [done|].
  destruct (decide _); [done|]. by rewrite IH, Permutation_swap.
Qed.

Lemma sort_values_perm (l : list RateEntry) : sort_values l ≡ₚ l.
Proof.
  induction l as [|x l IH]; simpl; [done|].
  by rewrite insert_by_date_perm, IH.
Qed.

Lemma insert_by_date_sorted (e : RateEntry) (l : list RateEntry) :
  StronglySorted date_le l → StronglySorted date_le (insert_by_date e l).
Proof.
  induction 1 as [|x l Hl IH Hx]; simpl.
  - repeat constructor.
  - destruct (decide _) as [Hle|Hgt].
    + constructor; [by constructor|].
      constructor; [done|].
      eapply Forall_impl; [exact Hx|]. intros y Hy. unfold date_le in *. lia.
    + constructor; [done|].
      rewrite insert_by_date_perm. constructor; [|done]. unfold date_le. lia.
Qed.

Lemma sort_values_sorted (l : list RateEntry) : StronglySorted date_le (sort_values l).
Proof.
  induction l as [|x l IH]; simpl; [constructor|by apply insert_by_date_sorted].
Qed.

(** The last row of a table in date order is effective no earlier than
    any other row. *)
Lemma last_sorted_latest (l : list RateEntry) (e : RateEntry) :
  StronglySorted date_le l → last l = Some e →
  ∀ e', e' ∈ l → (Start_Date e' ≤ Start_Date e)%Z.
Proof.
  induction 1 as [|x l Hl IH Hx]; [done|].
  intros Hlast e' He'.
  destruct l as [|y l'].
  - injection Hlast as <-. apply list_elem_of_singleton in He' as ->. lia.
  - rewrite last_cons_cons in Hlast.
    apply elem_of_cons in He' as [->|He']; [|by apply IH].
    rewrite Forall_forall in Hx. apply Hx. by apply last_Some_elem_of.
Qed.

Lemma sort_values_sorts : sorts_by_date sort_values.
Proof. intros l. split; [apply sort_values_perm|apply sort_values_sorted]. Qed.

Lemma get_interest_rate_with_sort_values (d : Z) (band_name : option string)
    (rates_df : option (list RateEntry)) :
  OffRelease.get_interest_rate d band_name rates_df
  = get_interest_rate_with sort_values d band_name rates_df.
Proof. done. Qed.

(** What [get_interest_rate] returns for a band name that is not empty,
    whatever the sort. *)
Lemma get_interest_rate_with_cases (sort : list RateEntry → list RateEntry)
    (d : Z) (b : string) (rates : list RateEntry) :
  sorts_by_date sort → b ≠ EmptyString →
  (Forall (λ e, ¬ applicable d b e) rates ∧
   get_interest_rate_with sort d (Some b) (Some rates) = 0) ∨
  (∃ e, latest_effective d b rates e ∧
        get_interest_rate_with sort d (Some b) (Some rates) = rate e).
Proof.
  intros Hsort Hb. unfold get_interest_rate_with, truthy.
  assert (String.eqb b EmptyString = false) as -> by by apply String.eqb_neq.
  simpl.
  set (P := λ e, (Start_Date e ≤ d)%Z ∧ Some (rate_band e) = Some b).
  assert (∀ e, P e ↔ applicable d b e) as HP.
  { intros e. unfold P, applicable. split; intros [? ?]; split; congruence. }
  destruct (Hsort (filter P rates)) as [Hperm Hsorted].
  destruct (last (sort (filter P rates))) as [e|] eqn:Hlast.
  - right. exists e. split; [|done].
    assert (e ∈ filter P rates) as He.
    { rewrite <- Hperm. by apply last_Some_elem_of. }
    apply list_elem_of_filter in He as [HPe He].
    split; [done|]. split; [by apply HP|].
    intros e' He' Happ.
    apply (last_sorted_latest _ _ Hsorted Hlast).
    rewrite Hperm. apply list_elem_of_filter. split; [by apply HP|done].
  - left. split; [|done].
    apply last_None in Hlast.
    assert (filter P rates = []) as Hnil.
    { apply Permutation_nil_r. by rewrite <- Hlast, Hperm. }
    apply Forall_forall. intros e He Happ.
    assert (e ∈ filter P rates) as Hin
      by (apply list_elem_of_filter; split; [by apply HP|done]).
    rewrite Hnil in Hin. by apply not_elem_of_nil in Hin.
Qed.

(** C3, as stated, fails for [get_interest_rate].  With two rows of the
    same band and the same effective date the result follows the order of
    the table (a table of two rows is sorted by insertion, which keeps
    that order).  And for the empty band name the result is 0.0 though
    the table holds a row of that name, effective on the day. *)
Lemma rate_lookup_depends_on_order :
  Ex.rates_tie ≡ₚ Ex.rates_tie_rev ∧
  OffRelease.get_interest_rate Ex.jul1 (Some "A"%string) (Some Ex.rates_tie) = dec 2.0 ∧
  OffRelease.get_interest_rate Ex.jul1 (Some "A"%string) (Some Ex.rates_tie_rev) = dec 1.0 ∧
  OffRelease.get_interest_rate Ex.jan1 (Some EmptyString)
    (Some [mkRate Ex.jan1 EmptyString (dec 1.0)]) = 0.
Proof.
  split; [apply Permutation_swap|].
  split; [by_compute|]. split; by_compute.
Qed.

(** C3, amended.  For every date [d], band name [b] that is not empty and
    rate table, and whatever sort [sort_values] is, [get_interest_rate]
    returns 0.0 when no row of band [b] is effective on or before [d], and
    otherwise the rate of a row of band [b], effective on or before [d],
    than which no such row is effective later.  The result is the same for
    every reordering of the table, provided that usable rows with the same
    effective date carry the same rate.  For the empty band name, and for
    no band name, the result is 0.0. *)
Theorem latest_effective_rate (sort : list RateEntry → list RateEntry)
    (d : Z) (b : string) (rates : list RateEntry) :
  sorts_by_date sort →
  b ≠ EmptyString →
  (Forall (λ e, ¬ applicable d b e) rates →
     get_interest_rate_with sort d (Some b) (Some rates) = 0) ∧
  (Exists (applicable d b) rates →
     ∃ e, latest_effective d b rates e ∧
          get_interest_rate_with sort d (Some b) (Some rates) = rate e) ∧
  (∀ rates',
     rates' ≡ₚ rates →
     (∀ e1 e2, e1 ∈ rates → e2 ∈ rates → applicable d b e1 → applicable d b e2 →
               Start_Date e1 = Start_Date e2 → rate e1 = rate e2) →
     get_interest_rate_with sort d (Some b) (Some rates') =
     get_interest_rate_with sort d (Some b) (Some rates)) ∧
  get_interest_rate_with sort d (Some EmptyString) (Some rates) = 0 ∧
  get_interest_rate_with sort d None (Some rates) = 0.
Proof.
  intros Hsort Hb. split; [|split; [|split; [|done]]].
  - intros Hnone.
    destruct (get_interest_rate_with_cases sort d b rates Hsort Hb)
      as [[_ ?]|(e & (He & Happ & _) & _)]; [done|].
    rewrite Forall_forall in Hnone. by destruct (Hnone e He).
  - intros Hsome.
    destruct (get_interest_rate_with_cases sort d b rates Hsort Hb)
      as [[Hnone _]|?]; [|done].
    apply Exists_exists in Hsome as (e & He & Happ).
    rewrite Forall_forall in Hnone. by destruct (Hnone e He).
  - intros rates' Hperm Hties.
    destruct (get_interest_rate_with_cases sort d b rates Hsort Hb)
      as [[Hnone ->]|(e & (He & Happ & Hlatest) & ->)];
      destruct (get_interest_rate_with_cases sort d b rates' Hsort Hb)
      as [[Hnone' ->]|(e' & (He' & Happ' & Hlatest') & ->)].
    + done.
    + rewrite Forall_forall in Hnone. destruct (Hnone e'); [by rewrite <- Hperm|done].
    + rewrite Forall_forall in Hnone'. destruct (Hnone' e); [by rewrite Hperm|done].
    + rewrite Hperm in He'. apply Hties; try done.
      apply Z.le_antisymm.
      * by apply Hlatest.
      * apply Hlatest'; [by rewrite Hperm|done].
Qed.

Lemma latest_effective_rate_witness :
  ∃ e, latest_effective Ex.jul1 "A" Ex.rates_A e ∧
       OffRelease.get_interest_rate Ex.jul1 (Some "A"%string) (Some Ex.rates_A) = rate e.
Proof.
  refine (proj1 (proj2 (latest_effective_rate sort_values Ex.jul1 "A" Ex.rates_A
                          sort_values_sorts _)) _).
  - discriminate.
  - apply Exists_cons_hd. split; [by vm_compute|reflexivity].
Defined.

(** [get_rate_for_date_and_band] does not sort: it returns the rate of
    the usable row that is listed last.  On a table listed latest-first
    that is the oldest rate, against the comment above the line ("Use the
    latest rate before or on the date", HOHOHOHOH.py line 187). *)
Example get_rate_takes_last_listed :
  HOHOHOHOH.get_rate_for_date_and_band Ex.rates_A Ex.jul1 (Some "A"%string) = dec 2.0 ∧
  HOHOHOHOH.get_rate_for_date_and_band Ex.rates_A_rev Ex.jul1 (Some "A"%string) = dec 1.0 ∧
  OffRelease.get_interest_rate Ex.jul1 (Some "A"%string) (Some Ex.rates_A_rev) = dec 2.0.
Proof. repeat split; by_compute. Qed.

(** The rate examples of the specification, for both lookups. *)
Example rate_examples :
  let mar1 := toordinal 2023 3 1 in
  let y2022 := toordinal 2022 1 1 in
  OffRelease.get_interest_rate mar1 (Some "A"%string) (Some Ex.rates_A) = dec 1.0 ∧
  OffRelease.get_interest_rate Ex.jul1 (Some "A"%string) (Some Ex.rates_A) = dec 2.0 ∧
  OffRelease.get_interest_rate y2022 (Some "A"%string) (Some Ex.rates_A) = 0 ∧
  HOHOHOHOH.get_rate_for_date_and_band Ex.rates_A mar1 (Some "A"%string) = dec 1.0 ∧
  HOHOHOHOH.get_rate_for_date_and_band Ex.rates_A Ex.jul1 (Some "A"%string) = dec 2.0 ∧
  HOHOHOHOH.get_rate_for_date_and_band Ex.rates_A y2022 (Some "A"%string) = 0.
Proof. repeat split; by_compute. Qed.

(** ** C9: the copies against each other *)

Lemma band_O_negative (bands_df : option (list BandRange)) (b : Qc) :
  b < 0 → OffRelease.get_band_for_balance b bands_df = None.
Proof.
  intros Hneg. destruct bands_df as [bands|]; [|done].
  unfold OffRelease.get_band_for_balance. by rewrite bool_decide_eq_true_2.
Qed.

Lemma band_O_nonnegative (bands : list BandRange) (b : Qc) :
  0 ≤ b →
  OffRelease.get_band_for_balance b (Some bands) = HOHOHOHOH.get_band_name bands b.
Proof.
  intros Hpos. unfold OffRelease.get_band_for_balance, HOHOHOHOH.get_band_name.
  by rewrite not_negative.
Qed.








(** * Further properties of the code *)

(** ** Rows of different dates may be interleaved *)

Lemma day_changes_nil (txs : list Transaction) (k : Z) :
  day_changes txs k = [] ↔ k ∉ txs.*1.
Proof.
  split; [|apply day_changes_absent].
  induction txs as [|[d x] ts IH]; [intros _; apply not_elem_of_nil|].
  rewrite day_changes_cons, fmap_cons, not_elem_of_cons. cbn [fst].
  destruct (decide (d = k)) as [->|Hne]; [done|]. intros H. split; [done|by apply IH].
Qed.

(** The loops read the ledger through its first date and its netted map,
    and both depend only on what the ledger lists for each date. *)
Lemma same_days_inputs (txs txs' : list Transaction) :
  (∀ d, day_changes txs d = day_changes txs' d) →
  Date_min txs = Date_min txs' ∧ groupby_sum txs = groupby_sum txs'.
Proof.
  intros H.
  assert (∀ k, k ∈ txs.*1 ↔ k ∈ txs'.*1) as Hdates.
  { intros k. destruct (decide (k ∈ txs.*1)) as [Hin|Hin];
      destruct (decide (k ∈ txs'.*1)) as [Hin'|Hin']; try done.
    - apply day_changes_nil in Hin'. rewrite <- H in Hin'.
      by apply day_changes_nil in Hin'.
    - apply day_changes_nil in Hin. rewrite H in Hin. by apply day_changes_nil in Hin. }
  split.
  - exact (generic_Date_min_ext txs txs' Hdates).
  - apply map_eq. intros k. rewrite !groupby_sum_lookup, H.
    destruct (decide (k ∈ txs.*1)) as [Hin|Hin].
    + rewrite decide_True; [done|]. by apply Hdates.
    + rewrite decide_False; [done|]. by rewrite <- Hdates.
Qed.

(** X1.  Rows of different dates may stand in any order: two ledgers that
    list, for every date, the same changes in the same order give the same
    result in every script. *)
Theorem ledger_interleaving (txs txs' : list Transaction) (e : Z) :
  (∀ d, day_changes txs d = day_changes txs' d) →
  (∀ rates bands,
     HOHOHOHOH.calculate_interest_with_steps rates bands txs e =
     HOHOHOHOH.calculate_interest_with_steps rates bands txs' e) ∧
  (∀ rates bands,
     HOHOHOHOH2.calculate_interest_with_steps rates bands txs e =
     HOHOHOHOH2.calculate_interest_with_steps rates bands txs' e) ∧
  (∀ rates bands,
     App234.calculate_interest_with_steps rates bands txs e =
     App234.calculate_interest_with_steps rates bands txs' e) ∧
  (∀ rates bands,
     OffRelease1.calculate_interest_with_steps rates bands txs e =
     OffRelease1.calculate_interest_with_steps rates bands txs' e) ∧
  (∀ rates_df bands_df,
     OffRelease.calculate_daily_interest txs e rates_df bands_df =
     OffRelease.calculate_daily_interest txs' e rates_df bands_df) ∧
  (∀ rates_df bands_df,
     AHHHAHAHA.calculate_daily_interest txs e rates_df bands_df =
     AHHHAHAHA.calculate_daily_interest txs' e rates_df bands_df).
Proof.
  intros H. destruct (same_days_inputs txs txs' H) as [Hmin Hnet].
  repeat split; intros.
  - unfold HOHOHOHOH.calculate_interest_with_steps. by rewrite Hmin, Hnet.
  - unfold HOHOHOHOH2.calculate_interest_with_steps. by rewrite Hmin, Hnet.
  - unfold App234.calculate_interest_with_steps. by rewrite Hmin, Hnet.
  - unfold OffRelease1.calculate_interest_with_steps. by rewrite Hmin, Hnet.
  - unfold OffRelease.calculate_daily_interest. by rewrite Hmin, Hnet.
  - unfold AHHHAHAHA.calculate_daily_interest. by rewrite Hmin, Hnet.
Qed.

Lemma ledger_interleaving_witness :
  OffRelease.calculate_daily_interest
    [(Ex.jan2, dec (-250)); (Ex.jan1, dec 1000); (Ex.jan2, dec 50)] Ex.jan3
    (Some Ex.rates_low) (Some Ex.bands_low) =
  OffRelease.calculate_daily_interest
    [(Ex.jan1, dec 1000); (Ex.jan2, dec (-250)); (Ex.jan2, dec 50)] Ex.jan3
    (Some Ex.rates_low) (Some Ex.bands_low).
Proof.
  refine (proj1 (proj2 (proj2 (proj2 (proj2 (ledger_interleaving
    [(Ex.jan2, dec (-250)); (Ex.jan1, dec 1000); (Ex.jan2, dec 50)]
    [(Ex.jan1, dec 1000); (Ex.jan2, dec (-250)); (Ex.jan2, dec 50)] Ex.jan3 _))))) _ _).
  intros d. rewrite !day_changes_cons.
  destruct (decide (Ex.jan2 = d)) as [<-|]; [|done].
  by rewrite decide_False by by vm_compute.
Defined.

(** ** Transactions after the end date *)

Lemma foldl_ext_in {A B} (f g : A → B → A) (a : A) (l : list B) :
  (∀ a b, b ∈ l → f a b = g a b) → foldl f a l = foldl g a l.
Proof.
  revert a. induction l as [|x l IH]; intros a E; simpl; [done|].
  rewrite E by left. apply IH. intros a' b Hb. apply E. by right.
Qed.

Lemma day_changes_app (txs extra : list Transaction) (k : Z) :
  day_changes (txs ++ extra) k = day_changes txs k ++ day_changes extra k.
Proof. unfold day_changes. by rewrite filter_app, fmap_app. Qed.

Lemma groupby_sum_lookup_later (txs extra : list Transaction) (e k : Z) :
  Forall (λ t, (e < t.1)%Z) extra → (k ≤ e)%Z →
  groupby_sum (txs ++ extra) !! k = groupby_sum txs !! k.
Proof.
  intros Hextra Hk.
  assert (k ∉ extra.*1) as Hnot.
  { intros (t & -> & Ht)%list_elem_of_fmap.
    rewrite Forall_forall in Hextra. specialize (Hextra t Ht). lia. }
  rewrite !groupby_sum_lookup, day_changes_app, (day_changes_absent extra k Hnot).
  rewrite app_nil_r, fmap_app.
  destruct (decide (k ∈ txs.*1)) as [Hin|Hin].
  - rewrite decide_True; [done|]. apply elem_of_app. by left.
  - rewrite decide_False; [done|]. rewrite elem_of_app. tauto.
Qed.

(** Rows dated after the end date change neither the days of the loop nor
    what the loop finds for any of them. *)
Lemma inputs_ignore_later (txs extra : list Transaction) (e : Z) :
  txs ≠ [] → Forall (λ t, (e < t.1)%Z) extra →
  ∃ start start',
    Date_min txs = Some start ∧ Date_min (txs ++ extra) = Some start' ∧
    date_range start' e = date_range start e ∧
    ∀ k, k ∈ date_range start e →
         groupby_sum (txs ++ extra) !! k = groupby_sum txs !! k.
Proof.
  intros Hne Hextra.
  destruct (Date_min_is_Some txs Hne) as [start Hstart].
  destruct (Date_min_is_Some (txs ++ extra)) as [start' Hstart'].
  { destruct txs; [done|]. done. }
  exists start, start'. split; [done|]. split; [done|].
  destruct (Date_min_spec _ _ Hstart) as [Hin Hle].
  destruct (Date_min_spec _ _ Hstart') as [Hin' Hle'].
  rewrite Forall_forall in Hextra.
  split.
  - destruct (decide (e < start)%Z) as [Hlt|Hge].
    + rewrite (date_range_before start) by done.
      apply date_range_before.
      rewrite fmap_app in Hin'. apply elem_of_app in Hin' as [Hin'|Hin'].
      * specialize (Hle _ Hin'). lia.
      * apply list_elem_of_fmap in Hin' as (t & -> & Ht). by apply Hextra.
    + f_equal. apply Z.le_antisymm.
      * apply Hle'. rewrite fmap_app. apply elem_of_app. by left.
      * rewrite fmap_app in Hin'. apply elem_of_app in Hin' as [Hin'|Hin'].
        -- by apply Hle.
        -- apply list_elem_of_fmap in Hin' as (t & -> & Ht).
           specialize (Hextra t Ht). lia.
  - intros k Hk%elem_of_date_range.
    apply (groupby_sum_lookup_later _ _ e); [by apply Forall_forall|lia].
Qed.

(** X2.  Transactions dated after the end date are ignored: adding any number
    of them to a ledger that is not empty changes nothing in what a script
    returns. *)
Theorem later_transactions_ignored (txs extra : list Transaction) (e : Z) :
  txs ≠ [] →
  Forall (λ t, (e < t.1)%Z) extra →
  (∀ rates bands,
     HOHOHOHOH.calculate_interest_with_steps rates bands (txs ++ extra) e =
     HOHOHOHOH.calculate_interest_with_steps rates bands txs e) ∧
  (∀ rates bands,
     App234.calculate_interest_with_steps rates bands (txs ++ extra) e =
     App234.calculate_interest_with_steps rates bands txs e) ∧
  (∀ rates_df bands_df,
     OffRelease.calculate_daily_interest (txs ++ extra) e rates_df bands_df =
     OffRelease.calculate_daily_interest txs e rates_df bands_df) ∧
  (∀ rates_df bands_df,
     AHHHAHAHA.calculate_daily_interest (txs ++ extra) e rates_df bands_df =
     AHHHAHAHA.calculate_daily_interest txs e rates_df bands_df).
Proof.
  intros Hne Hextra.
  destruct (inputs_ignore_later txs extra e Hne Hextra)
    as (start & start' & Hstart & Hstart' & Hrange & Hnet).
  repeat split; intros.
  - unfold HOHOHOHOH.calculate_interest_with_steps.
    rewrite Hstart, Hstart', Hrange. cbv zeta.
    rewrite (foldl_ext_in _ (HOHOHOHOH.step rates bands (groupby_sum txs))); [done|].
    intros st k Hk. unfold HOHOHOHOH.step. by rewrite Hnet.
  - unfold App234.calculate_interest_with_steps.
    rewrite Hstart, Hstart', Hrange. cbv zeta.
    rewrite (foldl_ext_in _ (App234.step rates bands (groupby_sum txs))); [done|].
    intros st k Hk. unfold App234.step. by rewrite Hnet.
  - unfold OffRelease.calculate_daily_interest.
    rewrite Hstart, Hstart', Hrange. cbv zeta.
    rewrite (foldl_ext_in _ (OffRelease.step rates_df bands_df (groupby_sum txs)));
      [done|].
    intros st k Hk. unfold OffRelease.step. by rewrite Hnet.
  - unfold AHHHAHAHA.calculate_daily_interest.
    rewrite Hstart, Hstart', Hrange. cbv zeta.
    rewrite (foldl_ext_in _ (AHHHAHAHA.step rates_df bands_df (groupby_sum txs)));
      [done|].
    intros st k Hk. unfold AHHHAHAHA.step. by rewrite Hnet.
Qed.

Lemma later_transactions_ignored_witness :
  OffRelease.calculate_daily_interest
    ([(Ex.jan1, dec 1000)] ++ [(Ex.jan3, dec 500); (Ex.jun1, dec (-2000))]) Ex.jan2
    (Some Ex.rates_low) (Some Ex.bands_low) =
  OffRelease.calculate_daily_interest [(Ex.jan1, dec 1000)] Ex.jan2
    (Some Ex.rates_low) (Some Ex.bands_low).
Proof.
  refine (proj1 (proj2 (proj2 (later_transactions_ignored [(Ex.jan1, dec 1000)]
    [(Ex.jan3, dec 500); (Ex.jun1, dec (-2000))] Ex.jan2 _ _))) _ _).
  - done.
  - repeat constructor; by vm_compute.
Defined.

(** ** The other scripts of HOHOHOHOH.py and OffRelease.py *)

Lemma step_O1 rates bands net st d :
  OffRelease1.step rates bands net st d =
  accrue_step net (Closed.interest_H rates bands) (Closed.row_H rates bands) st d.
Proof.
  unfold OffRelease1.step, accrue_step, Closed.row_H, Closed.interest_H, Closed.rate_H.
  rewrite add_change.
  change (OffRelease1.get_band_name bands) with (HOHOHOHOH.get_band_name bands).
  change (OffRelease1.get_rate_for_date_and_band rates)
    with (HOHOHOHOH.get_rate_for_date_and_band rates).
  by destruct (truthy _).
Qed.

(** X9.  The first script of OffRelease.py, which adds the interest of the day
    after its test instead of inside it, returns exactly what the first
    script of HOHOHOHOH.py returns. *)
Theorem OffRelease1_is_HOHOHOHOH rates bands (txs : list Transaction) (e : Z) :
  OffRelease1.calculate_interest_with_steps rates bands txs e =
  HOHOHOHOH.calculate_interest_with_steps rates bands txs e.
Proof.
  rewrite calc_H. unfold OffRelease1.calculate_interest_with_steps, engine.
  destruct (Date_min txs) as [start|]; [|done]. cbv zeta.
  rewrite (foldl_ext_step _ _ _ _ (step_O1 rates bands (groupby_sum txs))).
  by rewrite run_closed.
Qed.

Lemma get_band_name_in (bands : list BandRange) (b : Qc) (s : string) :
  HOHOHOHOH.get_band_name bands b = Some s → ∃ r, r ∈ bands ∧ band r = s.
Proof.
  unfold HOHOHOHOH.get_band_name.
  destruct (filter _ bands) as [|r l] eqn:E; [done|]. intros [= <-].
  exists r. split; [|done].
  assert (r ∈ filter (λ r, Minimum r ≤ b ∧ b ≤ Maximum r) bands) as Hr
    by (rewrite E; left).
  by apply list_elem_of_filter in Hr as [_ Hr].
Qed.

Lemma step_H2 rates bands net st d :
  Forall (λ r, band r ≠ EmptyString) bands →
  HOHOHOHOH2.step rates bands net st d = HOHOHOHOH.step rates bands net st d.
Proof.
  intros Hnames. unfold HOHOHOHOH2.step, HOHOHOHOH.step.
  change (HOHOHOHOH2.get_band_name bands) with (HOHOHOHOH.get_band_name bands).
  change (HOHOHOHOH2.get_rate_for_date_and_band rates)
    with (HOHOHOHOH.get_rate_for_date_and_band rates).
  generalize (match net !! d with
              | Some change => st_balance st + change
              | None => st_balance st
              end).
  intros b.
  destruct (HOHOHOHOH.get_band_name bands b) as [s|] eqn:E; [|done].
  destruct (get_band_name_in _ _ _ E) as (r & Hr & <-).
  rewrite Forall_forall in Hnames. specialize (Hnames r Hr).
  unfold truthy. apply String.eqb_neq in Hnames. by rewrite Hnames.
Qed.

(** X10.  The second script of HOHOHOHOH.py tests [band is None] where the
    first tests [not band].  When no band of the table has the empty name
    the two return the same. *)
Theorem HOHOHOHOH2_is_HOHOHOHOH rates bands (txs : list Transaction) (e : Z) :
  Forall (λ r, band r ≠ EmptyString) bands →
  HOHOHOHOH2.calculate_interest_with_steps rates bands txs e =
  HOHOHOHOH.calculate_interest_with_steps rates bands txs e.
Proof.
  intros Hnames.
  unfold HOHOHOHOH2.calculate_interest_with_steps,
    HOHOHOHOH.calculate_interest_with_steps.
  destruct (Date_min txs) as [start|]; [|done]. cbv zeta.
  by rewrite (foldl_ext_step _ _ _ _
                (λ st d, step_H2 rates bands (groupby_sum txs) st d Hnames)).
Qed.

Lemma HOHOHOHOH2_is_HOHOHOHOH_witness :
  HOHOHOHOH2.calculate_interest_with_steps Ex.rates_low Ex.bands_low
    [(Ex.jan1, dec 1000); (Ex.jan2, dec (-1250))] Ex.jan3 =
  HOHOHOHOH.calculate_interest_with_steps Ex.rates_low Ex.bands_low
    [(Ex.jan1, dec 1000); (Ex.jan2, dec (-1250))] Ex.jan3.
Proof.
  apply (HOHOHOHOH2_is_HOHOHOHOH Ex.rates_low Ex.bands_low).
  repeat constructor. discriminate.
Defined.

(** With a band of the empty name the two scripts part: the second
    accrues on it, the first does not. *)
Example empty_band_name_parts_the_scripts :
  HOHOHOHOH2.calculate_interest_with_steps
    [mkRate Ex.jan1 EmptyString (dec 3.65)] [mkBand EmptyString 0 (dec 2000)]
    [(Ex.jan1, dec 1000)] Ex.jan1 =
  inr ([mkRow Ex.jan1 (dec 1000) "N/A" (dec 3.65) (dec 0.1) (dec 0.1)], dec 0.1) ∧
  HOHOHOHOH.calculate_interest_with_steps
    [mkRate Ex.jan1 EmptyString (dec 3.65)] [mkBand EmptyString 0 (dec 2000)]
    [(Ex.jan1, dec 1000)] Ex.jan1 =
  inr ([mkRow Ex.jan1 (dec 1000) "N/A" 0 0 0], 0).
Proof. split; by_compute. Qed.

(** ** A later end date *)

Lemma date_range_split (start e e' : Z) :
  (e ≤ e')%Z → ∃ rest, date_range start e' = date_range start e ++ rest.
Proof.
  intros Hle. destruct (decide (e < start)%Z) as [Hlt|Hge].
  - exists (date_range start e'). by rewrite (date_range_before start e).
  - exists (seqZ (start + (e - start + 1)) (e' - e)). unfold date_range.
    rewrite <- seqZ_app by lia. f_equal. lia.
Qed.

Lemma engine_prefix interest row (txs : list Transaction) (e e' : Z) log total :
  (e ≤ e')%Z →
  engine interest row txs e = inr (log, total) →
  ∃ rest total', engine interest row txs e' = inr (log ++ rest, total').
Proof.
  intros Hle. unfold engine. destruct (Date_min txs) as [start|]; [|done].
  intros [= <- <-].
  destruct (date_range_split start e e' Hle) as [rest ->].
  rewrite fmap_app. by eexists _, _.
Qed.

(** X3.  Moving the end date later only appends rows to the log: the rows of
    the days up to the earlier end date stay as they were. *)
Theorem later_end_date_appends (txs : list Transaction) (e e' : Z) :
  (e ≤ e')%Z →
  (∀ rates bands log total,
     HOHOHOHOH.calculate_interest_with_steps rates bands txs e = inr (log, total) →
     ∃ rest total',
       HOHOHOHOH.calculate_interest_with_steps rates bands txs e'
         = inr (log ++ rest, total')) ∧
  (∀ rates bands log total,
     App234.calculate_interest_with_steps rates bands txs e = inr (log, total) →
     ∃ rest total',
       App234.calculate_interest_with_steps rates bands txs e'
         = inr (log ++ rest, total')) ∧
  (∀ rates_df bands_df log total,
     OffRelease.calculate_daily_interest txs e rates_df bands_df = inr (log, total) →
     ∃ rest total',
       OffRelease.calculate_daily_interest txs e' rates_df bands_df
         = inr (log ++ rest, total')).
Proof.
  intros Hle. repeat split.
  - intros rates bands log total. rewrite !calc_H. by apply engine_prefix.
  - intros rates bands log total. rewrite !calc_A. by apply engine_prefix.
  - intros rates_df bands_df log total. rewrite !calc_O. by apply engine_prefix.
Qed.

Lemma later_end_date_appends_witness :
  ∃ rest total',
    OffRelease.calculate_daily_interest [(Ex.jan1, dec 1000)] Ex.jun1
      (Some Ex.rates_low) (Some Ex.bands_low) = inr (Ex.example_log ++ rest, total').
Proof.
  refine (proj2 (proj2 (later_end_date_appends [(Ex.jan1, dec 1000)] Ex.jan3 Ex.jun1 _))
            (Some Ex.rates_low) (Some Ex.bands_low) Ex.example_log (dec 0.3) _).
  - by vm_compute.
  - by_compute.
Defined.

(** ** The figures beside the log *)

Lemma engine_last interest row (txs : list Transaction) (start e : Z) log total :
  Date_min txs = Some start → (start ≤ e)%Z →
  engine interest row txs e = inr (log, total) →
  last log = Some (row e (netted (groupby_sum txs) start e)
                         (accrued (groupby_sum txs) interest start e)).
Proof.
  intros Hmin Hle. unfold engine. rewrite Hmin. intros [= <- <-].
  rewrite (date_range_snoc start e) by done.
  rewrite fmap_app. cbn [fmap list_fmap]. by rewrite last_snoc.
Qed.

Lemma engine_length interest row (txs : list Transaction) (start e : Z) log total :
  Date_min txs = Some start →
  engine interest row txs e = inr (log, total) →
  length log = Z.to_nat (e - start + 1).
Proof.
  intros Hmin. unfold engine. rewrite Hmin. intros [= <- <-].
  by rewrite length_fmap, length_date_range.
Qed.

(** X11.  The "Final Balance" that [main] shows is the balance of the row
    of the end date, the last row of the log, and "Days Calculated" is the
    number of days from the first transaction to the end date, both
    included. *)
Theorem final_figures (txs : list Transaction) (start e : Z)
    (rates_df : option (list RateEntry)) (bands_df : option (list BandRange))
    (log : list LogRow) (total : Qc) :
  Date_min txs = Some start →
  (start ≤ e)%Z →
  OffRelease.calculate_daily_interest txs e rates_df bands_df = inr (log, total) →
  (∃ r, last log = Some r ∧ Date r = e ∧ final_balance log = Balance r) ∧
  days_calculated log = Z.to_nat (e - start + 1).
Proof.
  intros Hmin Hle Hcalc. rewrite calc_O in Hcalc. split.
  - eexists. split; [by apply (engine_last _ _ _ _ _ _ _ Hmin Hle Hcalc)|].
    split; [done|]. unfold final_balance.
    by rewrite (engine_last _ _ _ _ _ _ _ Hmin Hle Hcalc).
  - by apply (engine_length _ _ _ _ _ _ _ Hmin Hcalc).
Qed.

Lemma final_figures_witness :
  (∃ r, last Ex.example_log = Some r ∧ Date r = Ex.jan3 ∧
        final_balance Ex.example_log = Balance r) ∧
  days_calculated Ex.example_log = Z.to_nat (Ex.jan3 - Ex.jan1 + 1).
Proof.
  apply (final_figures [(Ex.jan1, dec 1000)] Ex.jan1 Ex.jan3
           (Some Ex.rates_low) (Some Ex.bands_low) Ex.example_log (dec 0.3)).
  - reflexivity.
  - by vm_compute.
  - by_compute.
Defined.

(** X4.  When the end date is before the first transaction the log is empty,
    the final balance shown is 0 and the total is 0. *)
Theorem end_before_first_transaction (txs : list Transaction) (start e : Z)
    (rates_df : option (list RateEntry)) (bands_df : option (list BandRange)) :
  Date_min txs = Some start →
  (e < start)%Z →
  OffRelease.calculate_daily_interest txs e rates_df bands_df = inr ([], 0) ∧
  AHHHAHAHA.calculate_daily_interest txs e rates_df bands_df
    = inr ([], 0, mkStats 0 0 0 0 0) ∧
  (∀ rates bands,
     HOHOHOHOH.calculate_interest_with_steps rates bands txs e = inr ([], 0)) ∧
  final_balance [] = 0.
Proof.
  intros Hmin Hlt.
  assert (round 0 2 = 0) as Hround by by_compute.
  repeat split.
  - unfold OffRelease.calculate_daily_interest.
    rewrite Hmin. cbv zeta. rewrite date_range_before by done. simpl.
    by rewrite Hround.
  - unfold AHHHAHAHA.calculate_daily_interest.
    rewrite Hmin. cbv zeta. rewrite date_range_before by done. simpl.
    by rewrite Hround.
  - intros. unfold HOHOHOHOH.calculate_interest_with_steps.
    rewrite Hmin. cbv zeta. rewrite date_range_before by done. simpl.
    by rewrite Hround.
Qed.

Lemma end_before_first_transaction_witness :
  OffRelease.calculate_daily_interest [(Ex.jan2, dec 1000)] Ex.jan1
    (Some Ex.rates_low) (Some Ex.bands_low) = inr ([], 0).
Proof.
  refine (proj1 (end_before_first_transaction [(Ex.jan2, dec 1000)] Ex.jan2 Ex.jan1
                   (Some Ex.rates_low) (Some Ex.bands_low) _ _)).
  - reflexivity.
  - by vm_compute.
Defined.

(** ** The statistics of AHHHAHAHA.py *)

Lemma step_AH_parts rates_df bands_df net st d :
  AHHHAHAHA.step rates_df bands_df net st d =
  let b := st_balance (AHHHAHAHA.st_core st) + default 0 (net !! d) in
  AHHHAHAHA.mkStatsState
    (OffRelease.step rates_df bands_df net (AHHHAHAHA.st_core st) d)
    (AHHHAHAHA.st_balances st ++ [b])
    (if truthy (OffRelease.get_band_for_balance b bands_df) && bool_decide (0 < b)
     then S (AHHHAHAHA.st_days_earning st) else AHHHAHAHA.st_days_earning st).
Proof.
  unfold AHHHAHAHA.step, OffRelease.step.
  unfold AHHHAHAHA.get_band_for_balance, AHHHAHAHA.get_interest_rate.
  rewrite add_change. cbv zeta.
  by destruct (truthy _ && _).
Qed.

Lemma run_O_balance rates_df bands_df net start e :
  st_balance (foldl (OffRelease.step rates_df bands_df net) initial_state
                    (date_range start e)) = netted net start e.
Proof.
  rewrite (foldl_ext_step _ _ _ _ (step_O rates_df bands_df net)).
  by rewrite run_closed.
Qed.

(** After the loop [balances] holds the unrounded balance of every day and
    the counter holds the number of earning days. *)
Lemma run_AH_closed rates_df bands_df net start e :
  foldl (AHHHAHAHA.step rates_df bands_df net)
        (AHHHAHAHA.mkStatsState initial_state [] 0) (date_range start e) =
  AHHHAHAHA.mkStatsState
    (foldl (OffRelease.step rates_df bands_df net) initial_state (date_range start e))
    (netted net start <$> date_range start e)
    (length (filter (λ k, earning_day bands_df (netted net start k))
                    (date_range start e))).
Proof.
  revert e. apply (date_range_ind start).
  - intros e He. by rewrite date_range_before.
  - intros e He IH.
    rewrite (date_range_snoc start e) by done.
    rewrite !foldl_snoc, IH, step_AH_parts. cbn [AHHHAHAHA.st_core
      AHHHAHAHA.st_balances AHHHAHAHA.st_days_earning]. cbv zeta.
    rewrite run_O_balance, <- netted_snoc by done.
    f_equal.
    + by rewrite fmap_app.
    + rewrite filter_app, length_app, filter_cons, filter_nil.
      destruct (decide (earning_day bands_df (netted net start e))) as [H|H];
        unfold earning_day in H.
      * rewrite H. simpl. lia.
      * apply not_true_is_false in H. rewrite H. simpl. lia.
Qed.

Lemma filter_length_le {A} (P Q : A → Prop) `{!∀ x, Decision (P x)}
    `{!∀ x, Decision (Q x)} (l : list A) :
  (∀ x, P x → Q x) → (length (filter P l) ≤ length (filter Q l))%nat.
Proof.
  intros HPQ. induction l as [|x l IH]; [done|].
  rewrite !filter_cons.
  destruct (decide (P x)) as [HP|HP].
  - rewrite decide_True by by apply HPQ. simpl. lia.
  - destruct (decide (Q x)); simpl; lia.
Qed.

Lemma filter_fmap_length {A B} (f : A → B) (P : B → Prop)
    `{!∀ x, Decision (P x)} (l : list A) :
  length (filter P (f <$> l)) = length (filter (λ x, P (f x)) l).
Proof.
  induction l as [|x l IH]; [done|].
  rewrite fmap_cons, !filter_cons.
  destruct (decide (P (f x))); simpl; by rewrite IH.
Qed.

Lemma calc_AH_closed rates_df bands_df (txs : list Transaction) (start e : Z)
    log total stats :
  Date_min txs = Some start →
  AHHHAHAHA.calculate_daily_interest txs e rates_df bands_df = inr (log, total, stats) →
  let balances := netted (groupby_sum txs) start <$> date_range start e in
  OffRelease.calculate_daily_interest txs e rates_df bands_df = inr (log, total) ∧
  total_days stats = length (date_range start e) ∧
  days_earning_interest stats =
    length (filter (λ k, earning_day bands_df (netted (groupby_sum txs) start k))
                   (date_range start e)) ∧
  match balances with
  | [] => max_balance stats = 0 ∧ min_balance stats = 0 ∧ avg_balance stats = 0
  | b :: bs =>
      max_balance stats = foldl Qc_max b bs ∧
      min_balance stats = foldl Qc_min b bs ∧
      avg_balance stats = sum_Qc balances / Qc_of_Z (Z.of_nat (length balances))
  end.
Proof.
  intros Hmin Hcalc. cbv zeta.
  split.
  { rewrite <- calc_AH, Hcalc. done. }
  revert Hcalc. unfold AHHHAHAHA.calculate_daily_interest.
  rewrite Hmin. cbv zeta. rewrite run_AH_closed.
  cbn [AHHHAHAHA.st_core AHHHAHAHA.st_balances AHHHAHAHA.st_days_earning].
  destruct (netted (groupby_sum txs) start <$> date_range start e) as [|b bs];
    intros [= <- <- <-]; done.
Qed.

(** X12.  The statistics count days as the log does: [total_days] is the number
    of rows of the log.  [days_earning_interest] counts the days whose
    balance has a band and is above zero; it never exceeds [total_days],
    and every day with a daily interest other than 0 is among them (a day
    can count as earning and show an interest of 0, when no rate is
    effective yet). *)
Theorem stats_day_counts rates_df bands_df (txs : list Transaction) (e : Z)
    log total stats :
  AHHHAHAHA.calculate_daily_interest txs e rates_df bands_df = inr (log, total, stats) →
  total_days stats = length log ∧
  (days_earning_interest stats ≤ total_days stats)%nat ∧
  (length (filter (λ r, Daily_Interest r ≠ 0%Qc) log) ≤ days_earning_interest stats)%nat.
Proof.
  intros Hcalc.
  destruct (Date_min txs) as [start|] eqn:Hmin;
    [|unfold AHHHAHAHA.calculate_daily_interest in Hcalc; by rewrite Hmin in Hcalc].
  destruct (calc_AH_closed _ _ _ _ _ _ _ _ Hmin Hcalc) as (HO & -> & -> & _).
  rewrite calc_O in HO. unfold engine in HO. rewrite Hmin in HO.
  injection HO as <- _.
  split; [by rewrite length_fmap|]. split; [apply length_filter|].
  rewrite filter_fmap_length. apply filter_length_le.
  intros k Hk. unfold earning_day.
  destruct (truthy _ && _) eqn:E; [done|].
  exfalso. apply Hk. simpl. unfold Closed.interest_O. rewrite E. apply round_0_6.
Qed.

Lemma stats_day_counts_witness :
  total_days (mkStats (dec 1000) (dec 1000) (dec 1000) 3 3) = length Ex.example_log ∧
  (days_earning_interest (mkStats (dec 1000) (dec 1000) (dec 1000) 3 3)
   ≤ total_days (mkStats (dec 1000) (dec 1000) (dec 1000) 3 3))%nat ∧
  (length (filter (λ r, Daily_Interest r ≠ 0%Qc) Ex.example_log)
   ≤ days_earning_interest (mkStats (dec 1000) (dec 1000) (dec 1000) 3 3))%nat.
Proof.
  apply (stats_day_counts (Some Ex.rates_low) (Some Ex.bands_low)
           [(Ex.jan1, dec 1000)] Ex.jan3 Ex.example_log (dec 0.3)).
  by_compute.
Defined.

(** A day before any rate is effective: it counts as earning, and its
    interest is 0. *)
Example earning_day_without_interest :
  AHHHAHAHA.calculate_daily_interest [(Ex.jan1, dec 1000)] Ex.jan1
    (Some [mkRate Ex.jun1 "Low" (dec 3.65)]) (Some Ex.bands_low) =
  inr ([mkRow Ex.jan1 (dec 1000) "Low" 0 0 0], 0,
       mkStats (dec 1000) (dec 1000) (dec 1000) 1 1).
Proof. by_compute. Qed.

Lemma Qc_max_ge (x y : Qc) : x ≤ Qc_max x y ∧ y ≤ Qc_max x y.
Proof.
  unfold Qc_max. destruct (bool_decide (x ≤ y)) eqn:E.
  - apply bool_decide_eq_true_1 in E. split; [done|apply Qcle_refl].
  - apply bool_decide_eq_false_1 in E. split; [apply Qcle_refl|].
    apply Qclt_le_weak. by apply Qcnot_le_lt.
Qed.

Lemma Qc_min_le (x y : Qc) : Qc_min x y ≤ x ∧ Qc_min x y ≤ y.
Proof.
  unfold Qc_min. destruct (bool_decide (y < x)) eqn:E.
  - apply bool_decide_eq_true_1 in E. split; [by apply Qclt_le_weak|apply Qcle_refl].
  - apply bool_decide_eq_false_1 in E. split; [apply Qcle_refl|].
    by apply Qcnot_lt_le.
Qed.

Lemma foldl_Qc_max_spec (b : Qc) (bs : list Qc) :
  foldl Qc_max b bs ∈ b :: bs ∧ ∀ x, x ∈ b :: bs → x ≤ foldl Qc_max b bs.
Proof.
  revert b. induction bs as [|y bs IH]; intros b; simpl.
  - split; [left|]. intros x ->%list_elem_of_singleton. apply Qcle_refl.
  - destruct (IH (Qc_max b y)) as [Hin Hall]. destruct (Qc_max_ge b y) as [Hb Hy].
    split.
    + apply elem_of_cons in Hin as [->|Hin]; [|by do 2 right].
      unfold Qc_max. destruct (bool_decide _); [right; left|left].
    + intros x Hx. apply elem_of_cons in Hx as [->|Hx].
      * apply (Qcle_trans _ (Qc_max b y)); [done|]. apply Hall. left.
      * apply elem_of_cons in Hx as [->|Hx].
        -- apply (Qcle_trans _ (Qc_max b y)); [done|]. apply Hall. left.
        -- apply Hall. by right.
Qed.

Lemma foldl_Qc_min_spec (b : Qc) (bs : list Qc) :
  foldl Qc_min b bs ∈ b :: bs ∧ ∀ x, x ∈ b :: bs → foldl Qc_min b bs ≤ x.
Proof.
  revert b. induction bs as [|y bs IH]; intros b; simpl.
  - split; [left|]. intros x ->%list_elem_of_singleton. apply Qcle_refl.
  - destruct (IH (Qc_min b y)) as [Hin Hall]. destruct (Qc_min_le b y) as [Hb Hy].
    split.
    + apply elem_of_cons in Hin as [->|Hin]; [|by do 2 right].
      unfold Qc_min. destruct (bool_decide _); [right; left|left].
    + intros x Hx. apply elem_of_cons in Hx as [->|Hx].
      * apply (Qcle_trans _ (Qc_min b y)); [|done]. apply Hall. left.
      * apply elem_of_cons in Hx as [->|Hx].
        -- apply (Qcle_trans _ (Qc_min b y)); [|done]. apply Hall. left.
        -- apply Hall. by right.
Qed.

Lemma Qc_of_nat_nonneg (n : nat) : 0 ≤ Qc_of_Z (Z.of_nat n).
Proof.
  pose proof (proj1 (Z2Qc_inj_le 0 (Z.of_nat n)) ltac:(lia)) as H.
  by rewrite Z2Qc_inj_0 in H.
Qed.

Lemma dec_100_pos : 0 < dec 100.
Proof. by vm_compute. Qed.

(** X14.  The "Interest Efficiency" that [main] of AHHHAHAHA.py shows lies
    between 0 and 100 per cent, and is 0 for an empty period. *)
Theorem efficiency_bounds rates_df bands_df (txs : list Transaction) (e : Z)
    log total stats :
  AHHHAHAHA.calculate_daily_interest txs e rates_df bands_df = inr (log, total, stats) →
  0 ≤ efficiency stats ∧ efficiency stats ≤ dec 100 ∧
  (log = [] → efficiency stats = 0).
Proof.
  intros Hcalc.
  destruct (Date_min txs) as [start|] eqn:Hmin;
    [|unfold AHHHAHAHA.calculate_daily_interest in Hcalc; by rewrite Hmin in Hcalc].
  destruct (calc_AH_closed _ _ _ _ _ _ _ _ Hmin Hcalc) as (HO & Hdays & Hearn & _).
  assert (days_earning_interest stats ≤ total_days stats)%nat as Hle.
  { rewrite Hdays, Hearn. apply length_filter. }
  assert (total_days stats = length log) as Hlog.
  { rewrite calc_O in HO. unfold engine in HO. rewrite Hmin in HO.
    injection HO as <- _. by rewrite length_fmap. }
  unfold efficiency. destruct (decide (0 < total_days stats)%nat) as [Hpos|Hzero].
  - assert (0 < Qc_of_Z (Z.of_nat (total_days stats))) as Hm.
    { pose proof (proj1 (Z2Qc_inj_lt 0 (Z.of_nat (total_days stats))) ltac:(lia)) as H.
      by rewrite Z2Qc_inj_0 in H. }
    split; [|split].
    + unfold Qcdiv. rewrite <- (Qcmult_0_l (dec 100)).
      apply Qcmult_le_mono_nonneg_r; [apply Qclt_le_weak, dec_100_pos|].
      rewrite <- (Qcmult_0_l (/ Qc_of_Z (Z.of_nat (total_days stats)))).
      apply Qcmult_le_mono_nonneg_r; [|apply Qc_of_nat_nonneg].
      by apply Qclt_le_weak, Qcinv_pos.
    + rewrite <- (Qcmult_1_l (dec 100)) at 2.
      apply Qcmult_le_mono_nonneg_r; [apply Qclt_le_weak, dec_100_pos|].
      unfold Qcdiv.
      rewrite <- (Qcmult_inv_r (Qc_of_Z (Z.of_nat (total_days stats)))).
      * apply Qcmult_le_mono_nonneg_r; [by apply Qclt_le_weak, Qcinv_pos|].
        apply (proj1 (Z2Qc_inj_le _ _)). lia.
      * intros Heq. rewrite Heq in Hm. by apply Qclt_not_eq in Hm.
    + intros ->. simpl in Hlog. lia.
  - split; [apply Qcle_refl|]. split; [apply Qclt_le_weak, dec_100_pos|done].
Qed.

Lemma efficiency_bounds_witness :
  0 ≤ efficiency (mkStats (dec 1000) (dec 1000) (dec 1000) 3 3) ∧
  efficiency (mkStats (dec 1000) (dec 1000) (dec 1000) 3 3) ≤ dec 100 ∧
  (Ex.example_log = [] →
   efficiency (mkStats (dec 1000) (dec 1000) (dec 1000) 3 3) = 0).
Proof.
  apply (efficiency_bounds (Some Ex.rates_low) (Some Ex.bands_low)
           [(Ex.jan1, dec 1000)] Ex.jan3 Ex.example_log (dec 0.3)).
  by_compute.
Defined.

(** ** Cleaning the amount texts *)

Lemma remove_class_clean (cls : N → bool) (s : text) :
  Forall (λ c, cls c = false) (remove_class cls s).
Proof.
  unfold remove_class. induction s as [|c s IH]; simpl; [constructor|].
  destruct (cls c) eqn:E; simpl; [done|]. by constructor.
Qed.

Lemma remove_class_id (cls : N → bool) (s : text) :
  Forall (λ c, cls c = false) s → remove_class cls s = s.
Proof.
  unfold remove_class. induction 1 as [|c s Hc _ IH]; simpl; [done|].
  by rewrite Hc, IH.
Qed.

Lemma replace_class_id (cls : N → bool) (repl : N) (s : text) :
  Forall (λ c, cls c = false) s → replace_class cls repl s = s.
Proof.
  unfold replace_class. induction 1 as [|c s Hc _ IH]; [done|].
  rewrite fmap_cons, Hc. by f_equal.
Qed.

Lemma replace_paren_clean (s : text) :
  Forall (λ c, money_noise c = false) s →
  Forall (λ c, money_noise c = false ∧ paren c = false) (replace_class paren MINUS s).
Proof.
  unfold replace_class. induction 1 as [|c s Hc _ IH]; [constructor|].
  rewrite fmap_cons. constructor; [|done].
  destruct (paren c) eqn:E; [done|]. done.
Qed.

(** X17.  After the cleaning of [process_ledger_data] the text holds no pound,
    dollar or euro sign, no comma, no white space and no parenthesis;
    cleaning it again changes nothing, and a text that held none of them is
    left as it was. *)
Theorem clean_money_result (s : text) :
  Forall (λ c, money_noise c = false ∧ paren c = false) (clean_money s) ∧
  clean_money (clean_money s) = clean_money s ∧
  (Forall (λ c, money_noise c = false ∧ paren c = false) s → clean_money s = s).
Proof.
  assert (∀ t, Forall (λ c, money_noise c = false ∧ paren c = false) t →
               clean_money t = t) as Hid.
  { intros t Ht. unfold clean_money.
    rewrite remove_class_id by (eapply Forall_impl; [exact Ht|]; by intros c [? ?]).
    apply replace_class_id. eapply Forall_impl; [exact Ht|]. by intros c [? ?]. }
  assert (Forall (λ c, money_noise c = false ∧ paren c = false) (clean_money s)) as Hc.
  { apply replace_paren_clean, remove_class_clean. }
  split; [done|]. split; [by apply Hid|apply Hid].
Qed.

Lemma remove_class_app (cls : N → bool) (s t : text) :
  remove_class cls (s ++ t) = remove_class cls s ++ remove_class cls t.
Proof. unfold remove_class. apply List.filter_app. Qed.

(** X18.  An amount written in parentheses, as accountants write a negative
    one, comes out of the cleaning with a minus sign in front and another
    behind: "(123.45)" becomes "-123.45-". *)
Theorem clean_money_parentheses (s : text) :
  clean_money (LPAREN :: s ++ [RPAREN]) = MINUS :: clean_money s ++ [MINUS].
Proof.
  unfold clean_money.
  change (LPAREN :: s ++ [RPAREN]) with ([LPAREN] ++ s ++ [RPAREN]).
  rewrite !remove_class_app. unfold replace_class. by rewrite !fmap_app.
Qed.

Lemma comma_is_noise (c : N) : money_noise c = false → comma c = false.
Proof.
  unfold money_noise, comma. intros H.
  destruct (c =? COMMA)%N; [|done]. by rewrite orb_true_r in H.
Qed.

(** X19.  The third replacement of AHHHAHAHA.py, which removes commas, finds
    none: its cleaning returns what the cleaning of OffRelease.py returns. *)
Theorem clean_money_enhanced_same (s : text) :
  clean_money_enhanced s = clean_money s.
Proof.
  unfold clean_money_enhanced. fold (clean_money s).
  apply remove_class_id.
  assert (Forall (λ c, money_noise c = false ∧ paren c = false) (clean_money s)) as Hc
    by apply replace_paren_clean, remove_class_clean.
  eapply Forall_impl; [exact Hc|]. intros c [Hn _]. by apply comma_is_noise.
Qed.

Lemma pound_comma_is_noise (c : N) : money_noise c = false → pound_comma c = false.
Proof.
  unfold money_noise, pound_comma. intros H.
  destruct (c =? POUND)%N; [done|]. destruct (c =? COMMA)%N; [done|]. done.
Qed.

(** X20.  The cleaning of the older scripts removes pound signs and commas and
    nothing else, and the cleaning of [process_ledger_data] removes what it
    removes: cleaning with the older one first makes no difference. *)
Theorem clean_pound_comma_result (s : text) :
  Forall (λ c, pound_comma c = false) (clean_pound_comma s) ∧
  (Forall (λ c, pound_comma c = false) s → clean_pound_comma s = s) ∧
  clean_money (clean_pound_comma s) = clean_money s.
Proof.
  split; [apply remove_class_clean|]. split; [apply remove_class_id|].
  unfold clean_money, clean_pound_comma. f_equal.
  unfold remove_class. induction s as [|c s IH]; [done|]. simpl.
  destruct (pound_comma c) eqn:Hpc; simpl.
  - assert (money_noise c = true) as ->; [|done].
    destruct (money_noise c) eqn:Hn; [done|].
    by rewrite (pound_comma_is_noise c Hn) in Hpc.
  - destruct (money_noise c); simpl; by rewrite IH.
Qed.

Lemma clean_pound_comma_result_witness :
  clean_pound_comma [49; 50; 46; 53]%N = [49; 50; 46; 53]%N.
Proof.
  apply (proj1 (proj2 (clean_pound_comma_result [49; 50; 46; 53]%N))).
  repeat constructor.
Defined.

(** The texts "(123.45)", "£1,234.50" and " $10 ". *)
Example clean_money_examples :
  clean_money [40; 49; 50; 51; 46; 52; 53; 41]%N = [45; 49; 50; 51; 46; 52; 53; 45]%N ∧
  clean_money [163; 49; 44; 50; 51; 52; 46; 53; 48]%N = [49; 50; 51; 52; 46; 53; 48]%N ∧
  clean_money [32; 36; 49; 48; 32]%N = [49; 48]%N ∧
  clean_pound_comma [163; 49; 44; 50; 51; 52; 46; 53; 48]%N
    = [49; 50; 51; 52; 46; 53; 48]%N.
Proof. repeat split. Qed.

(** ** Preparing the uploaded ledger *)

Lemma insert_by_Date_perm (t : Transaction) (l : list Transaction) :
  insert_by_Date t l ≡ₚ t :: l.
Proof.
  induction l as [|x l IH]; simpl; [done|].
  destruct (decide _); [done|]. by rewrite IH, Permutation_swap.
Qed.

Lemma sort_by_Date_perm (l : list Transaction) : sort_by_Date l ≡ₚ l.
Proof.
  induction l as [|x l IH]; simpl; [done|].
  by rewrite insert_by_Date_perm, IH.
Qed.

Lemma insert_by_Date_sorted (t : Transaction) (l : list Transaction) :
  StronglySorted (λ a b, (a.1 ≤ b.1)%Z) l →
  StronglySorted (λ a b, (a.1 ≤ b.1)%Z) (insert_by_Date t l).
Proof.
  induction 1 as [|x l Hl IH Hx]; simpl.
  - repeat constructor.
  - destruct (decide _) as [Hle|Hgt].
    + constructor; [by constructor|].
      constructor; [done|].
      eapply Forall_impl; [exact Hx|]. intros y Hy. simpl in *. lia.
    + constructor; [done|].
      rewrite insert_by_Date_perm. constructor; [|done]. lia.
Qed.

Lemma sort_by_Date_sorted (l : list Transaction) :
  StronglySorted (λ a b, (a.1 ≤ b.1)%Z) (sort_by_Date l).
Proof.
  induction l as [|x l IH]; simpl; [constructor|by apply insert_by_Date_sorted].
Qed.

Lemma length_dropna (rows : list (option Z * option Qc)) :
  (length (dropna rows) ≤ length rows)%nat.
Proof.
  unfold dropna. induction rows as [|[[d|] [c|]] rows IH]; [done|..];
    cbn [omap list_omap length];
    first [exact (le_n_S _ _ IH) | exact (le_S _ _ IH)].
Qed.

Lemma process_ledger_rows_unfold (rows : list (option Z * option Qc)) :
  process_ledger_rows rows =
  match dropna rows with
  | [] => (None, NoValidTransactions)
  | _ :: _ =>
      (Some (sort_by_Date (dropna rows)),
       Processed (length (dropna rows))
         (if decide (length (dropna rows) < length rows)%nat
          then Some (length rows - length (dropna rows))%nat else None))
  end.
Proof. unfold process_ledger_rows. by destruct (dropna rows). Qed.

(** X15.  [process_ledger_data] returns no ledger exactly when no row has both a
    date and a change.  Otherwise the ledger it returns is not empty, holds
    the rows that have both and no other, in ascending order of date; the
    message counts them, and counts the rows removed when there are any:
    kept and removed together are the rows of the upload. *)
Theorem process_ledger_rows_result (rows : list (option Z * option Qc)) :
  match process_ledger_rows rows with
  | (None, msg) => msg = NoValidTransactions ∧ dropna rows = []
  | (Some ledger, msg) =>
      ledger ≠ [] ∧
      ledger ≡ₚ dropna rows ∧
      StronglySorted (λ a b, (a.1 ≤ b.1)%Z) ledger ∧
      ∃ removed,
        msg = Processed (length ledger) removed ∧
        removed ≠ Some 0%nat ∧
        (length ledger + default 0%nat removed = length rows)%nat
  end.
Proof.
  rewrite process_ledger_rows_unfold.
  pose proof (length_dropna rows) as Hlen.
  pose proof (sort_by_Date_perm (dropna rows)) as Hperm.
  destruct (dropna rows) as [|t ts] eqn:E; [done|].
  pose proof (Permutation_length Hperm) as Hl.
  split; [|split; [done|split; [apply sort_by_Date_sorted|]]].
  - intros Hnil. rewrite Hnil in Hperm. by apply Permutation_nil_l in Hperm.
  - eexists. split; [by rewrite Hl|]. rewrite Hl.
    destruct (decide (length (t :: ts) < length rows)%nat); simpl in *.
    + split; [|lia]. intros [= ?]. lia.
    + split; [done|lia].
Qed.

(** X16.  [main] of OffRelease.py never meets the [ValueError] of an empty
    ledger: when [process_ledger_data] returns a ledger the calculation
    returns a log.  It shows the error of the upload exactly when no row
    has both a date and a change; otherwise it shows the log and the total
    of the calculation on the valid rows, sorted by date, with the balance
    of the last row and the number of rows beside them. *)
Theorem main_never_raises (rows : list (option Z * option Qc)) (e : Z)
    (rates_df : option (list RateEntry)) (bands_df : option (list BandRange)) :
  (∀ err, main_results rows e rates_df bands_df ≠ inr (inl err)) ∧
  (main_results rows e rates_df bands_df = inl NoValidTransactions ↔
   dropna rows = []) ∧
  (dropna rows ≠ [] →
   ∃ ledger log total,
     ledger ≡ₚ dropna rows ∧
     StronglySorted (λ a b, (a.1 ≤ b.1)%Z) ledger ∧
     OffRelease.calculate_daily_interest ledger e rates_df bands_df = inr (log, total) ∧
     main_results rows e rates_df bands_df
       = inr (inr (log, total, final_balance log, length log))).
Proof.
  unfold main_results. rewrite process_ledger_rows_unfold.
  pose proof (sort_by_Date_perm (dropna rows)) as Hperm.
  pose proof (sort_by_Date_sorted (dropna rows)) as Hsorted.
  destruct (dropna rows) as [|t ts] eqn:E; [done|].
  destruct (OffRelease.calculate_daily_interest (sort_by_Date (t :: ts)) e rates_df bands_df)
    as [err|[log total]] eqn:Hcalc.
  - exfalso. unfold OffRelease.calculate_daily_interest in Hcalc.
    destruct (Date_min_is_Some (sort_by_Date (t :: ts))) as [start Hstart].
    { intros Hnil. rewrite Hnil in Hperm. by apply Permutation_nil_l in Hperm. }
    by rewrite Hstart in Hcalc.
  - split; [done|]. split; [done|]. intros _.
    by exists (sort_by_Date (t :: ts)), log, total.
Qed.

(** ** Rounding keeps the order *)

Lemma round_half_even_cases (q : Q) :
  let n := Qnum q in
  let d := Zpos (Qden q) in
  (round_half_even q = (n / d)%Z ∧ (2 * (n mod d) < d)%Z) ∨
  (round_half_even q = (n / d + 1)%Z ∧ (d < 2 * (n mod d))%Z) ∨
  ((2 * (n mod d) = d)%Z ∧
   (round_half_even q = (n / d)%Z ∧ Z.even (n / d) = true ∨
    round_half_even q = (n / d + 1)%Z ∧ Z.even (n / d) = false)).
Proof.
  cbv zeta. unfold round_half_even.
  destruct (Z.compare_spec (2 * (Qnum q mod Z.pos (Qden q))) (Z.pos (Qden q)))
    as [Heq|Hlt|Hgt].
  - right. right. split; [done|]. destruct (Z.even _); [by left|by right].
  - by left.
  - right. by left.
Qed.

Lemma round_half_even_mono (q1 q2 : Q) :
  (q1 <= q2)%Q → (round_half_even q1 ≤ round_half_even q2)%Z.
Proof.
  unfold Qle. intros Hle.
  pose proof (round_half_even_cases q1) as H1.
  pose proof (round_half_even_cases q2) as H2.
  cbv zeta in H1, H2.
  set (n1 := Qnum q1) in *. set (d1 := Z.pos (Qden q1)) in *.
  set (n2 := Qnum q2) in *. set (d2 := Z.pos (Qden q2)) in *.
  assert (0 < d1)%Z as Hd1 by (unfold d1; lia).
  assert (0 < d2)%Z as Hd2 by (unfold d2; lia).
  pose proof (Z.div_mod n1 d1 ltac:(lia)) as Hn1.
  pose proof (Z.div_mod n2 d2 ltac:(lia)) as Hn2.
  pose proof (Z.mod_pos_bound n1 d1 Hd1) as Hr1.
  pose proof (Z.mod_pos_bound n2 d2 Hd2) as Hr2.
  set (f1 := (n1 / d1)%Z) in *. set (r1 := (n1 mod d1)%Z) in *.
  set (f2 := (n2 / d2)%Z) in *. set (r2 := (n2 mod d2)%Z) in *.
  assert (n1 * d2 = d1 * d2 * f1 + r1 * d2)%Z as Hm1 by (rewrite Hn1 at 1; ring).
  assert (n2 * d1 = d1 * d2 * f2 + r2 * d1)%Z as Hm2 by (rewrite Hn2 at 1; ring).
  assert (0 ≤ r1 * d2)%Z as Hp1 by (apply Z.mul_nonneg_nonneg; lia).
  assert (r2 * d1 < d2 * d1)%Z as Hp2 by (apply Z.mul_lt_mono_pos_r; lia).
  assert (0 < d1 * d2)%Z as Hdd by (apply Z.mul_pos_pos; lia).
  assert (f1 ≤ f2)%Z as Hf.
  { destruct (Z_lt_le_dec f2 f1) as [Hlt|]; [exfalso|done].
    assert (d1 * d2 * (f2 + 1) ≤ d1 * d2 * f1)%Z
      by (apply Z.mul_le_mono_nonneg_l; lia).
    lia. }
  destruct (decide (f1 < f2)%Z) as [Hlt|Hge].
  - destruct H1 as [[-> _]|[[-> _]|[_ [[-> _]|[-> _]]]]];
      destruct H2 as [[-> _]|[[-> _]|[_ [[-> _]|[-> _]]]]]; lia.
  - assert (f1 = f2) as Hf12 by lia.
    assert (r1 * d2 ≤ r2 * d1)%Z as Hr by (rewrite Hf12 in Hm1; lia).
    assert (d1 < 2 * r1 → d2 < 2 * r2)%Z as Hgt.
    { intros Hh. apply (Z.mul_lt_mono_pos_r d1); [done|].
      assert (d1 * d2 < 2 * r1 * d2)%Z by (apply Z.mul_lt_mono_pos_r; lia). lia. }
    assert (2 * r1 = d1 → d2 ≤ 2 * r2)%Z as Heq.
    { intros Hh. apply (Z.mul_le_mono_pos_r _ _ d1); [done|].
      assert (d1 * d2 = 2 * r1 * d2)%Z by (rewrite Hh; ring). lia. }
    destruct H1 as [[-> H1]|[[-> H1]|[H1 [[-> E1]|[-> E1]]]]];
      destruct H2 as [[-> H2]|[[-> H2]|[H2 [[-> E2]|[-> E2]]]]];
      try lia.
    all: rewrite Hf12 in E1; congruence.
Qed.

Lemma pow10_pos (n : nat) : (0 < inject_Z (10 ^ Z.of_nat n))%Q.
Proof.
  rewrite <- (Zlt_Qlt 0). apply Z.pow_pos_nonneg; lia.
Qed.

Lemma Qred_le (a b : Q) : (a <= b)%Q → (Qred a <= Qred b)%Q.
Proof. intros H. by rewrite !Qred_correct. Qed.

Lemma Q2Qc_le (a b : Q) : (a <= b)%Q → Q2Qc a ≤ Q2Qc b.
Proof. intros H. unfold Qcle. cbn [this Q2Qc]. by apply Qred_le. Qed.

(** [round] never reverses the order of two numbers. *)
Lemma round_mono (x y : Qc) (n : nat) : x ≤ y → round x n ≤ round y n.
Proof.
  intros Hxy. unfold round. cbv zeta.
  pose proof (pow10_pos n) as Hs.
  apply Q2Qc_le.
  apply Qmult_le_compat_r; [|by apply Qlt_le_weak, Qinv_lt_0_compat].
  rewrite <- Zle_Qle. apply round_half_even_mono.
  apply Qred_le.
  apply Qmult_le_compat_r; [done|by apply Qlt_le_weak].
Qed.

Lemma round_0 (n : nat) : round 0 n = 0.
Proof.
  apply Qc_is_canon. unfold round. cbn [this Q2Qc].
  rewrite Qred_correct.
  change (Qred (Qred 0 * inject_Z (10 ^ Z.of_nat n))) with (Qred (0 # 1)).
  change (round_half_even (Qred (0 # 1))) with 0%Z.
  unfold Qdiv. by rewrite Qmult_0_l.
Qed.

Lemma round_nonneg (x : Qc) (n : nat) : 0 ≤ x → 0 ≤ round x n.
Proof. intros H. rewrite <- (round_0 n). by apply round_mono. Qed.

(** ** Interest on rates that are not negative *)

Lemma sum_Qc_nonneg (l : list Qc) : Forall (λ x, 0 ≤ x) l → 0 ≤ sum_Qc l.
Proof.
  induction 1 as [|x l Hx _ IH]; [apply Qcle_refl|].
  rewrite sum_Qc_cons. rewrite <- (Qcplus_0_l 0). by apply Qcplus_le_compat.
Qed.

Lemma get_interest_rate_nonneg (rates : list RateEntry) (d : Z) (band : option string) :
  Forall (λ en, 0 ≤ rate en) rates →
  0 ≤ OffRelease.get_interest_rate d band (Some rates).
Proof.
  intros Hrates. unfold OffRelease.get_interest_rate.
  destruct (negb (truthy band)); [apply Qcle_refl|]. cbv zeta.
  destruct (last _) as [en|] eqn:Hlast; [|apply Qcle_refl].
  apply last_Some_elem_of in Hlast. rewrite sort_values_perm in Hlast.
  apply list_elem_of_filter in Hlast as [_ Hin].
  rewrite Forall_forall in Hrates. by apply Hrates.
Qed.

Lemma Qcmult_nonneg (x y : Qc) : 0 ≤ x → 0 ≤ y → 0 ≤ x * y.
Proof.
  intros Hx Hy. pose proof (Qcmult_le_mono_nonneg_l 0 y x Hx Hy) as H.
  by rewrite Qcmult_0_r in H.
Qed.

Lemma dec_365_pos : 0 < dec 365.
Proof. by vm_compute. Qed.

Lemma interest_O_nonneg (rates : list RateEntry) bands_df (d : Z) (b : Qc) :
  Forall (λ en, 0 ≤ rate en) rates →
  0 ≤ Closed.interest_O (Some rates) bands_df d b.
Proof.
  intros Hrates. unfold Closed.interest_O. cbv zeta.
  destruct (truthy _) eqn:Ht; simpl; [|apply Qcle_refl].
  destruct (bool_decide (0 < b)) eqn:Hb; [|apply Qcle_refl].
  apply bool_decide_eq_true_1 in Hb.
  apply Qcmult_nonneg; [by apply Qclt_le_weak|].
  unfold Qcdiv.
  apply Qcmult_nonneg; [|apply Qclt_le_weak, Qcinv_pos, dec_365_pos].
  apply Qcmult_nonneg; [|apply Qclt_le_weak, Qcinv_pos, dec_100_pos].
  by apply get_interest_rate_nonneg.
Qed.

Lemma interest_to_mono (txs : list Transaction) interest (start k k' : Z) :
  (∀ d b, 0 ≤ interest d b) → (k ≤ k')%Z →
  interest_to txs interest start k ≤ interest_to txs interest start k'.
Proof.
  intros Hpos Hle. unfold interest_to.
  destruct (date_range_split start k k' Hle) as [rest ->].
  rewrite fmap_app, sum_Qc_app.
  rewrite <- (Qcplus_0_r (sum_Qc _)) at 1.
  apply Qcplus_le_compat; [apply Qcle_refl|].
  apply sum_Qc_nonneg, Forall_fmap, Forall_forall. intros d _. apply Hpos.
Qed.

Lemma interest_to_nonneg (txs : list Transaction) interest (start k : Z) :
  (∀ d b, 0 ≤ interest d b) → 0 ≤ interest_to txs interest start k.
Proof.
  intros Hpos. unfold interest_to.
  apply sum_Qc_nonneg, Forall_fmap, Forall_forall. intros d _. apply Hpos.
Qed.

(** X6.  When no rate of the table is negative, OffRelease.py never logs a
    negative interest: the daily interest of every row is 0 or more, the
    cumulative interest never goes down from one row to a later one, and
    the total is 0 or more. *)
Theorem OffRelease_interest_never_negative (rates : list RateEntry)
    (bands_df : option (list BandRange)) (txs : list Transaction) (e : Z)
    (log : list LogRow) (total : Qc) :
  Forall (λ en, 0 ≤ rate en) rates →
  OffRelease.calculate_daily_interest txs e (Some rates) bands_df = inr (log, total) →
  Forall (λ r, 0 ≤ Daily_Interest r) log ∧
  (∀ (i j : nat) ri rj, (i ≤ j)%nat → log !! i = Some ri → log !! j = Some rj →
     Total_Interest_So_Far ri ≤ Total_Interest_So_Far rj) ∧
  0 ≤ total.
Proof.
  intros Hrates Hcalc. rewrite calc_O in Hcalc.
  destruct (Date_min txs) as [start|] eqn:Hmin;
    [|unfold engine in Hcalc; by rewrite Hmin in Hcalc].
  destruct (Date_min_spec _ _ Hmin) as [_ Hall].
  pose proof (λ d b, interest_O_nonneg rates bands_df d b Hrates) as Hpos.
  unfold engine in Hcalc. rewrite Hmin in Hcalc. injection Hcalc as <- <-.
  split; [|split].
  - apply Forall_fmap, Forall_forall. intros k _. simpl. by apply round_nonneg.
  - intros i j ri rj Hij Hi Hj.
    rewrite list_lookup_fmap in Hi, Hj.
    destruct (date_range start e !! i) as [ki|] eqn:Hki; [|done].
    destruct (date_range start e !! j) as [kj|] eqn:Hkj; [|done].
    injection Hi as <-. injection Hj as <-. simpl.
    apply lookup_date_range in Hki as [-> _].
    apply lookup_date_range in Hkj as [-> _].
    apply round_mono. rewrite !accrued_interest_to by done.
    apply interest_to_mono; [done|lia].
  - apply round_nonneg. rewrite accrued_interest_to by done.
    by apply interest_to_nonneg.
Qed.

Lemma OffRelease_interest_never_negative_witness :
  Forall (λ r, 0 ≤ Daily_Interest r) Ex.example_log ∧
  (∀ (i j : nat) ri rj, (i ≤ j)%nat →
     Ex.example_log !! i = Some ri → Ex.example_log !! j = Some rj →
     Total_Interest_So_Far ri ≤ Total_Interest_So_Far rj) ∧
  0 ≤ dec 0.3.
Proof.
  apply (OffRelease_interest_never_negative Ex.rates_low (Some Ex.bands_low)
           [(Ex.jan1, dec 1000)] Ex.jan3).
  - repeat constructor. by vm_compute.
  - by_compute.
Defined.

(** ** Rows with a negative balance in OffRelease.py *)

Lemma round_negative (x : Qc) (n : nat) : round x n < 0 → x < 0.
Proof.
  intros H. destruct (Qclt_le_dec x 0) as [|Hle]; [done|].
  exfalso. apply (Qclt_not_le _ _ H). by apply round_nonneg.
Qed.

Lemma engine_lookup interest row (txs : list Transaction) (start e : Z) log total
    (i : nat) (r : LogRow) :
  Date_min txs = Some start →
  engine interest row txs e = inr (log, total) →
  log !! i = Some r →
  let k := (start + Z.of_nat i)%Z in
  (k ≤ e)%Z ∧
  r = row k (netted (groupby_sum txs) start k) (accrued (groupby_sum txs) interest start k).
Proof.
  intros Hmin. unfold engine. rewrite Hmin. intros [= <- <-] Hr. cbv zeta.
  rewrite list_lookup_fmap in Hr.
  destruct (date_range start e !! i) as [k|] eqn:Hk; [|done].
  apply lookup_date_range in Hk as [-> Hle]. injection Hr as <-. done.
Qed.

(** X5.  A row of OffRelease.py's log that shows a negative balance shows
    no band, the rate 0 and the interest 0, and its cumulative interest is
    that of the row before it (0 in the first row): a negative balance
    never accrues, whatever the band table holds. *)
Theorem OffRelease_negative_rows_idle (rates_df : option (list RateEntry))
    (bands_df : option (list BandRange)) (txs : list Transaction) (e : Z)
    (log : list LogRow) (total : Qc) (i : nat) (r : LogRow) :
  OffRelease.calculate_daily_interest txs e rates_df bands_df = inr (log, total) →
  log !! i = Some r →
  Balance r < 0 →
  Band r = "None"%string ∧ Rate r = 0 ∧ Daily_Interest r = 0 ∧
  match i with
  | O => Total_Interest_So_Far r = 0
  | S j => ∃ r', log !! j = Some r' ∧ Total_Interest_So_Far r = Total_Interest_So_Far r'
  end.
Proof.
  intros Hcalc Hr Hneg. rewrite calc_O in Hcalc.
  destruct (Date_min txs) as [start|] eqn:Hmin;
    [|unfold engine in Hcalc; by rewrite Hmin in Hcalc].
  destruct (engine_lookup _ _ _ _ _ _ _ _ _ Hmin Hcalc Hr) as [Hle ->].
  set (k := (start + Z.of_nat i)%Z) in *.
  cbn [Balance Closed.row_O] in Hneg. apply round_negative in Hneg.
  assert (Closed.interest_O rates_df bands_df k (netted (groupby_sum txs) start k) = 0)
    as Hzero.
  { unfold Closed.interest_O. by rewrite band_O_negative. }
  assert (accrued (groupby_sum txs) (Closed.interest_O rates_df bands_df) start k
          = accrued (groupby_sum txs) (Closed.interest_O rates_df bands_df) start (k - 1))
    as Hacc.
  { rewrite (accrued_snoc _ _ start k) by (unfold k; lia). rewrite Hzero. ring. }
  unfold Closed.row_O. cbn [Band Rate Daily_Interest Total_Interest_So_Far].
  rewrite Hzero, Hacc. unfold Closed.annual_O. rewrite band_O_negative by done.
  split; [done|]. split; [apply round_0|]. split; [apply round_0|].
  destruct i as [|j].
  - rewrite accrued_before by (unfold k; lia). apply round_0.
  - unfold engine in Hcalc. rewrite Hmin in Hcalc. injection Hcalc as <- _.
    eexists. split.
    + rewrite list_lookup_fmap.
      rewrite (proj2 (lookup_date_range start e j (start + Z.of_nat j)%Z)); [done|].
      unfold k in Hle. split; [done|lia].
    + cbn [Total_Interest_So_Far Closed.row_O]. do 2 f_equal. unfold k. lia.
Qed.

Lemma OffRelease_negative_rows_idle_witness :
  Band (mkRow Ex.jan2 (dec (-250)) "None" 0 0 (dec 0.1)) = "None"%string ∧
  Rate (mkRow Ex.jan2 (dec (-250)) "None" 0 0 (dec 0.1)) = 0 ∧
  Daily_Interest (mkRow Ex.jan2 (dec (-250)) "None" 0 0 (dec 0.1)) = 0 ∧
  ∃ r', [mkRow Ex.jan1 (dec 1000) "Low" (dec 3.65) (dec 0.1) (dec 0.1);
         mkRow Ex.jan2 (dec (-250)) "None" 0 0 (dec 0.1)] !! 0%nat = Some r' ∧
        Total_Interest_So_Far (mkRow Ex.jan2 (dec (-250)) "None" 0 0 (dec 0.1))
        = Total_Interest_So_Far r'.
Proof.
  apply (OffRelease_negative_rows_idle (Some Ex.rates_low) (Some Ex.bands_low)
           [(Ex.jan1, dec 1000); (Ex.jan2, dec (-1250))] Ex.jan2
           [mkRow Ex.jan1 (dec 1000) "Low" (dec 3.65) (dec 0.1) (dec 0.1);
            mkRow Ex.jan2 (dec (-250)) "None" 0 0 (dec 0.1)] (dec 0.1) 1).
  - by_compute.
  - reflexivity.
  - by vm_compute.
Defined.

(** On doubles a balance that the ledger brings back to zero can stay a
    hair above it.  Deposits of 902.71, 340.65 and 666.57 and a withdrawal
    of 1909.93, one a day, leave 2.27e-13: the row of the last day shows
    the balance 0.0 beside the band and its rate.  This is why the
    property above is stated on the balance that the row shows. *)
Example balance_residue_in_doubles :
  Generic.calculate_daily_interest Float.arithmetic Generic.sort_values
    [(Float.jan1, 902.71%float); ((Float.jan1 + 1)%Z, 340.65%float);
     ((Float.jan1 + 2)%Z, 666.57%float); ((Float.jan1 + 3)%Z, (-1909.93)%float)]
    (Float.jan1 + 3) (Some Float.rates_low) (Some Float.bands_low) =
  inr ([Generic.mkRow Float.jan1 902.71%float "Low" 3.65%float
          0.090271%float 0.090271%float;
        Generic.mkRow (Float.jan1 + 1) 1243.36%float "Low" 3.65%float
          0.124336%float 0.214607%float;
        Generic.mkRow (Float.jan1 + 2) 1909.93%float "Low" 3.65%float
          0.190993%float 0.4056%float;
        Generic.mkRow (Float.jan1 + 3) 0%float "Low" 3.65%float 0%float 0.4056%float],
       0.41%float).
Proof. vm_compute. reflexivity. Qed.

(** ** The balance statistics against the log *)

(** X13.  The balances of the log lie between the lowest and the highest
    balance of the statistics, rounded as the log rounds: for every row
    [round(min_balance, 2) <= Balance <= round(max_balance, 2)], and both
    bounds are the balance of some row. *)
Theorem stats_balance_bounds rates_df bands_df (txs : list Transaction)
    (start e : Z) log total stats :
  Date_min txs = Some start →
  (start ≤ e)%Z →
  AHHHAHAHA.calculate_daily_interest txs e rates_df bands_df = inr (log, total, stats) →
  (∀ r, r ∈ log →
        round (min_balance stats) 2 ≤ Balance r ∧
        Balance r ≤ round (max_balance stats) 2) ∧
  (∃ r, r ∈ log ∧ Balance r = round (max_balance stats) 2) ∧
  (∃ r, r ∈ log ∧ Balance r = round (min_balance stats) 2).
Proof.
  intros Hmin Hle Hcalc.
  destruct (calc_AH_closed _ _ _ _ _ _ _ _ Hmin Hcalc) as (HO & _ & _ & Hstats).
  cbv zeta in Hstats.
  rewrite calc_O in HO. unfold engine in HO. rewrite Hmin in HO. injection HO as <- _.
  set (net := groupby_sum txs) in *.
  assert (∀ x, x ∈ netted net start <$> date_range start e →
               ∃ r, r ∈ (λ k, Closed.row_O rates_df bands_df k (netted net start k)
                                 (accrued net (Closed.interest_O rates_df bands_df) start k))
                          <$> date_range start e ∧
                    Balance r = round x 2) as Hrow.
  { intros x (k & -> & Hk)%list_elem_of_fmap.
    eexists. split; [apply list_elem_of_fmap; by exists k|done]. }
  assert (length (netted net start <$> date_range start e) = Z.to_nat (e - start + 1))
    as Hlen by by rewrite length_fmap, length_date_range.
  destruct (netted net start <$> date_range start e) as [|b bs] eqn:E.
  { simpl in Hlen. lia. }
  destruct Hstats as (-> & -> & _).
  destruct (foldl_Qc_max_spec b bs) as [Hmax_in Hmax].
  destruct (foldl_Qc_min_spec b bs) as [Hmin_in Hmin'].
  split; [|split].
  - intros r (k & -> & Hk)%list_elem_of_fmap. cbn [Balance Closed.row_O].
    assert (netted net start k ∈ b :: bs) as Hin.
    { rewrite <- E. apply list_elem_of_fmap. by exists k. }
    split; apply round_mono; [by apply Hmin'|by apply Hmax].
  - by apply Hrow.
  - by apply Hrow.
Qed.

Lemma stats_balance_bounds_witness :
  ∃ r, r ∈ Ex.example_log ∧
       Balance r = round (max_balance (mkStats (dec 1000) (dec 1000) (dec 1000) 3 3)) 2.
Proof.
  refine (proj1 (proj2 (stats_balance_bounds (Some Ex.rates_low) (Some Ex.bands_low)
    [(Ex.jan1, dec 1000)] Ex.jan1 Ex.jan3 Ex.example_log (dec 0.3)
    (mkStats (dec 1000) (dec 1000) (dec 1000) 3 3) _ _ _))).
  - reflexivity.
  - by vm_compute.
  - by_compute.
Defined.

(** ** The period filter compares texts *)

Lemma digit_compare (a b : Z) :
  (0 ≤ a)%Z → (0 ≤ b)%Z → (digit a ?= digit b)%N = (a ?= b)%Z.
Proof.
  intros Ha Hb. unfold digit.
  destruct (Z.compare_spec a b) as [->|Hlt|Hgt].
  - apply N.compare_refl.
  - apply N.compare_lt_iff. lia.
  - apply N.compare_gt_iff. lia.
Qed.

Lemma two_digits_compare (a b : Z) (s t : text) :
  (0 ≤ a < 100)%Z → (0 ≤ b < 100)%Z →
  text_compare (two_digits a ++ s) (two_digits b ++ t) =
  match (a ?= b)%Z with
  | Eq => text_compare s t
  | c => c
  end.
Proof.
  intros Ha Hb. unfold two_digits. cbn [app text_compare].
  pose proof (Z.div_mod a 10 ltac:(lia)) as Ea.
  pose proof (Z.div_mod b 10 ltac:(lia)) as Eb.
  pose proof (Z.mod_pos_bound a 10 ltac:(lia)) as Ra.
  pose proof (Z.mod_pos_bound b 10 ltac:(lia)) as Rb.
  assert (0 ≤ a / 10)%Z by (apply Z.div_pos; lia).
  assert (0 ≤ b / 10)%Z by (apply Z.div_pos; lia).
  rewrite !digit_compare by lia.
  destruct (Z.compare_spec (a / 10) (b / 10)) as [Hq|Hq|Hq].
  - destruct (Z.compare_spec (a mod 10) (b mod 10)) as [Hr|Hr|Hr].
    + assert (a = b) as -> by lia. by rewrite Z.compare_refl.
    + assert (a < b)%Z as ->%Z.compare_lt_iff by lia. done.
    + assert (b < a)%Z as ->%Z.compare_gt_iff by lia. done.
  - assert (a < b)%Z as ->%Z.compare_lt_iff by lia. done.
  - assert (b < a)%Z as ->%Z.compare_gt_iff by lia. done.
Qed.

Lemma four_digits_two (y : Z) :
  (0 ≤ y < 10000)%Z → four_digits y = two_digits (y / 100) ++ two_digits (y mod 100).
Proof.
  intros Hy. unfold four_digits, two_digits. cbn [app].
  assert (y / 100 / 10 = y / 1000)%Z as ->
    by (Z.to_euclidean_division_equations; lia).
  assert (y mod 100 / 10 = y / 10 mod 10)%Z as ->
    by (Z.to_euclidean_division_equations; lia).
  assert ((y mod 100) mod 10 = y mod 10)%Z as ->
    by (Z.to_euclidean_division_equations; lia).
  done.
Qed.

Lemma four_digits_compare (a b : Z) :
  (0 ≤ a < 10000)%Z → (0 ≤ b < 10000)%Z →
  text_compare (four_digits a) (four_digits b) = (a ?= b)%Z.
Proof.
  intros Ha Hb. rewrite !four_digits_two by done.
  pose proof (Z.div_mod a 100 ltac:(lia)) as Ea.
  pose proof (Z.div_mod b 100 ltac:(lia)) as Eb.
  pose proof (Z.mod_pos_bound a 100 ltac:(lia)) as Ra.
  pose proof (Z.mod_pos_bound b 100 ltac:(lia)) as Rb.
  assert (0 ≤ a / 100 < 100)%Z.
  { split; [apply Z.div_pos; lia|apply Z.div_lt_upper_bound; lia]. }
  assert (0 ≤ b / 100 < 100)%Z.
  { split; [apply Z.div_pos; lia|apply Z.div_lt_upper_bound; lia]. }
  rewrite two_digits_compare by done.
  rewrite <- (app_nil_r (two_digits (a mod 100))).
  rewrite <- (app_nil_r (two_digits (b mod 100))).
  rewrite two_digits_compare by done. cbn [text_compare].
  destruct (Z.compare_spec (a / 100) (b / 100)) as [Hq|Hq|Hq].
  - destruct (Z.compare_spec (a mod 100) (b mod 100)) as [Hr|Hr|Hr].
    + assert (a = b) as -> by lia. by rewrite Z.compare_refl.
    + symmetry. apply Z.compare_lt_iff. lia.
    + symmetry. apply Z.compare_gt_iff. lia.
  - symmetry. apply Z.compare_lt_iff. lia.
  - symmetry. apply Z.compare_gt_iff. lia.
Qed.

(** X21.  The period filter compares the date texts, and these begin with the
    day: a row is kept when its day of the month is after that of the
    cutoff, or the days are equal and its month is after, or both are equal
    and its year is not before.  The year is looked at last. *)
Theorem period_filter_day_first (y m d y' m' d' : Z) :
  (0 ≤ d < 100)%Z → (0 ≤ m < 100)%Z → (0 ≤ y < 10000)%Z →
  (0 ≤ d' < 100)%Z → (0 ≤ m' < 100)%Z → (0 ≤ y' < 10000)%Z →
  (text_ge (strftime_dmY y m d) (strftime_dmY y' m' d') = true ↔
   (d' < d ∨ d = d' ∧ (m' < m ∨ m = m' ∧ y' ≤ y))%Z) ∧
  period_filter (strftime_dmY y' m' d') [strftime_dmY y m d] =
    if text_ge (strftime_dmY y m d) (strftime_dmY y' m' d')
    then [strftime_dmY y m d] else [].
Proof.
  intros Hd Hm Hy Hd' Hm' Hy'. split; [|done].
  unfold text_ge, strftime_dmY.
  rewrite two_digits_compare by done.
  cbn [app text_compare]. rewrite N.compare_refl.
  rewrite two_digits_compare by done.
  cbn [app text_compare]. rewrite N.compare_refl.
  rewrite four_digits_compare by done.
  destruct (Z.compare_spec d d') as [Hdd|Hdd|Hdd];
    [destruct (Z.compare_spec m m') as [Hmm|Hmm|Hmm];
     [destruct (Z.compare_spec y y') as [Hyy|Hyy|Hyy]|..]|..];
    split; intros; try done; try lia.
Qed.

Lemma period_filter_day_first_witness :
  (text_ge (strftime_dmY 2020 1 20) (strftime_dmY 2024 6 15) = true ↔
   (15 < 20 ∨ 20 = 15 ∧ (6 < 1 ∨ 1 = 6 ∧ 2024 ≤ 2020))%Z) ∧
  period_filter (strftime_dmY 2024 6 15) [strftime_dmY 2020 1 20] =
    if text_ge (strftime_dmY 2020 1 20) (strftime_dmY 2024 6 15)
    then [strftime_dmY 2020 1 20] else [].
Proof.
  apply (period_filter_day_first 2020 1 20 2024 6 15); lia.
Defined.

(** With the cutoff 15/06/2024 the filter keeps the row of 20/01/2020,
    which is years older, and drops the row of 01/07/2024, which is later
    than the cutoff. *)
Example period_filter_keeps_older_drops_newer :
  period_filter (strftime_dmY 2024 6 15)
    [strftime_dmY 2020 1 20; strftime_dmY 2024 7 1; strftime_dmY 2024 6 16]
  = [strftime_dmY 2020 1 20; strftime_dmY 2024 6 16] ∧
  (toordinal 2020 1 20 < toordinal 2024 6 15 < toordinal 2024 7 1)%Z.
Proof. split; [reflexivity|by vm_compute]. Qed.

(** ** What the band lookup returns *)

Lemma filter_head_spec {A} (P : A → Prop) `{!∀ x, Decision (P x)} (l : list A) :
  match filter P l with
  | x :: _ => x ∈ l ∧ P x
  | [] => Forall (λ x, ¬ P x) l
  end.
Proof.
  destruct (filter P l) as [|x k] eqn:E.
  - apply Forall_forall. intros x Hx HP.
    assert (x ∈ filter P l) as Hin by (by apply list_elem_of_filter).
    rewrite E in Hin. by apply not_elem_of_nil in Hin.
  - assert (x ∈ filter P l) as Hin by (rewrite E; left).
    apply list_elem_of_filter in Hin as [HP Hin]. done.
Qed.

(** X8.  The band lookup never fails and never invents a band: a band it
    returns is the band of a range of the table that contains the balance,
    and it returns none exactly when no range of the table contains the
    balance (for [get_band_for_balance]: or the balance is negative). *)
Theorem band_lookup_sound (bands : list BandRange) (b : Qc) :
  (∀ s, HOHOHOHOH.get_band_name bands b = Some s →
        ∃ r, r ∈ bands ∧ band r = s ∧ Minimum r ≤ b ≤ Maximum r) ∧
  (HOHOHOHOH.get_band_name bands b = None ↔
   Forall (λ r, ¬ (Minimum r ≤ b ≤ Maximum r)) bands) ∧
  (∀ s, OffRelease.get_band_for_balance b (Some bands) = Some s →
        0 ≤ b ∧ ∃ r, r ∈ bands ∧ band r = s ∧ Minimum r ≤ b ≤ Maximum r) ∧
  (OffRelease.get_band_for_balance b (Some bands) = None ↔
   b < 0 ∨ Forall (λ r, ¬ (Minimum r ≤ b ≤ Maximum r)) bands).
Proof.
  pose proof (filter_head_spec (λ r, Minimum r ≤ b ≤ Maximum r) bands) as Hhead.
  assert ((∀ s, HOHOHOHOH.get_band_name bands b = Some s →
             ∃ r, r ∈ bands ∧ band r = s ∧ Minimum r ≤ b ≤ Maximum r) ∧
          (HOHOHOHOH.get_band_name bands b = None ↔
           Forall (λ r, ¬ (Minimum r ≤ b ≤ Maximum r)) bands)) as [HH1 HH2].
  { unfold HOHOHOHOH.get_band_name.
    destruct (filter _ bands) as [|r k] eqn:E.
    - split; [done|]. done.
    - destruct Hhead as [Hin Hr]. split.
      + intros s [= <-]. by exists r.
      + split; [done|]. intros Hnone. rewrite Forall_forall in Hnone.
        by destruct (Hnone r Hin). }
  split; [done|]. split; [done|].
  destruct (Qclt_le_dec b 0) as [Hneg|Hpos].
  - rewrite band_O_negative by done. split; [done|]. split; [by left|done].
  - rewrite band_O_nonnegative by done. split.
    + intros s Hs. split; [done|]. by apply HH1.
    + rewrite HH2. split; [by right|]. intros [Hneg|?]; [|done].
      by apply Qcle_not_lt in Hpos.
Qed.

(** ** Missing reference data *)

Lemma accrued_zero net interest (start : Z) :
  (∀ d b, interest d b = 0) → ∀ e, accrued net interest start e = 0.
Proof.
  intros Hzero. apply (date_range_ind start).
  - intros e He. by apply accrued_before.
  - intros e He IH. rewrite accrued_snoc, IH, Hzero by done. ring.
Qed.

(** X7.  When the rate table or the band table is missing ([None]),
    [calculate_daily_interest] still returns a log: every row has rate 0,
    interest 0 and cumulative interest 0, and the total is 0. *)
Theorem no_reference_data_no_interest (rates_df : option (list RateEntry))
    (bands_df : option (list BandRange)) (txs : list Transaction) (e : Z)
    (log : list LogRow) (total : Qc) :
  rates_df = None ∨ bands_df = None →
  OffRelease.calculate_daily_interest txs e rates_df bands_df = inr (log, total) →
  Forall (λ r, Rate r = 0 ∧ Daily_Interest r = 0 ∧ Total_Interest_So_Far r = 0) log ∧
  total = 0.
Proof.
  intros Hnone Hcalc. rewrite calc_O in Hcalc.
  assert (∀ d b, Closed.annual_O rates_df bands_df d b = 0) as Hannual.
  { intros d b. unfold Closed.annual_O.
    destruct Hnone as [-> | ->]; simpl; [|done].
    by destruct (truthy _ && _). }
  assert (∀ d b, Closed.interest_O rates_df bands_df d b = 0) as Hinterest.
  { intros d b. unfold Closed.interest_O.
    destruct Hnone as [-> | ->]; simpl; [|done].
    destruct (truthy _ && _); [|done]. unfold Qcdiv. ring. }
  unfold engine in Hcalc. destruct (Date_min txs) as [start|]; [|done].
  injection Hcalc as <- <-.
  pose proof (accrued_zero (groupby_sum txs) _ start Hinterest) as Hacc.
  split.
  - apply Forall_fmap, Forall_forall. intros k _. simpl.
    rewrite Hannual, Hinterest, Hacc. by rewrite round_0_4, round_0_6.
  - rewrite Hacc. by_compute.
Qed.

Lemma no_reference_data_no_interest_witness :
  Forall (λ r, Rate r = 0 ∧ Daily_Interest r = 0 ∧ Total_Interest_So_Far r = 0)
         [mkRow Ex.jan1 (dec 1000) "Low" 0 0 0] ∧
  (0 : Qc) = 0.
Proof.
  apply (no_reference_data_no_interest None (Some Ex.bands_low)
           [(Ex.jan1, dec 1000)] Ex.jan1).
  - by left.
  - by_compute.
Defined.
